(** * pred_spot_intensity.train_pytorch_models

    A shallow embedding of [src/pred_spot_intensity/train_pytorch_models.py]
    and the properties of it that the specification states.

    Conventions of the embedding.
    - A raised Python exception is a [Raise e]; a function that can raise
      returns a [result].  Functions that call into the training stack
      also log what they did, in program order, in a trace of [event]s.
    - pandas frames are kept as pandas keeps them: a row index, a column
      index and a block of cells.  A cell is dynamically typed ([NaN], a
      number or a boolean).
    - Floating-point numbers are stood for by exact numbers: [Z] where the
      code only copies them or overwrites them with the constants [0] and
      [-1], [Q] where it averages them.
    - Calls that leave the repository (scikit-learn, Lightning, shap,
      allRank, the sibling module [pytorch_utils]) are the fields of a
      [runtime] that every driver takes; a property that needs something
      of them says so in a hypothesis.
    - The module's first import block binds [torch], [DataLoader],
      [TrainValData] and the other names of the training stack, and on an
      [ImportError] binds [torch = None] only.  [torch_imported] says which
      of the two happened; a function that reaches one of the other names
      when the block failed raises [NameError] there ([torch_name], and
      the guard of [trainer_fit]).
    - A [DataLoader] is the record of the arguments it was built with.
      What torch checks when it builds one (a batch size below one is
      refused) is not modelled: a property that depends on the batches
      assumes a positive batch size. *)

From Stdlib Require Import List ZArith QArith String Bool Lia PeanoNat.
From Stdlib Require Import Qabs Permutation Sorted OrderedTypeEx.
Import ListNotations.

Local Close Scope Q_scope.
Local Open Scope string_scope.
Local Open Scope list_scope.

(* ================================================================= *)
(** ** Python results *)

Module Py.

Inductive exn : Type :=
| AssertionError
| ValueError
| KeyError
| AttributeError
| IndexError
| TypeError
| NameError.

Inductive result (A : Type) : Type :=
| Ok (a : A)
| Raise (e : exn).

Arguments Ok {A} a.
Arguments Raise {A} e.

Definition bind {A B : Type} (r : result A) (k : A -> result B) : result B :=
  match r with
  | Ok a => k a
  | Raise e => Raise e
  end.

End Py.

Import Py.

Declare Scope py_scope.
Delimit Scope py_scope with py.

Notation "x <- r ;; k" := (Py.bind r (fun x => k))
  (at level 61, r at next level, right associativity) : py_scope.
Notation "' p <- r ;; k" := (Py.bind r (fun x => let p := x in k))
  (at level 61, p pattern, r at next level, right associativity) : py_scope.

Local Open Scope py_scope.

(* ================================================================= *)
(** ** List helpers shared by the numpy and pandas models *)

Section ListHelpers.

Context {A B C : Type}.

(** Element-wise combination of two equally long lists; the shorter
    list decides the length, as [zip] does. *)
Definition map2 (f : A -> B -> C) (l1 : list A) (l2 : list B) : list C :=
  map (fun p => f (fst p) (snd p)) (combine l1 l2).

(** Boolean-mask selection, [arr[mask]]. *)
Fixpoint select (mask : list bool) (l : list A) : list A :=
  match mask, l with
  | m :: mask', x :: l' =>
      if m then x :: select mask' l' else select mask' l'
  | _, _ => []
  end.

(** Duplicate detection with a decidable equality. *)
Variable eq_dec : forall x y : A, {x = y} + {x <> y}.

Fixpoint has_dup (l : list A) : bool :=
  match l with
  | [] => false
  | x :: l' =>
      existsb (fun y => if eq_dec x y then true else false) l'
      || has_dup l'
  end.

End ListHelpers.

Arguments has_dup {A} eq_dec l.

(** Sorted, duplicate-free list of the keys of a list, for a three-way
  comparison: what pandas builds for the axes of a pivot. *)
Section SortUnique.

Variable K : Type.
Variable cmp : K -> K -> comparison.

Fixpoint insert_key (k : K) (l : list K) : list K :=
  match l with
  | [] => [k]
  | h :: t =>
      match cmp k h with
      | Lt => k :: h :: t
      | Eq => h :: t
      | Gt => h :: insert_key k t
      end
  end.

Definition sort_unique (l : list K) : list K :=
  fold_right insert_key [] l.

End SortUnique.

Arguments insert_key {K} cmp k l.
Arguments sort_unique {K} cmp l.

(* ================================================================= *)
(** ** Cells, frames and arrays *)

(** A cell of a frame or of an object array. *)
Inductive cell : Type :=
| NaN
| Num (z : Z)
| Bool (b : bool).

Definition cell_isna (c : cell) : bool :=
  match c with
  | NaN => true
  | _ => false
  end.

(** What a cell contributes to [sum]: [True] is one, NaN is skipped. *)
Definition cell_to_Z (c : cell) : Z :=
  match c with
  | NaN => 0%Z
  | Num z => z
  | Bool true => 1%Z
  | Bool false => 0%Z
  end.

(** [c == False], element-wise ([0 == False] holds in Python). *)
Definition cell_eq_False (c : cell) : bool :=
  match c with
  | Bool false => true
  | Num 0%Z => true
  | _ => false
  end.

(** Truth value of a cell of a boolean mask. *)
Definition cell_is_True (c : cell) : bool :=
  match c with
  | Bool true => true
  | _ => false
  end.

(** [not c] on a cell of a boolean array. *)
Definition cell_not (c : cell) : cell :=
  match c with
  | Bool b => Bool (negb b)
  | Num z => Bool (z =? 0)%Z
  | NaN => Bool false
  end.

(** A row label: one string per index level. *)
Definition row_key : Type := list string.

(** A column label of the pivoted frames: (matrix, polarity). *)
Definition col_key : Type := (string * string)%type.

Definition row_key_eq_dec : forall a b : row_key, {a = b} + {a <> b} :=
  list_eq_dec string_dec.

Definition col_key_eq_dec : forall a b : col_key, {a = b} + {a <> b}.
Proof. decide equality; apply string_dec. Defined.

Definition row_key_compare : row_key -> row_key -> comparison :=
  list_compare String.compare.

Definition col_key_compare (a b : col_key) : comparison :=
  match String.compare (fst a) (fst b) with
  | Eq => String.compare (snd a) (snd b)
  | c => c
  end.

(** A 2-D numpy array: its second dimension is kept apart, as an array
    with no row still has columns. *)
Record ndarray (A : Type) : Type := mk_ndarray {
  shape1 : nat;
  rows : list (list A)
}.

Arguments mk_ndarray {A} shape1 rows.
Arguments shape1 {A} n.
Arguments rows {A} n.

Definition shape0 {A : Type} (a : ndarray A) : nat := List.length (rows a).

(** A pandas frame whose columns are (matrix, polarity) pairs. *)
Record frame : Type := mk_frame {
  index : list row_key;
  columns : list col_key;
  values : list (list cell)
}.

Definition to_numpy (t : frame) : ndarray cell :=
  mk_ndarray (List.length (columns t)) (values t).

(** The cell at a row position and a column position. *)
Definition iat (vs : list (list cell)) (i j : nat) : option cell :=
  match nth_error vs i with
  | Some row => nth_error row j
  | None => None
  end.

(** The frame whose cell at (r, c) is [f r c]. *)
Definition tabulate (idx : list row_key) (cols : list col_key)
    (f : row_key -> col_key -> cell) : frame :=
  mk_frame idx cols (map (fun r => map (f r) cols) idx).

(** [t.isna()] *)
Definition isna (t : frame) : frame :=
  mk_frame (index t) (columns t)
           (map (map (fun c => Bool (cell_isna c))) (values t)).

(** [t == False] *)
Definition eq_False (t : frame) : frame :=
  mk_frame (index t) (columns t)
           (map (map (fun c => Bool (cell_eq_False c))) (values t)).

(** [t[mask] = v] for a boolean frame [mask] with the axes of [t]. *)
Definition setitem_mask (t mask : frame) (v : cell) : frame :=
  mk_frame (index t) (columns t)
           (map2 (map2 (fun c m => if cell_is_True m then v else c))
                 (values t) (values mask)).

(** [t.sum(axis=1)] *)
Definition sum_axis1 (t : frame) : list Z :=
  map (fun row => fold_right Z.add 0%Z (map cell_to_Z row)) (values t).

(** [t[mask]] for a boolean series [mask] over the rows of [t]. *)
Definition getitem_rows (t : frame) (mask : list bool) : frame :=
  mk_frame (select mask (index t)) (columns t) (select mask (values t)).

(** [np.logical_not(a)] *)
Definition logical_not (a : ndarray cell) : ndarray cell :=
  mk_ndarray (shape1 a) (map (map cell_not) (rows a)).

(* ================================================================= *)
(** ** The intensity observation table and its pivot *)

(** One row of [intensities_df]; [intensity] is the column that
    [intensity_column] names. *)
Record observation : Type := mk_observation {
  name_short : string;
  adduct : string;
  matrix : string;
  polarity : string;
  intensity : Z;
  detected : bool
}.

(** [index_cols = ['name_short', 'adduct'] if use_adduct_features else
    ['name_short']], applied to a row. *)
Definition index_key (use_adduct_features : bool) (o : observation) : row_key :=
  if use_adduct_features then [name_short o; adduct o] else [name_short o].

Definition column_key (o : observation) : col_key := (matrix o, polarity o).

Definition at_key (use_adduct_features : bool) (r : row_key) (c : col_key)
    (o : observation) : bool :=
  (if row_key_eq_dec (index_key use_adduct_features o) r then true else false)
  && (if col_key_eq_dec (column_key o) c then true else false).

(** The observation of an (entity, matrix, polarity) combination, if the
    table has one. *)
Definition observed (use_adduct_features : bool) (df : list observation)
    (r : row_key) (c : col_key) : option observation :=
  find (at_key use_adduct_features r c) df.

Definition pivot_cell (use_adduct_features : bool) (value : observation -> cell)
    (df : list observation) (r : row_key) (c : col_key) : cell :=
  match observed use_adduct_features df r c with
  | Some o => value o
  | None => NaN
  end.

Definition entry_key (use_adduct_features : bool) (o : observation)
    : row_key * col_key :=
  (index_key use_adduct_features o, column_key o).

Definition entry_key_eq_dec : forall a b : row_key * col_key, {a = b} + {a <> b}.
Proof. decide equality; [apply col_key_eq_dec | apply row_key_eq_dec]. Defined.

(** Two observations of one (entity, matrix, polarity) combination. *)
Definition duplicate_entries (use_adduct_features : bool)
    (df : list observation) : bool :=
  has_dup entry_key_eq_dec (map (entry_key use_adduct_features) df).

(** [df.pivot(index=index_cols, columns=["matrix", "polarity"],
    values=...)]: sorted unique keys on both axes, NaN where the table has
    no row, and a ValueError when a combination occurs twice. *)
Definition pivot (use_adduct_features : bool) (value : observation -> cell)
    (df : list observation) : result frame :=
  if duplicate_entries use_adduct_features df then Raise ValueError
  else
    Ok (tabulate
          (sort_unique row_key_compare (map (index_key use_adduct_features) df))
          (sort_unique col_key_compare (map column_key df))
          (pivot_cell use_adduct_features value df)).

(* ================================================================= *)
(** ** Reshaping to the training format (orchestrator, lines 235-251) *)

Definition task_is (task_name name : string) : bool := String.eqb task_name name.

Record training_frames : Type := mk_training_frames {
  tf_Y : frame;
  tf_Y_detected : frame;
  tf_Y_is_na : frame
}.

Definition reshape_to_training_format (use_adduct_features : bool)
    (task_name : string) (intensities_df : list observation)
    : result training_frames :=
  Y <- pivot use_adduct_features (fun o => Num (intensity o)) intensities_df ;;
  Y_detected <-
    pivot use_adduct_features (fun o => Bool (detected o)) intensities_df ;;
  (* Mask NaN values *)
  let Y_is_na := isna Y_detected in
  let Y_detected := setitem_mask Y_detected Y_is_na (Bool false) in
  let detected_ion_mask := map (fun s => (0 <? s)%Z) (sum_axis1 Y_detected) in
  let '(Y, Y_detected, Y_is_na) :=
    if task_is task_name "ranking" then
      (* Remove ions that are never detected *)
      (getitem_rows Y detected_ion_mask,
       getitem_rows Y_detected detected_ion_mask,
       getitem_rows Y_is_na detected_ion_mask)
    else (Y, Y_detected, Y_is_na) in
  (* Set not-detected intensities to zero *)
  let Y := setitem_mask Y (eq_False Y_detected) (Num 0) in
  Ok (mk_training_frames Y Y_detected Y_is_na).

(** Target and ignore mask of a task (orchestrator, lines 275-286). *)
Definition select_target (task_name : string) (fr : training_frames)
    : result (frame * option (ndarray cell)) :=
  if task_is task_name "ranking" then
    (* Not-detected intensities are masked to value -1 *)
    Ok (setitem_mask (tf_Y fr) (tf_Y_is_na fr) (Num (-1)), None)
  else if task_is task_name "detection" then
    Ok (tf_Y_detected fr, Some (to_numpy (tf_Y_is_na fr)))
  else if task_is task_name "regression" then
    Ok (tf_Y fr, Some (logical_not (to_numpy (tf_Y_detected fr))))
  else Raise ValueError.

(** The target matrix and the ignore mask that the orchestrator derives
    from the observation table. *)
Definition training_targets (use_adduct_features : bool) (task_name : string)
    (intensities_df : list observation)
    : result (frame * option (ndarray cell)) :=
  fr <- reshape_to_training_format use_adduct_features task_name
          intensities_df ;;
  select_target task_name fr.

(** Whether the table marks the combination (r, c) as detected; an absent
    combination is not detected. *)
Definition detected_at (use_adduct_features : bool) (df : list observation)
    (r : row_key) (c : col_key) : bool :=
  match observed use_adduct_features df r c with
  | Some o => detected o
  | None => false
  end.

(** Whether the entity [r] is detected in at least one column of [cols]. *)
Definition ever_detected (use_adduct_features : bool) (df : list observation)
    (cols : list col_key) (r : row_key) : bool :=
  existsb (detected_at use_adduct_features df r) cols.


(* ================================================================= *)
(** ** Effects: a trace of the calls into the training stack *)

(** What a Python keyword argument can hold. *)
Inductive py_value : Type :=
| PyNone
| PyBool (b : bool)
| PyInt (z : Z)
| PyFloat (q : Q)
| PyStr (s : string).

Definition kwargs : Type := list (string * py_value).

(** [class NeuralNDCGLoss]: the only attribute is [loss_kwargs]. *)
Record NeuralNDCGLoss : Type := mk_NeuralNDCGLoss {
  loss_kwargs : kwargs
}.

Inductive activation : Type :=
| Sigmoid.

Inductive loss_function : Type :=
| RankingLoss (l : NeuralNDCGLoss)
| SorensenDiceLoss
| MSELoss.

(** The arguments of [SimpleTwoLayersNN(...)]. *)
Record SimpleTwoLayersNN : Type := mk_SimpleTwoLayersNN {
  num_feat : nat;
  nb_in_feat : nat;
  nb_out_feat : nat;
  loss : loss_function;
  learning_rate : Q;
  final_activation : option activation;
  has_ignore_mask : bool
}.

(** [TrainValData(X, Y, ignore_mask=...)] and [TestData(X)]. *)
Inductive dataset : Type :=
| TrainValData (X Y : ndarray cell) (ignore_mask : option (ndarray cell))
| TestData (X : ndarray cell).

(** [len(dataset)] *)
Definition dataset_rows (d : dataset) : nat :=
  match d with
  | TrainValData X _ _ => shape0 X
  | TestData X => shape0 X
  end.

(** [DataLoader(dataset=..., batch_size=..., sampler=..., drop_last=...)];
    the sampler is the index list of a [SubsetRandomSampler]. *)
Record DataLoader : Type := mk_DataLoader {
  dl_dataset : dataset;
  dl_batch_size : nat;
  dl_sampler : option (list nat);
  dl_drop_last : bool
}.

(** The batches a loader makes of the indices its sampler draws: groups
    of [batch_size] in the order drawn, the last one shorter when the
    indices run out, and left out when [drop_last] is set. *)
Fixpoint chunks {A : Type} (fuel n : nat) (l : list A) : list (list A) :=
  match fuel, l with
  | S fuel', _ :: _ => firstn n l :: chunks fuel' n (skipn n l)
  | _, _ => []
  end.

Definition batches_of {A : Type} (batch_size : nat) (drop_last : bool)
    (l : list A) : list (list A) :=
  let batches := chunks (List.length l) batch_size l in
  if drop_last
  then filter (fun b => (List.length b =? batch_size)%nat) batches
  else batches.

Inductive event : Type :=
| EvKMeans                          (* KMeans(...).fit(Y) *)
| EvSplit (n_splits : nat)          (* StratifiedKFold(...).split(...) *)
| EvModel (m : SimpleTwoLayersNN)   (* SimpleTwoLayersNN(...) *)
| EvLoadCheckpoint (path : string)  (* SimpleTwoLayersNN.load_from_checkpoint *)
| EvFit (max_epochs : nat)          (* pl.Trainer(...), trainer.fit *)
| EvPredict                         (* trainer.predict *)
| EvExplain                         (* shap.DeepExplainer, shap_values *)
| EvPrint.                          (* print *)


Module IO.

(** A computation: the events it caused up to its end or to the raise,
    and its outcome. *)
Definition M (A : Type) : Type := (list event * result A)%type.

Definition ret {A : Type} (a : A) : M A := ([], Ok a).

Definition raise {A : Type} (e : exn) : M A := ([], Raise e).

Definition lift {A : Type} (r : result A) : M A := ([], r).

(** A call that leaves the module: it is logged, then it returns or
    raises. *)
Definition call {A : Type} (ev : event) (r : result A) : M A := ([ev], r).

Definition log (ev : event) : M unit := ([ev], Ok tt).

Definition bind {A B : Type} (m : M A) (k : A -> M B) : M B :=
  match m with
  | (t, Ok a) => let (t', r) := k a in (t ++ t', r)
  | (t, Raise e) => (t, Raise e)
  end.

Definition trace {A : Type} (m : M A) : list event := fst m.

Definition outcome {A : Type} (m : M A) : result A := snd m.

End IO.

Declare Scope io_scope.
Delimit Scope io_scope with io.

Notation "x <- m ;; k" := (IO.bind m (fun x => k))
  (at level 61, m at next level, right associativity) : io_scope.
Notation "' p <- m ;; k" := (IO.bind m (fun x => let p := x in k))
  (at level 61, p pattern, m at next level, right associativity) : io_scope.

(** The process the module runs in: the state its import blocks leave
    behind, and the libraries it calls. *)
Record runtime : Type := mk_runtime {
  (** [torch is not None]: the first import block succeeded. *)
  torch_imported : bool;
  tensor : Type;
  (** The module-level name [neuralNDCG]: allRank's loss, or [None]. *)
  neuralNDCG : option (tensor -> tensor -> kwargs -> result tensor);
  (** A network with its weights, after a fit or from a checkpoint. *)
  network : Type;
  (** [pl.Trainer(...).fit(model, train, val)] of Lightning, where it
      was imported. *)
  lightning_fit :
    SimpleTwoLayersNN -> DataLoader -> option DataLoader -> nat ->
    result network;
  (** [trainer.predict(model, dataloaders=...)]: per batch, the predicted
      rows and the dataset indices of these rows. *)
  trainer_predict :
    network -> DataLoader -> result (list (ndarray Z * list nat));
  load_from_checkpoint : string -> result network;
  (** [np.random.choice(np.arange(n), k, replace=False)] for [k <= n]. *)
  random_choice : nat -> nat -> list nat;
  (** [shap.DeepExplainer(model, background).shap_values(X)]: one array of
      rows x features per output dimension. *)
  shap_values_of :
    network -> list (list cell) -> ndarray cell -> result (list (ndarray Q));
  (** [KMeans(n_clusters=10, random_state=45).fit(Y).labels_] *)
  kmeans_labels : frame -> result (list nat);
  (** [StratifiedKFold(n_splits).split(range(n), classes)]: the
      (train_index, test_index) pairs. *)
  skf_split : nat -> nat -> list nat -> result (list (list nat * list nat))
}.

(** The first use of a name of the first import block ([TrainValData],
    [DataLoader], [nn], ...): when that block failed the name is unbound. *)
Definition torch_name {A : Type} (env : runtime) (a : A) : result A :=
  if torch_imported env then Ok a else Raise NameError.

(** The trainer stage of [train_torch_model] (lines 47-64):
    [LearningRateMonitor(...)], [pl.Trainer(...)] and [trainer.fit(...)].
    [LearningRateMonitor] and [pl] are names of the first import block, so
    the stage ends with [NameError] where that block failed. *)
Definition trainer_fit (env : runtime) (model : SimpleTwoLayersNN)
    (train_loader : DataLoader) (val_loader : option DataLoader)
    (max_epochs : nat) : result (network env) :=
  if torch_imported env
  then lightning_fit env model train_loader val_loader max_epochs
  else Raise NameError.

(* ================================================================= *)
(** ** numpy helpers of the drivers *)

(** [a.astype("float32")] on a cell. *)
Definition cell_to_float (c : cell) : cell :=
  match c with
  | Bool true => Num 1
  | Bool false => Num 0
  | _ => c
  end.

(** [a.astype("bool")] on a cell: zero is false, NaN is true. *)
Definition cell_to_bool (c : cell) : bool :=
  match c with
  | Bool b => b
  | Num z => negb (z =? 0)%Z
  | NaN => true
  end.

Definition astype_float32 (a : ndarray cell) : ndarray cell :=
  mk_ndarray (shape1 a) (map (map cell_to_float) (rows a)).

(** [np.concatenate] of 2-D arrays along the first axis. *)
Definition concatenate_rows {A : Type} (arrs : list (ndarray A))
    : result (ndarray A) :=
  match arrs with
  | [] => Raise ValueError
  | a :: rest =>
      if forallb (fun b => (shape1 b =? shape1 a)%nat) rest
      then Ok (mk_ndarray (shape1 a) (List.concat (map rows arrs)))
      else Raise ValueError
  end.

(** [np.concatenate] of 1-D arrays. *)
Definition concatenate_1d {A : Type} (arrs : list (list A)) : result (list A) :=
  match arrs with
  | [] => Raise ValueError
  | _ => Ok (List.concat arrs)
  end.

(** [a[mask]] with a boolean [mask] along the first axis. *)
Definition boolean_index {A : Type} (l : list A) (mask : list bool)
    : result (list A) :=
  if (List.length l =? List.length mask)%nat then Ok (select mask l)
  else Raise IndexError.

(* ================================================================= *)
(** ** The ranking-loss adapter (lines 31-41) *)

Section Adapter.

Variable env : runtime.

(** [NeuralNDCGLoss.__init__(self, **loss_kwargs)] *)
Definition NeuralNDCGLoss_init (loss_kwargs : kwargs) : result NeuralNDCGLoss :=
  match neuralNDCG env with
  | None => Raise AssertionError
  | Some _ => Ok (mk_NeuralNDCGLoss loss_kwargs)
  end.

(** [NeuralNDCGLoss.__call__(self, pred, gt)]; calling [None] is a
    TypeError. *)
Definition NeuralNDCGLoss_call (self : NeuralNDCGLoss) (pred gt : tensor env)
    : result (tensor env) :=
  match neuralNDCG env with
  | Some f => f pred gt (loss_kwargs self)
  | None => Raise TypeError
  end.

End Adapter.

(* ================================================================= *)
(** ** The single-model trainer (lines 44-74) *)

(** What [train_torch_model] returns: the trainer alone, or the trainer
    with the predictions and their row indices. *)
Inductive train_output (N : Type) : Type :=
| OnlyTrainer (trainer : N)
| WithPredictions (trainer : N) (pred_array : ndarray Z)
                  (pred_indices : list nat).

Arguments OnlyTrainer {N} trainer.
Arguments WithPredictions {N} trainer pred_array pred_indices.

(** One row of the table of held-out predictions. *)
Record cv_row : Type := mk_cv_row {
  cv_index : nat;
  cv_pred : list cell;
  cv_fold : nat
}.

(** The table [all_results]: [None] is the frame [pd.DataFrame()] without
    axes, [Some (w, rows)] a frame with the prediction columns [0..w-1]
    and the column "fold". *)
Definition cv_table : Type := option (nat * list cv_row).

Definition pad_row (w : nat) (r : cv_row) : cv_row :=
  mk_cv_row (cv_index r)
            (cv_pred r ++ repeat NaN (w - List.length (cv_pred r)))
            (cv_fold r).

(** [pd.concat([all_results, lc_results])]: the rows of both, over the
    union of their columns; a column a frame lacks is NaN in its rows. *)
Definition pd_concat (all_results : cv_table) (lc_results : nat * list cv_row)
    : cv_table :=
  match all_results with
  | None => Some lc_results
  | Some (w, rs) =>
      let w' := Nat.max w (fst lc_results) in
      Some (w', map (pad_row w') (rs ++ snd lc_results))
  end.

(** [lc_results = pd.DataFrame(pred_array, index=pred_indices)] followed
    by [lc_results["fold"] = fold]. *)
Definition fold_results (pred_array : ndarray Z) (pred_indices : list nat)
    (fold : nat) : result (nat * list cv_row) :=
  if (shape0 pred_array =? List.length pred_indices)%nat
  then Ok (shape1 pred_array,
           map2 (fun i row => mk_cv_row i (map Num row) fold)
                pred_indices (rows pred_array))
  else Raise ValueError.

Section Drivers.

Variable env : runtime.

Local Open Scope io_scope.

Definition train_torch_model (model : SimpleTwoLayersNN)
    (train_loader : DataLoader) (val_loader test_loader : option DataLoader)
    (max_epochs : nat) : IO.M (train_output (network env)) :=
  (* Train model using Lightning *)
  trainer <- IO.call (EvFit max_epochs)
               (trainer_fit env model train_loader val_loader max_epochs) ;;
  match test_loader with
  | Some test_loader =>
      (* Predict and save predictions on test set *)
      prediction <- IO.call EvPredict
                      (trainer_predict env trainer test_loader) ;;
      pred_array <- IO.lift (concatenate_rows (map fst prediction)) ;;
      pred_indices <- IO.lift (concatenate_1d (map snd prediction)) ;;
      IO.ret (WithPredictions trainer pred_array pred_indices)
  | None => IO.ret (OnlyTrainer trainer)
  end.

(* ================================================================= *)
(** ** The cross-validation driver (lines 77-139) *)

(** [for fold, item in enumerate(items)] with a loop-carried state. *)
Fixpoint enumerate_loop {I St : Type} (body : nat -> I -> St -> IO.M St)
    (fold : nat) (items : list I) (s : St) : IO.M St :=
  match items with
  | [] => IO.ret s
  | item :: items' =>
      s' <- body fold item s ;;
      enumerate_loop body (S fold) items' s'
  end.

(** The body of the loop over cross-val folds (lines 113-137). *)
Definition cross_val_fold (X Y : ndarray cell) (task_name : string)
    (train_val_dataset test_data : dataset)
    (loss_fn : loss_function) (activation_fn : option activation)
    (max_epochs batch_size : nat) (lr : Q) (num_hidden_layer_features : nat)
    (fold : nat) (split : list nat * list nat) (all_results : cv_table)
    : IO.M cv_table :=
  let '(train_index, test_index) := split in
  (* Define data-loaders *)
  let train_loader :=
    mk_DataLoader train_val_dataset batch_size (Some train_index) true in
  let val_loader :=
    mk_DataLoader train_val_dataset batch_size (Some test_index) false in
  let test_loader :=
    mk_DataLoader test_data batch_size (Some test_index) false in
  (* Define model *)
  let model :=
    mk_SimpleTwoLayersNN num_hidden_layer_features (shape1 X) (shape1 Y)
      loss_fn lr activation_fn (task_is task_name "detection") in
  _ <- IO.log (EvModel model) ;;
  out <- train_torch_model model train_loader (Some val_loader)
           (Some test_loader) max_epochs ;;
  match out with
  | WithPredictions _ pred_array pred_indices =>
      lc_results <- IO.lift (fold_results pred_array pred_indices fold) ;;
      IO.ret (pd_concat all_results lc_results)
  | OnlyTrainer _ =>
      (* a trainer does not unpack into three names *)
      IO.raise TypeError
  end.

Definition train_torch_model_cross_val_loop (X Y : ndarray cell)
    (task_name : string) (stratification_classes : list nat)
    (ignore_mask : option (ndarray cell))
    (max_epochs batch_size : nat) (lr : Q)
    (num_cross_val_folds num_hidden_layer_features : nat) : IO.M cv_table :=
  (* Initial definitions *)
  let ignore_mask := option_map astype_float32 ignore_mask in
  train_val_dataset <-
    IO.lift (torch_name env
               (TrainValData (astype_float32 X) (astype_float32 Y)
                  ignore_mask)) ;;
  let test_data := TestData (astype_float32 X) in
  let all_results : cv_table := None in
  '(activation_fn, loss_fn) <-
    (if task_is task_name "ranking" then
       l <- IO.lift (NeuralNDCGLoss_init env []) ;;
       IO.ret (None, RankingLoss l)
     else if task_is task_name "detection" then
       IO.ret (Some Sigmoid, SorensenDiceLoss)
     else IO.raise ValueError) ;;
  (* Define cross-val split *)
  splits <- IO.call (EvSplit num_cross_val_folds)
              (skf_split env num_cross_val_folds (shape0 X)
                 stratification_classes) ;;
  (* Loop over cross-val folds *)
  enumerate_loop
    (cross_val_fold X Y task_name train_val_dataset test_data loss_fn
       activation_fn max_epochs batch_size lr num_hidden_layer_features)
    0 splits all_results.

(* ================================================================= *)
(** ** The feature-attribution driver (lines 143-214) *)

(** The diagnostic of lines 196-201, after the fit. *)
Definition print_score (Y : ndarray cell) (ignore_mask : option (ndarray cell))
    (batch_size : nat) (test_data : dataset) (trainer : network env)
    : IO.M unit :=
  let test_loader := mk_DataLoader test_data batch_size None false in
  predictions <- IO.call EvPredict (trainer_predict env trainer test_loader) ;;
  (* ignore_mask.flatten() on None has no such attribute *)
  ignore_mask_flatten <-
    match ignore_mask with
    | Some m => IO.ret (map cell_to_bool (List.concat (rows m)))
    | None => IO.raise AttributeError
    end ;;
  preds <- IO.lift (concatenate_rows (map fst predictions)) ;;
  pred_array <- IO.lift (boolean_index (List.concat (rows preds))
                           (map negb ignore_mask_flatten)) ;;
  gt <- IO.lift (boolean_index (List.concat (rows (astype_float32 Y)))
                   (map negb ignore_mask_flatten)) ;;
  IO.log EvPrint.

Definition features_selection_torch_model (X Y : ndarray cell)
    (task_name : string) (ignore_mask : option (ndarray cell))
    (max_epochs batch_size : nat) (lr : Q)
    (num_cross_val_folds num_hidden_layer_features : nat)
    (checkpoint_path : option string) (only_train : bool)
    : IO.M (list (ndarray Q)) :=
  (* Initial definitions *)
  let ignore_mask := option_map astype_float32 ignore_mask in
  train_val_dataset <-
    IO.lift (torch_name env
               (TrainValData (astype_float32 X) (astype_float32 Y)
                  ignore_mask)) ;;
  let test_data := TestData (astype_float32 X) in
  '(activation_fn, loss_fn) <-
    (if task_is task_name "ranking" then
       l <- IO.lift (NeuralNDCGLoss_init env []) ;;
       IO.ret (None, RankingLoss l)
     else if task_is task_name "detection" then
       IO.ret (Some Sigmoid, SorensenDiceLoss)
     else if task_is task_name "regression" then
       IO.ret (None, MSELoss)
     else IO.raise ValueError) ;;
  (* Define data-loaders *)
  let train_loader := mk_DataLoader train_val_dataset batch_size None true in
  (* Define model *)
  model <-
    match checkpoint_path with
    | None =>
        let model :=
          mk_SimpleTwoLayersNN num_hidden_layer_features (shape1 X) (shape1 Y)
            loss_fn lr activation_fn (task_is task_name "detection") in
        _ <- IO.log (EvModel model) ;;
        out <- train_torch_model model train_loader None None max_epochs ;;
        match out with
        | OnlyTrainer trainer =>
            _ <- print_score Y ignore_mask batch_size test_data trainer ;;
            IO.ret trainer
        | WithPredictions _ _ _ =>
            (* a tuple has no method predict *)
            IO.raise AttributeError
        end
    | Some path =>
        IO.call (EvLoadCheckpoint path) (load_from_checkpoint env path)
    end ;;
  (* 100 distinct background rows *)
  background_index <-
    (if (shape0 X <? 100)%nat then IO.raise ValueError
     else IO.ret (random_choice env (shape0 X) 100)) ;;
  let background := map (fun i => nth i (rows X) []) background_index in
  IO.call EvExplain (shap_values_of env model background X).

End Drivers.

(* ================================================================= *)
(** ** The feature matrix (orchestrator, lines 254-257) *)

(** [features_df] and [adducts_one_hot]: rows labelled by a string. *)
Record feature_table : Type := mk_feature_table {
  ft_index : list string;
  ft_columns : list string;
  ft_values : list (list cell)
}.

(** [idx.get_level_values(n)] *)
Fixpoint get_level_values (n : nat) (idx : list (list string))
    : result (list string) :=
  match idx with
  | [] => Ok []
  | k :: idx' =>
      match nth_error k n with
      | Some s => rest <- get_level_values n idx' ;; Ok (s :: rest)
      | None => Raise IndexError
      end
  end.

(** The rows of a table under one label. *)
Definition rows_labelled (t : feature_table) (k : string) : list (list cell) :=
  map snd (filter (fun p => String.eqb (fst p) k)
                  (combine (ft_index t) (ft_values t))).

(** [t.loc[keys].to_numpy()]: every row under each key, in the order of
    the keys; a key without a row is a KeyError. *)
Fixpoint loc_rows (t : feature_table) (keys : list string)
    : result (list (list cell)) :=
  match keys with
  | [] => Ok []
  | k :: keys' =>
      match rows_labelled t k with
      | [] => Raise KeyError
      | found => rest <- loc_rows t keys' ;; Ok (found ++ rest)
      end
  end.

(** [pd.DataFrame(arr, index=idx)]: the lengths must agree. *)
Definition with_index {A : Type} (arr : list (list A)) (idx : list row_key)
    : result (list (list A)) :=
  if (List.length arr =? List.length idx)%nat then Ok arr
  else Raise ValueError.

(** [X].  The two frames that are joined carry the index of [Y], which a
    pivot leaves free of duplicates, so the inner join pairs their rows by
    position: molecule columns first, adduct columns after them. *)
Definition feature_array (use_adduct_features : bool)
    (features_df adducts_one_hot : feature_table) (Y_index : list row_key)
    : result (ndarray cell) :=
  names <- get_level_values 0 Y_index ;;
  found <- loc_rows features_df names ;;
  X <- with_index found Y_index ;;
  if use_adduct_features then
    adducts <- get_level_values 1 Y_index ;;
    found_adducts <- loc_rows adducts_one_hot adducts ;;
    A <- with_index found_adducts Y_index ;;
    Ok (mk_ndarray (List.length (ft_columns features_df)
                    + List.length (ft_columns adducts_one_hot))
                   (map2 (@app cell) X A))
  else Ok (mk_ndarray (List.length (ft_columns features_df)) X).

(** [feat_names] (lines 341-343). *)
Definition feature_names (use_adduct_features : bool)
    (features_df : feature_table) (adducts_columns : option (list string))
    : result (list string) :=
  let feat_names := ft_columns features_df in
  if use_adduct_features then
    match adducts_columns with
    | Some cols => Ok (cols ++ feat_names)
    | None => Raise AttributeError
    end
  else Ok feat_names.

(* ================================================================= *)
(** ** Reshaping the cross-validation results (lines 306-325) *)

(** A label of a pandas index: a string in a flat index, a tuple in a
    MultiIndex. *)
Inductive label : Type :=
| Scalar (s : string)
| Tuple (l : list string).

Definition label_eq_dec : forall a b : label, {a = b} + {a <> b}.
Proof.
  decide equality; [apply string_dec | apply (list_eq_dec string_dec)].
Defined.

Definition label_of (k : row_key) : label :=
  match k with
  | [s] => Scalar s
  | _ => Tuple k
  end.

(** One row of the long table that is returned. *)
Record long_row : Type := mk_long_row {
  lr_levels : list string;
  observed_value : cell;
  prediction : cell;
  lr_fold : nat;
  model_type : string
}.

(** [out.sort_index()] *)
Fixpoint insert_by_index (r : cv_row) (l : list cv_row) : list cv_row :=
  match l with
  | [] => [r]
  | h :: t =>
      if (cv_index r <? cv_index h)%nat then r :: h :: t
      else h :: insert_by_index r t
  end.

Definition sort_index (l : list cv_row) : list cv_row :=
  fold_right insert_by_index [] l.

(** [frame.stack([0, 1])]: one entry per cell that is not NaN, under the
    levels of the row followed by matrix and polarity. *)
Definition stack (idx : list row_key) (cols : list col_key)
    (vals : list (list cell)) : list (list string * cell) :=
  flat_map
    (fun rv =>
       flat_map
         (fun cv =>
            if cell_isna (snd cv) then []
            else [(fst rv ++ [fst (fst cv); snd (fst cv)], snd cv)])
         (combine cols (snd rv)))
    (combine idx vals).

(** [a.to_frame().join(b.to_frame(), how="inner")] on two series with
    unique labels. *)
Definition join_inner (a b : list (list string * cell))
    : list (list string * cell * cell) :=
  flat_map
    (fun e =>
       match find (fun e' => if list_eq_dec string_dec (fst e') (fst e)
                             then true else false) b with
       | Some e' => [(fst e, snd e, snd e')]
       | None => []
       end)
    a.

(** [training_results.loc[keys, "fold"]]: the rows under each key; a key
    that labels no row is a KeyError. *)
Fixpoint loc_fold (idx : list label) (folds : list nat) (keys : list label)
    : result (list nat) :=
  match keys with
  | [] => Ok []
  | k :: keys' =>
      match map snd (filter (fun p => if label_eq_dec (fst p) k
                                      then true else false)
                            (combine idx folds)) with
      | [] => Raise KeyError
      | found => rest <- loc_fold idx folds keys' ;; Ok (found ++ rest)
      end
  end.

(** The joined series of observed values and predictions
    (lines 306-316). *)
Definition reshape_join (Y : frame) (out : cv_table)
    : result (list cv_row * list (list string * cell * cell)) :=
  match out with
  | None =>
      (* a frame without axes: it fits no row, and has no column "fold" *)
      match index Y with
      | [] => Raise KeyError
      | _ => Raise ValueError
      end
  | Some (w, rs) =>
      let matrix_multi_index := columns Y in
      let training_results := sort_index rs in
      (* Set index with molecule/adduct names *)
      _ <- with_index (map cv_pred training_results) (index Y) ;;
      let reshaped_gt := stack (index Y) matrix_multi_index (values Y) in
      if (w =? List.length matrix_multi_index)%nat then
        let reshaped_prediction :=
          stack (index Y) matrix_multi_index (map cv_pred training_results) in
        Ok (training_results, join_inner reshaped_gt reshaped_prediction)
      else Raise ValueError
  end.

(** Add back fold info (lines 318-323). *)
Definition attach_fold (Y : frame) (training_results : list cv_row)
    (reshaped_out : list (list string * cell * cell))
    : result (list long_row) :=
  level0 <- get_level_values 0 (map (fun e => fst (fst e)) reshaped_out) ;;
  level1 <- get_level_values 1 (map (fun e => fst (fst e)) reshaped_out) ;;
  folds <- loc_fold (map label_of (index Y)) (map cv_fold training_results)
             (map2 (fun a b => Tuple [a; b]) level0 level1) ;;
  if (List.length folds =? List.length reshaped_out)%nat then
    Ok (map2 (fun e f =>
                mk_long_row (fst (fst e)) (snd (fst e)) (snd e) f "NN")
             reshaped_out folds)
  else Raise ValueError.

Definition reshape_results (Y : frame) (out : cv_table)
    : result (list long_row) :=
  '(training_results, reshaped_out) <- reshape_join Y out ;;
  attach_fold Y training_results reshaped_out.

(* ================================================================= *)
(** ** The feature-importance table (lines 345-362) *)

(** One row of the table, under its index label. *)
Record importance_row : Type := mk_importance_row {
  feature_name : string;
  mean_abs_shap : option Q;
  ir_matrix : string;
  ir_polarity : string
}.

Definition Qsum (l : list Q) : Q := fold_right Qplus 0%Q l.

(** [np.mean(np.abs(a), axis=0)] of an array with [n] columns: NaN
    ([None]) in every column when the array has no row. *)
Definition mean_abs_axis0 (n : nat) (a : list (list Q)) : list (option Q) :=
  map (fun j =>
         match a with
         | [] => None
         | _ =>
             Some (Qsum (map (fun row => Qabs (nth j row 0%Q)) a)
                   / inject_Z (Z.of_nat (List.length a)))%Q
         end)
      (seq 0 n).

(** The order of [sort_values(ascending=False)]: larger first, NaN last. *)
Definition shap_geb (a b : option Q) : bool :=
  match a, b with
  | _, None => true
  | None, Some _ => false
  | Some x, Some y => Qle_bool y x
  end.

Fixpoint insert_desc (r : importance_row) (l : list importance_row)
    : list importance_row :=
  match l with
  | [] => [r]
  | h :: t =>
      if shap_geb (mean_abs_shap r) (mean_abs_shap h) then r :: h :: t
      else h :: insert_desc r t
  end.

Definition sort_values_desc (l : list importance_row) : list importance_row :=
  fold_right insert_desc [] l.

(** [~ignore_mask[:, i]]: the rows kept for output dimension [i]. *)
Definition kept_rows_of (ignore_mask : ndarray cell) (i : nat) : list bool :=
  map (fun row => negb (cell_to_bool (nth i row NaN))) (rows ignore_mask).

(** [loc_df] of one output dimension (lines 353-359): the [i]-th mean is
    put beside the [i]-th feature name. *)
Definition dimension_importance (shap_values : list (ndarray Q))
    (ignore_mask : ndarray cell) (feat_names : list string)
    (i : nat) (column : col_key) : result (list importance_row) :=
  match nth_error shap_values i with
  | None => Raise IndexError
  | Some shap_i =>
      if (shape1 ignore_mask <=? i)%nat then Raise IndexError
      else
        loc_shap_values <-
          boolean_index (rows shap_i) (kept_rows_of ignore_mask i) ;;
        let means := mean_abs_axis0 (shape1 shap_i) loc_shap_values in
        if (List.length means =? List.length feat_names)%nat then
          Ok (map2 (fun m name =>
                      mk_importance_row name m (fst column) (snd column))
                   means feat_names)
        else Raise ValueError
  end.

Fixpoint importance_loop (shap_values : list (ndarray Q))
    (ignore_mask : ndarray cell) (feat_names : list string)
    (i : nat) (matrix_multi_index : list col_key)
    (df_feat_importance : list importance_row)
    : result (list importance_row) :=
  match matrix_multi_index with
  | [] => Ok df_feat_importance
  | column :: rest =>
      loc_df <- dimension_importance shap_values ignore_mask feat_names
                  i column ;;
      importance_loop shap_values ignore_mask feat_names (S i) rest
        (df_feat_importance ++ loc_df)
  end.

Definition feature_importance (matrix_multi_index : list col_key)
    (shap_values : list (ndarray Q)) (ignore_mask : option (ndarray cell))
    (feat_names : list string) : result (list importance_row) :=
  match ignore_mask with
  | None =>
      (* None.astype("bool") *)
      Raise AttributeError
  | Some ignore_mask =>
      df_feat_importance <-
        importance_loop shap_values ignore_mask feat_names 0
          matrix_multi_index [] ;;
      Ok (sort_values_desc df_feat_importance)
  end.

(* ================================================================= *)
(** ** The orchestrator (lines 218-362) *)

Inductive output : Type :=
| LongTable (table : list long_row)
| FeatureImportance (table : list importance_row).

Section Orchestrator.

Variable env : runtime.

Local Open Scope io_scope.

Definition train_pytorch_model_on_intensities
    (intensities_df : list observation)
    (features_df adducts_one_hot : feature_table)
    (task_name : string) (do_feature_selection : bool)
    (path_feature_importance_csv : option string)
    (num_cross_val_folds : nat) (checkpoint_path : option string)
    (use_adduct_features : bool) (adducts_columns : option (list string))
    : IO.M output :=
  _ <- (if torch_imported env then IO.ret tt else IO.raise AssertionError) ;;
  (* Reshape data to training format *)
  fr <- IO.lift (reshape_to_training_format use_adduct_features task_name
                   intensities_df) ;;
  (* Get feature array used for training *)
  X <- IO.lift (feature_array use_adduct_features features_df adducts_one_hot
                  (index (tf_Y fr))) ;;
  (* Find stratification classes and start training *)
  out_clustering <- IO.call EvKMeans (kmeans_labels env (tf_Y fr)) ;;
  '(Y, ignore_mask) <- IO.lift (select_target task_name fr) ;;
  (* Train *)
  if negb do_feature_selection then
    out <- train_torch_model_cross_val_loop env X (to_numpy Y) task_name
             out_clustering ignore_mask 20 8 (1 # 100) num_cross_val_folds
             32 ;;
    (* Reshape results *)
    reshaped_out <- IO.lift (reshape_results Y out) ;;
    IO.ret (LongTable reshaped_out)
  else
    shap_values <- features_selection_torch_model env X (to_numpy Y)
                     task_name ignore_mask 100 8 (1 # 100)
                     num_cross_val_folds 128 checkpoint_path false ;;
    _ <- IO.log EvPrint ;;
    feat_names <- IO.lift (feature_names use_adduct_features features_df
                             adducts_columns) ;;
    df_feat_importance <- IO.lift (feature_importance (columns Y) shap_values
                                     ignore_mask feat_names) ;;
    IO.ret (FeatureImportance df_feat_importance).

End Orchestrator.

(* ================================================================= *)
(** ** Contracts of the external calls

    What the properties below assume of Lightning and scikit-learn, where
    they assume anything. *)

(** The rows of a table of held-out predictions. *)
Definition table_rows (t : cv_table) : list cv_row :=
  match t with
  | None => []
  | Some (_, rs) => rs
  end.

(** Every fit succeeds. *)
Definition fits_every_model (env : runtime) : Prop :=
  forall model train_loader val_loader epochs,
  exists net, trainer_fit env model train_loader val_loader epochs = Ok net.

(** Prediction over a loader with a subset sampler, a positive batch
    size and indices that the dataset has.  The sampler draws its indices
    in some order; the loader cuts them into its batches, leaving out a
    trailing incomplete one when it drops the last; and the network
    returns for every batch its indices beside one predicted row per
    index, all rows of one width.  Nothing is said of a concatenation of
    the batches: that is the trainer's work. *)
Definition predicts_in_batches (env : runtime) : Prop :=
  forall net l idx,
    dl_sampler l = Some idx ->
    0 < dl_batch_size l ->
    Forall (fun i => i < dataset_rows (dl_dataset l)) idx ->
    exists order batches w,
      Permutation order idx /\
      trainer_predict env net l = Ok batches /\
      map snd batches
      = batches_of (dl_batch_size l) (dl_drop_last l) order /\
      Forall (fun b => shape1 (fst b) = w /\
                       shape0 (fst b) = List.length (snd b))
             batches.

(** Index and fold tag of the rows of a table. *)
Definition tags (rs : list cv_row) : list (nat * nat) :=
  map (fun r => (cv_index r, cv_fold r)) rs.

(** What identifies a row of the feature-importance table: its
    (matrix, polarity) pair and its feature name. *)
Definition importance_key (r : importance_row) : col_key * string :=
  ((ir_matrix r, ir_polarity r), feature_name r).

Definition importance_key_eq_dec :
  forall a b : col_key * string, {a = b} + {a <> b}.
Proof. decide equality; [apply string_dec | apply col_key_eq_dec]. Defined.

(** The order of the sorted table, on rows. *)
Definition shap_ge (r1 r2 : importance_row) : Prop :=
  shap_geb (mean_abs_shap r1) (mean_abs_shap r2) = true.

(** The entity [k] has a molecule and an adduct, each with exactly one row
    in its table. *)
Definition has_feature_rows (features_df adducts_one_hot : feature_table)
    (k : row_key) : Prop :=
  exists name adduct frow arow,
    k = [name; adduct] /\
    rows_labelled features_df name = [frow] /\
    rows_labelled adducts_one_hot adduct = [arow].

(** k-means rejects an empty sample (scikit-learn needs at least as many
    samples as clusters). *)
Definition kmeans_needs_rows (env : runtime) : Prop :=
  forall Y labels, kmeans_labels env Y = Ok labels -> index Y <> [].

(** A fitted network predicts [nb_out_feat] values per row. *)
Definition predicts_full_rows (env : runtime) : Prop :=
  forall model train_loader val_loader epochs net l batches,
    trainer_fit env model train_loader val_loader epochs = Ok net ->
    trainer_predict env net l = Ok batches ->
    Forall (fun b =>
              shape1 (fst b) = nb_out_feat model /\
              Forall (fun row => List.length row = nb_out_feat model)
                     (rows (fst b)))
           batches.

(** A row with [w] predictions, none of them NaN. *)
Definition full_row (w : nat) (r : cv_row) : Prop :=
  List.length (cv_pred r) = w /\
  Forall (fun c => cell_isna c = false) (cv_pred r).

(** A table of [w] prediction columns without NaN. *)
Definition full_table (w : nat) (t : cv_table) : Prop :=
  match t with
  | None => True
  | Some (w', rs) => w' = w /\ Forall (full_row w) rs
  end.

(** Every row label has one level. *)
Definition single_level (idx : list row_key) : Prop :=
  Forall (fun k => exists s, k = [s]) idx.

(* ================================================================= *)
(** ** A small observation table

    Three entities over the matrix DHB in both polarities: glucose is
    detected in positive mode and observed but not detected in negative
    mode, alanine is observed once and never detected, lysine is
    detected in positive mode and was not measured in negative mode. *)

Definition small_table : list observation :=
  [ mk_observation "glucose" "+H" "DHB" "positive" 5 true;
    mk_observation "glucose" "+H" "DHB" "negative" 3 false;
    mk_observation "alanine" "+H" "DHB" "positive" 7 false;
    mk_observation "lysine" "+H" "DHB" "positive" 2 true ].

(** The sentence "the ranking target never contains zero for an entity
    with at least one detection", read on the embedding. *)
Definition ranking_target_free_of_zero (use_adduct_features : bool)
    (df : list observation) : Prop :=
  forall Y mask i j r,
    training_targets use_adduct_features "ranking" df = Ok (Y, mask) ->
    nth_error (index Y) i = Some r ->
    (exists o, In o df /\ index_key use_adduct_features o = r
               /\ detected o = true) ->
    iat (values Y) i j <> Some (Num 0).

(* ================================================================= *)
(** ** A toy runtime

    A network is stood for by its output width.  Fitting always works;
    prediction returns, batch by batch as the loader makes them, a row of
    zeros for every index of the sampler (or of the whole dataset);
    k-means puts every row in cluster 0 and rejects an empty sample; the
    split deals the rows out to the folds in turn. *)

Definition toy_predict (w : nat) (l : DataLoader)
    : result (list (ndarray Z * list nat)) :=
  let idx :=
    match dl_sampler l with
    | Some s => s
    | None => seq 0 (dataset_rows (dl_dataset l))
    end in
  Ok (map (fun batch => (mk_ndarray w (map (fun _ => repeat 0%Z w) batch),
                          batch))
        (batches_of (dl_batch_size l) (dl_drop_last l) idx)).

Definition toy_split (n_splits n : nat) (classes : list nat)
    : result (list (list nat * list nat)) :=
  Ok (map (fun f =>
             (filter (fun i => negb (i mod n_splits =? f)%nat) (seq 0 n),
              filter (fun i => (i mod n_splits =? f)%nat) (seq 0 n)))
          (seq 0 n_splits)).

Definition toy_kmeans (Y : frame) : result (list nat) :=
  match index Y with
  | [] => Raise ValueError
  | idx => Ok (map (fun _ => 0) idx)
  end.

Definition toy_shap (w : nat) (background : list (list cell))
    (X : ndarray cell) : result (list (ndarray Q)) :=
  Ok (repeat (mk_ndarray (shape1 X)
                (map (fun _ => repeat 0%Q (shape1 X)) (rows X))) w).

Definition toy_ndcg (pred gt : Z) (options : kwargs) : result Z :=
  Ok (pred - gt + Z.of_nat (List.length options))%Z.

Definition toy_runtime (allrank : bool) : runtime :=
  mk_runtime true Z
    (if allrank then Some toy_ndcg else None)
    nat
    (fun model _ _ _ => Ok (nb_out_feat model))
    toy_predict
    (fun _ => Ok 2)
    (fun n k => seq 0 k)
    toy_shap
    toy_kmeans
    toy_split.

(* ================================================================= *)
(** ** Attribution values for two output dimensions and five features *)

Definition importance_columns : list col_key :=
  [("DHB", "negative"); ("DHB", "positive")].

Definition importance_names : list string :=
  ["mass"; "logP"; "charge"; "rings"; "donors"].

Definition importance_shap : list (ndarray Q) :=
  [ mk_ndarray 5 [[1; -2; 3; 0; 1 # 2]; [3; 2; -1; 0; 1 # 2]]%Q;
    mk_ndarray 5 [[4; 0; -1; 2; 1]; [9; 9; 9; 9; 9]]%Q ].

(** The second row is ignored in the second dimension. *)
Definition importance_mask : ndarray cell :=
  mk_ndarray 2 [[Bool false; Bool false]; [Bool false; Bool true]].

(* ================================================================= *)
(** ** Feature tables for the small observation table *)

Definition small_features : feature_table :=
  mk_feature_table ["glucose"; "alanine"; "lysine"] ["mass"; "logP"]
    [[Num 180; Num (-3)]; [Num 89; Num (-2)]; [Num 146; Num (-1)]].

Definition small_adducts : feature_table :=
  mk_feature_table ["+H"; "+Na"] ["is_H"; "is_Na"]
    [[Num 1; Num 0]; [Num 0; Num 1]].

(* ================================================================= *)
(** ** A table of one hundred molecules

    Molecule [i] is named by its two decimal digits, measured once, in
    DHB positive mode with the adduct +H, and detected with intensity
    [i + 1]. *)

Definition two_digits (i : nat) : string :=
  String (Ascii.ascii_of_nat (48 + i / 10))
    (String (Ascii.ascii_of_nat (48 + i mod 10)) EmptyString).

Definition hundred_table : list observation :=
  map (fun i => mk_observation (two_digits i) "+H" "DHB" "positive"
                  (Z.of_nat (S i)) true)
      (seq 0 100).

Definition hundred_features : feature_table :=
  mk_feature_table (map two_digits (seq 0 100)) ["mass"; "logP"]
    (map (fun i => [Num (Z.of_nat (100 + i)); Num (Z.of_nat i)]) (seq 0 100)).

(** Whether an event is the call of the explainer. *)
Definition is_explain_event (ev : event) : bool :=
  match ev with
  | EvExplain => true
  | _ => false
  end.
(* ================================================================= *)
(** * Properties *)

(** ** Lists *)

Section ListFacts.

Context {A B C D : Type}.

Lemma map2_map (h : B -> C -> D) (f : A -> B) (g : A -> C) (l : list A) :
  map2 h (map f l) (map g l) = map (fun x => h (f x) (g x)) l.
Proof.
  unfold map2. induction l as [|x l IH]; simpl; [reflexivity|].
  now rewrite IH.
Qed.

Lemma select_map (f : A -> B) (mask : list bool) (l : list A) :
  select mask (map f l) = map f (select mask l).
Proof.
  revert l. induction mask as [|m mask IH]; intros [|x l]; simpl; try reflexivity.
  destruct m; simpl; now rewrite IH.
Qed.

Lemma select_map_filter (p : A -> bool) (l : list A) :
  select (map p l) l = filter p l.
Proof.
  induction l as [|x l IH]; simpl; [reflexivity|].
  destruct (p x); now rewrite IH.
Qed.

Variable eq_dec : forall x y : B, {x = y} + {x <> y}.

Lemma has_dup_false_NoDup (l : list B) :
  has_dup eq_dec l = false -> NoDup l.
Proof.
  induction l as [|x l IH]; simpl; intros H; [constructor|].
  apply orb_false_iff in H as [Hx Hl].
  constructor; [|now apply IH].
  intros Hin.
  assert (Hex : existsb (fun y => if eq_dec x y then true else false) l = true).
  { apply existsb_exists. exists x. split; [exact Hin|].
    destruct (eq_dec x x); congruence. }
  congruence.
Qed.

End ListFacts.

Section SortUniqueFacts.

Variable K : Type.
Variable cmp : K -> K -> comparison.
Hypothesis cmp_eq : forall x y, cmp x y = Eq <-> x = y.

Lemma In_insert_key (k x : K) (l : list K) :
  In x (insert_key cmp k l) <-> x = k \/ In x l.
Proof.
  induction l as [|h t IH]; simpl.
  - intuition.
  - destruct (cmp k h) eqn:E; simpl.
    + apply cmp_eq in E. subst. intuition.
    + intuition.
    + rewrite IH. intuition.
Qed.

Lemma In_sort_unique (x : K) (l : list K) :
  In x (sort_unique cmp l) <-> In x l.
Proof.
  unfold sort_unique. induction l as [|k l IH]; simpl; [reflexivity|].
  rewrite In_insert_key, IH. intuition.
Qed.

End SortUniqueFacts.

Lemma string_compare_eq (x y : string) : String.compare x y = Eq <-> x = y.
Proof.
  split; [apply String.compare_eq_iff|].
  intros ->. pose proof (String.compare_antisym y y) as H.
  destruct (String.compare y y); simpl in H; congruence.
Qed.

Lemma row_key_compare_eq (x y : row_key) : row_key_compare x y = Eq <-> x = y.
Proof. apply list_compare_refl, string_compare_eq. Qed.

Lemma col_key_compare_eq (x y : col_key) : col_key_compare x y = Eq <-> x = y.
Proof.
  destruct x as [m p], y as [m' p']. unfold col_key_compare. simpl.
  split.
  - destruct (String.compare m m') eqn:E; try discriminate.
    intros E'. apply string_compare_eq in E, E'. congruence.
  - intros [= -> ->].
    replace (String.compare m' m') with Eq
      by (symmetry; now apply string_compare_eq).
    now apply string_compare_eq.
Qed.

(** ** Frames given by a cell function *)

Lemma iat_map_map (f : cell -> cell) (vs : list (list cell)) (i j : nat) :
  iat (map (map f) vs) i j = option_map f (iat vs i j).
Proof.
  unfold iat. rewrite nth_error_map.
  destruct (nth_error vs i) as [row|]; cbn [option_map]; [|reflexivity].
  apply nth_error_map.
Qed.

Section FrameFacts.

Variable idx : list row_key.
Variable cols : list col_key.

Lemma tabulate_ext (f g : row_key -> col_key -> cell) :
  (forall r c, f r c = g r c) -> tabulate idx cols f = tabulate idx cols g.
Proof.
  intros H. unfold tabulate. f_equal.
  apply map_ext. intros r. apply map_ext. intros c. apply H.
Qed.

Lemma isna_tabulate (f : row_key -> col_key -> cell) :
  isna (tabulate idx cols f)
  = tabulate idx cols (fun r c => Bool (cell_isna (f r c))).
Proof.
  unfold isna, tabulate. simpl. f_equal.
  rewrite map_map. apply map_ext. intros r. now rewrite map_map.
Qed.

Lemma eq_False_tabulate (f : row_key -> col_key -> cell) :
  eq_False (tabulate idx cols f)
  = tabulate idx cols (fun r c => Bool (cell_eq_False (f r c))).
Proof.
  unfold eq_False, tabulate. simpl. f_equal.
  rewrite map_map. apply map_ext. intros r. now rewrite map_map.
Qed.

Lemma setitem_mask_tabulate (f m : row_key -> col_key -> cell) (v : cell) :
  setitem_mask (tabulate idx cols f) (tabulate idx cols m) v
  = tabulate idx cols (fun r c => if cell_is_True (m r c) then v else f r c).
Proof.
  unfold setitem_mask, tabulate. simpl. f_equal.
  rewrite map2_map. apply map_ext. intros r. apply map2_map.
Qed.

Lemma sum_axis1_tabulate (f : row_key -> col_key -> cell) :
  sum_axis1 (tabulate idx cols f)
  = map (fun r => fold_right Z.add 0%Z (map cell_to_Z (map (f r) cols))) idx.
Proof. unfold sum_axis1, tabulate. simpl. now rewrite map_map. Qed.

Lemma getitem_rows_tabulate (f : row_key -> col_key -> cell)
    (p : row_key -> bool) :
  getitem_rows (tabulate idx cols f) (map p idx)
  = tabulate (filter p idx) cols f.
Proof.
  unfold getitem_rows, tabulate. simpl.
  now rewrite select_map, select_map_filter.
Qed.

Lemma iat_tabulate (f : row_key -> col_key -> cell) (i j : nat)
    (r : row_key) (c : col_key) :
  nth_error idx i = Some r -> nth_error cols j = Some c ->
  iat (values (tabulate idx cols f)) i j = Some (f r c).
Proof.
  intros Hr Hc. unfold iat, tabulate. simpl.
  rewrite (map_nth_error _ _ _ Hr). now apply map_nth_error.
Qed.

End FrameFacts.

Lemma detected_count_nonneg (d : col_key -> bool) (cols : list col_key) :
  (0 <= fold_right Z.add 0 (map cell_to_Z (map (fun c => Bool (d c)) cols)))%Z.
Proof.
  induction cols as [|c cols IH]; cbn [map fold_right]; [lia|].
  destruct (d c); cbn [cell_to_Z]; lia.
Qed.

(** The row sum of a boolean row is positive exactly when a cell is true. *)
Lemma detected_count_pos (d : col_key -> bool) (cols : list col_key) :
  (0 <? fold_right Z.add 0 (map cell_to_Z (map (fun c => Bool (d c)) cols)))%Z
  = existsb d cols.
Proof.
  induction cols as [|c cols IH]; cbn [map fold_right existsb]; [reflexivity|].
  pose proof (detected_count_nonneg d cols) as Hs.
  destruct (d c); cbn [cell_to_Z orb].
  - apply Z.ltb_lt. lia.
  - rewrite Z.add_0_l. exact IH.
Qed.

(** ** The frames of the orchestrator in closed form *)

Section TrainingFrames.

Variable ua : bool.
Variable task_name : string.
Variable df : list observation.

Let all_rows := sort_unique row_key_compare (map (index_key ua) df).
Let cols := sort_unique col_key_compare (map column_key df).
Let kept_rows :=
  if task_is task_name "ranking"
  then filter (ever_detected ua df cols) all_rows else all_rows.

(** Cell functions of [Y], [Y_detected] and [Y_is_na] after the zeroing
    step. *)
Let fY (r : row_key) (c : col_key) : cell :=
  match observed ua df r c with
  | Some o => if detected o then Num (intensity o) else Num 0
  | None => Num 0
  end.
Let fD (r : row_key) (c : col_key) : cell := Bool (detected_at ua df r c).
Let fNA (r : row_key) (c : col_key) : cell :=
  match observed ua df r c with
  | Some _ => Bool false
  | None => Bool true
  end.

Lemma reshape_closed_form :
  duplicate_entries ua df = false ->
  reshape_to_training_format ua task_name df
  = Ok (mk_training_frames (tabulate kept_rows cols fY)
                           (tabulate kept_rows cols fD)
                           (tabulate kept_rows cols fNA)).
Proof.
  intros Hdup. unfold reshape_to_training_format, pivot.
  rewrite Hdup. cbn [Py.bind].
  fold all_rows. fold cols.
  set (pI := pivot_cell ua (fun o => Num (intensity o)) df).
  set (pD := pivot_cell ua (fun o => Bool (detected o)) df).
  assert (HNA : isna (tabulate all_rows cols pD) = tabulate all_rows cols fNA).
  { rewrite isna_tabulate. apply tabulate_ext. intros r c.
    unfold pD, pivot_cell, fNA. now destruct (observed ua df r c). }
  rewrite HNA.
  assert (HD : setitem_mask (tabulate all_rows cols pD)
                 (tabulate all_rows cols fNA) (Bool false)
               = tabulate all_rows cols fD).
  { rewrite setitem_mask_tabulate. apply tabulate_ext. intros r c.
    unfold pD, pivot_cell, fNA, fD, detected_at.
    now destruct (observed ua df r c). }
  rewrite HD.
  assert (HM : map (fun s => (0 <? s)%Z) (sum_axis1 (tabulate all_rows cols fD))
               = map (ever_detected ua df cols) all_rows).
  { rewrite sum_axis1_tabulate, map_map. apply map_ext. intros r.
    unfold fD, ever_detected. apply detected_count_pos. }
  rewrite HM.
  assert (HY : forall rows',
             setitem_mask (tabulate rows' cols pI)
               (eq_False (tabulate rows' cols fD)) (Num 0)
             = tabulate rows' cols fY).
  { intros rows'. rewrite eq_False_tabulate, setitem_mask_tabulate.
    apply tabulate_ext. intros r c.
    unfold pI, pivot_cell, fD, fY, detected_at.
    destruct (observed ua df r c) as [o|]; [|reflexivity].
    now destruct (detected o). }
  unfold kept_rows.
  destruct (task_is task_name "ranking").
  - rewrite !getitem_rows_tabulate. now rewrite HY.
  - now rewrite HY.
Qed.

End TrainingFrames.

(** ** Observations and their keys *)

Section Observed.

Variable ua : bool.
Variable df : list observation.

Lemma at_key_true (r : row_key) (c : col_key) (o : observation) :
  at_key ua r c o = true <-> entry_key ua o = (r, c).
Proof.
  unfold at_key, entry_key.
  destruct (row_key_eq_dec (index_key ua o) r) as [Hr|Hr];
    destruct (col_key_eq_dec (column_key o) c) as [Hc|Hc];
    simpl; split; intros H; try discriminate; try congruence.
Qed.

Lemma observed_Some (r : row_key) (c : col_key) (o : observation) :
  observed ua df r c = Some o -> In o df /\ entry_key ua o = (r, c).
Proof.
  intros H. apply find_some in H as [Hin Hk].
  split; [exact Hin | now apply at_key_true].
Qed.

Lemma observed_None (r : row_key) (c : col_key) :
  observed ua df r c = None <->
  forall o, In o df -> entry_key ua o <> (r, c).
Proof.
  split.
  - intros H o Hin Hk. apply at_key_true in Hk.
    pose proof (find_none _ _ H o Hin). congruence.
  - intros H. destruct (observed ua df r c) as [o|] eqn:E; [|reflexivity].
    apply observed_Some in E as [Hin Hk]. now elim (H o Hin).
Qed.

Hypothesis no_dup : duplicate_entries ua df = false.

(** A table without duplicated combinations returns each of its rows
    under that row's own key. *)
Lemma observed_own_key (o : observation) :
  In o df -> observed ua df (index_key ua o) (column_key o) = Some o.
Proof.
  intros Hin.
  apply has_dup_false_NoDup in no_dup.
  unfold observed. revert no_dup Hin.
  induction df as [|x l IH]; simpl; intros Hnd Hin; [contradiction|].
  inversion Hnd as [|? ? Hx Hnd']; subst.
  destruct Hin as [->|Hin].
  - replace (at_key ua (index_key ua o) (column_key o) o) with true;
      [reflexivity|].
    symmetry. now apply at_key_true.
  - destruct (at_key ua (index_key ua o) (column_key o) x) eqn:E;
      [|now apply IH].
    apply at_key_true in E. exfalso. apply Hx.
    rewrite E. now apply (in_map (entry_key ua)).
Qed.

Lemma In_all_rows (r : row_key) :
  In r (sort_unique row_key_compare (map (index_key ua) df)) <->
  exists o, In o df /\ index_key ua o = r.
Proof.
  rewrite (In_sort_unique _ _ row_key_compare_eq), in_map_iff.
  split; intros (o & H1 & H2); exists o; tauto.
Qed.

Lemma In_all_columns (c : col_key) :
  In c (sort_unique col_key_compare (map column_key df)) <->
  exists o, In o df /\ column_key o = c.
Proof.
  rewrite (In_sort_unique _ _ col_key_compare_eq), in_map_iff.
  split; intros (o & H1 & H2); exists o; tauto.
Qed.

(** An entity is detected in some column of the pivot exactly when the
    table holds a detected observation of it. *)
Lemma ever_detected_true (r : row_key) :
  ever_detected ua df (sort_unique col_key_compare (map column_key df)) r
  = true <->
  exists o, In o df /\ index_key ua o = r /\ detected o = true.
Proof.
  unfold ever_detected. rewrite existsb_exists. split.
  - intros (c & _ & Hd). unfold detected_at in Hd.
    destruct (observed ua df r c) as [o|] eqn:E; [|discriminate].
    apply observed_Some in E as [Hin Hk].
    exists o. unfold entry_key in Hk. inversion Hk. tauto.
  - intros (o & Hin & <- & Hd). exists (column_key o). split.
    + apply In_all_columns. now exists o.
    + unfold detected_at. now rewrite (observed_own_key o Hin).
Qed.

End Observed.

(** ** Targets and ignore masks of the three tasks *)

(** C1, as amended.  For the "ranking" task on a table without duplicated
    combinations, the orchestrator derives a target and no ignore mask.
    The rows of the target are the entities with at least one detection.
    A cell is -1 where the combination is absent from the table, 0 where
    it was observed but not detected, and the observed intensity where it
    was detected.  So -1 marks exactly the absent combinations of the
    surviving rows as long as no detected intensity is itself -1. *)
Theorem ranking_target_cells (ua : bool) (df : list observation) :
  duplicate_entries ua df = false ->
  exists Y,
    training_targets ua "ranking" df = Ok (Y, None) /\
    (forall r, In r (index Y) <->
               exists o, In o df /\ index_key ua o = r /\ detected o = true) /\
    (forall c, In c (columns Y) <-> exists o, In o df /\ column_key o = c) /\
    forall i j r c,
      nth_error (index Y) i = Some r ->
      nth_error (columns Y) j = Some c ->
      iat (values Y) i j
      = Some (match observed ua df r c with
              | None => Num (-1)
              | Some o => if detected o then Num (intensity o) else Num 0
              end) /\
      ((forall o, In o df -> detected o = true -> intensity o <> (-1)%Z) ->
       (iat (values Y) i j = Some (Num (-1)) <-> observed ua df r c = None)).
Proof.
  intros Hdup.
  pose proof (reshape_closed_form ua "ranking" df Hdup) as Hfr.
  cbv zeta in Hfr. change (task_is "ranking" "ranking") with true in Hfr.
  cbv iota in Hfr.
  unfold training_targets. rewrite Hfr. cbn [Py.bind].
  unfold select_target. change (task_is "ranking" "ranking") with true.
  cbv iota. cbn [tf_Y tf_Y_is_na].
  rewrite setitem_mask_tabulate.
  eexists. split; [reflexivity|].
  cbn [index columns tabulate].
  split; [|split].
  - intros r. rewrite filter_In, In_all_rows, (ever_detected_true ua df Hdup).
    split; [tauto|]. intros (o & Hin & Hr & Hd).
    split; exists o; tauto.
  - intros c. apply In_all_columns.
  - intros i j r c Hr Hc.
    assert (Hcell : iat (values (tabulate
               (filter (ever_detected ua df
                  (sort_unique col_key_compare (map column_key df)))
                  (sort_unique row_key_compare (map (index_key ua) df)))
               (sort_unique col_key_compare (map column_key df))
               (fun r c =>
                  if cell_is_True
                       match observed ua df r c with
                       | Some _ => Bool false
                       | None => Bool true
                       end
                  then Num (-1)
                  else match observed ua df r c with
                       | Some o =>
                           if detected o then Num (intensity o) else Num 0
                       | None => Num 0
                       end))) i j
             = Some (match observed ua df r c with
                     | None => Num (-1)
                     | Some o =>
                         if detected o then Num (intensity o) else Num 0
                     end)).
    { rewrite (iat_tabulate _ _ _ _ _ _ _ Hr Hc).
      now destruct (observed ua df r c). }
    split; [exact Hcell|].
    intros Hint. rewrite Hcell.
    destruct (observed ua df r c) as [o|] eqn:E; [|tauto].
    split; [|discriminate].
    apply observed_Some in E as [Hin _].
    destruct (detected o) eqn:Hd; [|discriminate].
    intros [= H]. now elim (Hint o Hin Hd).
Qed.

(** The amended C1 on the small table: glucose and lysine survive,
    alanine is dropped; glucose holds a zero, lysine the sentinel. *)
Lemma ranking_target_cells_witness :
  duplicate_entries true small_table = false /\
  exists Y,
    training_targets true "ranking" small_table = Ok (Y, None) /\
    index Y = [["glucose"; "+H"]; ["lysine"; "+H"]] /\
    values Y = [[Num 0; Num 5]; [Num (-1); Num 2]].
Proof.
  split; [reflexivity|].
  destruct (ranking_target_cells true small_table eq_refl)
    as (Y & HY & _).
  exists Y. split; [exact HY|].
  vm_compute in HY. injection HY as <-. split; reflexivity.
Defined.

(** C1 as stated fails: in the ranking target of the small table the
    row of glucose, which is detected in positive mode, holds a zero at
    its observed but undetected negative-mode cell. *)
Lemma ranking_target_zero_counterexample :
  ~ ranking_target_free_of_zero true small_table.
Proof.
  intros H.
  apply (H (mk_frame [["glucose"; "+H"]; ["lysine"; "+H"]]
                     [("DHB", "negative"); ("DHB", "positive")]
                     [[Num 0; Num 5]; [Num (-1); Num 2]])
           None 0 0 ["glucose"; "+H"]).
  - reflexivity.
  - reflexivity.
  - exists (mk_observation "glucose" "+H" "DHB" "positive" 5 true).
    split; [simpl; tauto | split; reflexivity].
  - reflexivity.
Qed.

(** C2.  For the "detection" task on a table without duplicated
    combinations, the ignore mask handed to the drivers is the
    missingness matrix [Y_is_na] as a plain array: a cell is ignored
    exactly when the table holds no observation of its combination.  The
    target is the detection matrix, false at the absent cells.  No row is
    dropped: every entity and every (matrix, polarity) pair of the table
    is on the axes. *)
Theorem detection_mask_is_missingness (ua : bool) (df : list observation) :
  duplicate_entries ua df = false ->
  exists fr Y mask,
    reshape_to_training_format ua "detection" df = Ok fr /\
    training_targets ua "detection" df = Ok (Y, Some mask) /\
    mask = to_numpy (tf_Y_is_na fr) /\
    Y = tf_Y_detected fr /\
    (forall r, In r (index Y) <-> exists o, In o df /\ index_key ua o = r) /\
    (forall c, In c (columns Y) <-> exists o, In o df /\ column_key o = c) /\
    forall i j r c,
      nth_error (index Y) i = Some r ->
      nth_error (columns Y) j = Some c ->
      exists ignored,
        iat (rows mask) i j = Some (Bool ignored) /\
        (ignored = true <-> forall o, In o df -> entry_key ua o <> (r, c)) /\
        iat (values Y) i j
        = Some (Bool (match observed ua df r c with
                      | Some o => detected o
                      | None => false
                      end)).
Proof.
  intros Hdup.
  pose proof (reshape_closed_form ua "detection" df Hdup) as Hfr.
  cbv zeta in Hfr. change (task_is "detection" "ranking") with false in Hfr.
  cbv iota in Hfr.
  unfold training_targets. rewrite Hfr. cbn [Py.bind].
  unfold select_target.
  change (task_is "detection" "ranking") with false.
  change (task_is "detection" "detection") with true.
  cbv iota. cbn [tf_Y_detected tf_Y_is_na].
  eexists. eexists. eexists.
  split; [reflexivity|]. split; [reflexivity|].
  split; [reflexivity|]. split; [reflexivity|].
  cbn [index columns tabulate].
  split; [|split].
  - intros r. apply In_all_rows.
  - intros c. apply In_all_columns.
  - intros i j r c Hr Hc.
    exists (match observed ua df r c with Some _ => false | None => true end).
    split; [|split].
    + unfold to_numpy. cbn [rows].
      fold (tabulate (sort_unique row_key_compare (map (index_key ua) df))
              (sort_unique col_key_compare (map column_key df))
              (fun r c => match observed ua df r c with
                          | Some _ => Bool false
                          | None => Bool true
                          end)).
      rewrite (iat_tabulate _ _ _ _ _ _ _ Hr Hc).
      now destruct (observed ua df r c).
    + rewrite <- observed_None.
      destruct (observed ua df r c); split; congruence.
    + fold (tabulate (sort_unique row_key_compare (map (index_key ua) df))
              (sort_unique col_key_compare (map column_key df))
              (fun r c => Bool (detected_at ua df r c))).
      now rewrite (iat_tabulate _ _ _ _ _ _ _ Hr Hc).
Qed.

(** C2 on the small table: all three entities are kept; the only ignored
    cells are the negative-mode cells of alanine and lysine. *)
Lemma detection_mask_is_missingness_witness :
  duplicate_entries true small_table = false /\
  exists Y mask,
    training_targets true "detection" small_table = Ok (Y, Some mask) /\
    index Y = [["alanine"; "+H"]; ["glucose"; "+H"]; ["lysine"; "+H"]] /\
    rows mask = [[Bool true; Bool false]; [Bool false; Bool false];
                 [Bool true; Bool false]] /\
    values Y = [[Bool false; Bool false]; [Bool false; Bool true];
                [Bool false; Bool true]].
Proof.
  split; [reflexivity|].
  destruct (detection_mask_is_missingness true small_table eq_refl)
    as (fr & Y & mask & _ & HY & _).
  exists Y, mask. split; [exact HY|].
  vm_compute in HY. injection HY as <- <-. repeat split; reflexivity.
Defined.

(** C3.  For the "regression" task on a table without duplicated
    combinations, the ignore mask is the negation of the detection
    matrix: a cell is ignored exactly when it is not detected.  A cell
    that is not ignored holds the intensity of its observation, and the
    zeroing step changed ignored cells only. *)
Theorem regression_mask_and_target (ua : bool) (df : list observation) :
  duplicate_entries ua df = false ->
  exists fr Y mask,
    reshape_to_training_format ua "regression" df = Ok fr /\
    training_targets ua "regression" df = Ok (Y, Some mask) /\
    mask = logical_not (to_numpy (tf_Y_detected fr)) /\
    (forall r, In r (index Y) <-> exists o, In o df /\ index_key ua o = r) /\
    (forall c, In c (columns Y) <-> exists o, In o df /\ column_key o = c) /\
    forall i j r c,
      nth_error (index Y) i = Some r ->
      nth_error (columns Y) j = Some c ->
      exists ignored,
        iat (rows mask) i j = Some (Bool ignored) /\
        iat (values (tf_Y_detected fr)) i j = Some (Bool (negb ignored)) /\
        ignored = negb (detected_at ua df r c) /\
        (ignored = false ->
         exists o, observed ua df r c = Some o /\ detected o = true /\
                   iat (values Y) i j = Some (Num (intensity o))) /\
        (iat (values Y) i j
         <> Some (pivot_cell ua (fun o => Num (intensity o)) df r c) ->
         ignored = true /\ iat (values Y) i j = Some (Num 0)).
Proof.
  intros Hdup.
  pose proof (reshape_closed_form ua "regression" df Hdup) as Hfr.
  cbv zeta in Hfr. change (task_is "regression" "ranking") with false in Hfr.
  cbv iota in Hfr.
  unfold training_targets. rewrite Hfr. cbn [Py.bind].
  unfold select_target.
  change (task_is "regression" "ranking") with false.
  change (task_is "regression" "detection") with false.
  change (task_is "regression" "regression") with true.
  cbv iota. cbn [tf_Y tf_Y_detected].
  eexists. eexists. eexists.
  split; [reflexivity|]. split; [reflexivity|]. split; [reflexivity|].
  set (all_rows := sort_unique row_key_compare (map (index_key ua) df)).
  set (cols := sort_unique col_key_compare (map column_key df)).
  split; [|split].
  - intros r. apply In_all_rows.
  - intros c. apply In_all_columns.
  - cbn [index columns tabulate tf_Y_detected]. intros i j r c Hr Hc.
    exists (negb (detected_at ua df r c)).
    assert (HD : iat (values (tabulate all_rows cols
                    (fun r c => Bool (detected_at ua df r c)))) i j
                 = Some (Bool (detected_at ua df r c)))
      by now rewrite (iat_tabulate _ _ _ _ _ _ _ Hr Hc).
    assert (HY : iat (values (tabulate all_rows cols
                    (fun r c =>
                       match observed ua df r c with
                       | Some o =>
                           if detected o then Num (intensity o) else Num 0
                       | None => Num 0
                       end))) i j
                 = Some (match observed ua df r c with
                         | Some o =>
                             if detected o then Num (intensity o) else Num 0
                         | None => Num 0
                         end))
      by now rewrite (iat_tabulate _ _ _ _ _ _ _ Hr Hc).
    split; [|split; [|split; [|split]]].
    + unfold logical_not, to_numpy. cbn [rows].
      rewrite iat_map_map, HD. reflexivity.
    + rewrite negb_involutive. exact HD.
    + reflexivity.
    + intros Hd. apply negb_false_iff in Hd. unfold detected_at in Hd.
      rewrite HY.
      destruct (observed ua df r c) as [o|]; [|discriminate].
      exists o. rewrite Hd. auto.
    + rewrite HY. unfold pivot_cell, detected_at.
      destruct (observed ua df r c) as [o|].
      * destruct (detected o); [congruence|]. auto.
      * auto.
Qed.

(** C3 on the small table: only the positive-mode cells of glucose and
    lysine are kept, with their intensities 5 and 2. *)
Lemma regression_mask_and_target_witness :
  duplicate_entries true small_table = false /\
  exists Y mask,
    training_targets true "regression" small_table = Ok (Y, Some mask) /\
    rows mask = [[Bool true; Bool true]; [Bool true; Bool false];
                 [Bool true; Bool false]] /\
    values Y = [[Num 0; Num 0]; [Num 0; Num 5]; [Num 0; Num 2]].
Proof.
  split; [reflexivity|].
  destruct (regression_mask_and_target true small_table eq_refl)
    as (fr & Y & mask & _ & HY & _).
  exists Y, mask. split; [exact HY|].
  vm_compute in HY. injection HY as <- <-. repeat split; reflexivity.
Defined.

(** ** The ranking-loss adapter *)

(** C6.  Without allRank's loss ([neuralNDCG] is [None]) the constructor
    of the adapter raises, whatever the options.  With it, the
    constructor returns an adapter that holds the options as given, and
    every call of that adapter is the call of the external loss on the
    prediction, the ground truth and these options: its result, or its
    exception, is the adapter's.  An adapter that could be constructed
    never fails by itself at call time. *)
Theorem ranking_loss_adapter (env : runtime) :
  (neuralNDCG env = None ->
   forall options, NeuralNDCGLoss_init env options = Raise AssertionError) /\
  (forall f, neuralNDCG env = Some f ->
   forall options,
   exists self,
     NeuralNDCGLoss_init env options = Ok self /\
     loss_kwargs self = options /\
     forall pred gt, NeuralNDCGLoss_call env self pred gt = f pred gt options) /\
  (forall options self,
     NeuralNDCGLoss_init env options = Ok self ->
     exists f, neuralNDCG env = Some f /\
               forall pred gt,
                 NeuralNDCGLoss_call env self pred gt
                 = f pred gt (loss_kwargs self)).
Proof.
  unfold NeuralNDCGLoss_init, NeuralNDCGLoss_call.
  split; [|split].
  - intros H options. now rewrite H.
  - intros f H options. rewrite H. eexists. repeat split.
  - intros options self. destruct (neuralNDCG env) as [f|]; [|discriminate].
    intros _. exists f. split; reflexivity.
Qed.

(** C6 on the toy runtime, without and with the external loss. *)
Lemma ranking_loss_adapter_witness :
  NeuralNDCGLoss_init (toy_runtime false) [("k", PyInt 5)]
  = Raise AssertionError /\
  exists self,
    NeuralNDCGLoss_init (toy_runtime true) [("k", PyInt 5)] = Ok self /\
    NeuralNDCGLoss_call (toy_runtime true) self 7%Z 3%Z = Ok 5%Z.
Proof.
  split.
  - apply (proj1 (ranking_loss_adapter (toy_runtime false)) eq_refl).
  - destruct (proj1 (proj2 (ranking_loss_adapter (toy_runtime true)))
                toy_ndcg eq_refl [("k", PyInt 5)]) as (self & Hinit & _ & Hcall).
    exists self. split; [exact Hinit|]. now rewrite Hcall.
Defined.

(** ** Computations with a trace *)



Lemma task_is_true (task_name name : string) :
  task_is task_name name = true -> task_name = name.
Proof. apply String.eqb_eq. Qed.

Section BindFacts.

Context {A B : Type}.

Lemma bind_raise (m : IO.M A) (k : A -> IO.M B) (e : exn) :
  IO.outcome m = Raise e ->
  IO.bind m k = (IO.trace m, Raise e).
Proof.
  destruct m as [t [a|e']]; cbn; intros H; [discriminate|].
  now injection H as ->.
Qed.

Lemma bind_ok (m : IO.M A) (k : A -> IO.M B) (a : A) :
  IO.outcome m = Ok a ->
  IO.bind m k = (IO.trace m ++ IO.trace (k a), IO.outcome (k a)).
Proof.
  destruct m as [t [a'|e']]; cbn; intros H; [|discriminate].
  injection H as ->. now destruct (k a).
Qed.

Lemma bind_outcome_raise (m : IO.M A) (k : A -> IO.M B) :
  (forall a, exists e, IO.outcome (k a) = Raise e) ->
  exists e, IO.outcome (IO.bind m k) = Raise e.
Proof.
  intros H. destruct m as [t [a|e]]; cbn.
  - destruct (H a) as [e He]. destruct (k a) as [t' r]. cbn in He. eauto.
  - eauto.
Qed.

Lemma bind_ret (a : A) (k : A -> IO.M B) : IO.bind (IO.ret a) k = k a.
Proof. unfold IO.bind, IO.ret. now destruct (k a). Qed.

Lemma bind_lift_ok (a : A) (k : A -> IO.M B) :
  IO.bind (IO.lift (Ok a)) k = k a.
Proof. unfold IO.bind, IO.lift. now destruct (k a). Qed.

Lemma bind_lift_raise (e : exn) (k : A -> IO.M B) :
  IO.bind (IO.lift (Raise e)) k = ([], Raise e).
Proof. reflexivity. Qed.

Lemma bind_raise_now (e : exn) (k : A -> IO.M B) :
  IO.bind (IO.raise e) k = ([], Raise e).
Proof. reflexivity. Qed.

Lemma bind_call_ok (ev : event) (a : A) (k : A -> IO.M B) :
  IO.bind (IO.call ev (Ok a)) k
  = (ev :: IO.trace (k a), IO.outcome (k a)).
Proof. unfold IO.bind, IO.call. now destruct (k a). Qed.

Lemma bind_call_raise (ev : event) (e : exn) (k : A -> IO.M B) :
  IO.bind (IO.call ev (Raise e)) k = ([ev], Raise e).
Proof. reflexivity. Qed.

End BindFacts.

Lemma bind_log {B : Type} (ev : event) (k : unit -> IO.M B) :
  IO.bind (IO.log ev) k = (ev :: IO.trace (k tt), IO.outcome (k tt)).
Proof. unfold IO.bind, IO.log. now destruct (k tt). Qed.

(** ** Task names *)


(** The names of the training stack. *)
Lemma torch_name_imported {A : Type} (env : runtime) (a : A) :
  torch_imported env = true -> torch_name env a = Ok a.
Proof. intros H. unfold torch_name. now rewrite H. Qed.

Lemma torch_name_missing {A : Type} (env : runtime) (a : A) :
  torch_imported env = false -> torch_name env a = Raise NameError.
Proof. intros H. unfold torch_name. now rewrite H. Qed.



(** ** What the orchestrator hands to the cross-validation driver *)

(** Once the steps before the dispatch have succeeded, a run without
    feature selection is the k-means call followed by the
    cross-validation driver on [X], on the target and the ignore mask of
    [select_target] and on the k-means labels, with 20 epochs, batches of
    8, learning rate 0.01, and 32 hidden features, and by the reshaping
    of what the driver returns. *)
Lemma orchestrator_cross_validation_call (env : runtime)
    (df : list observation) (features adducts : feature_table)
    (task_name : string) (csv : option string) (folds : nat)
    (checkpoint : option string) (ua : bool) (names : option (list string))
    (fr : training_frames) (X : ndarray cell) (labels : list nat)
    (Y : frame) (mask : option (ndarray cell)) :
  torch_imported env = true ->
  reshape_to_training_format ua task_name df = Ok fr ->
  feature_array ua features adducts (index (tf_Y fr)) = Ok X ->
  kmeans_labels env (tf_Y fr) = Ok labels ->
  select_target task_name fr = Ok (Y, mask) ->
  let rest :=
    IO.bind
      (train_torch_model_cross_val_loop env X (to_numpy Y) task_name labels
         mask 20 8 (1 # 100) folds 32)
      (fun out =>
         IO.bind (IO.lift (reshape_results Y out))
           (fun reshaped_out => IO.ret (LongTable reshaped_out))) in
  train_pytorch_model_on_intensities env df features adducts task_name false
    csv folds checkpoint ua names
  = (EvKMeans :: IO.trace rest, IO.outcome rest).
Proof.
  intros Ht Hfr HX Hk Hsel rest.
  unfold train_pytorch_model_on_intensities.
  rewrite Ht, bind_ret, Hfr, bind_lift_ok, HX, bind_lift_ok, Hk,
    bind_call_ok, Hsel, bind_lift_ok.
  reflexivity.
Qed.

(** With feature selection, once the steps before the dispatch and the
    attribution driver have succeeded, the run returns the
    feature-importance table of the driver's attribution values, of the
    ignore mask of [select_target] and of [feat_names], or raises what
    building that table raises. *)
Lemma orchestrator_feature_selection_call (env : runtime)
    (df : list observation) (features adducts : feature_table)
    (task_name : string) (csv : option string) (folds : nat)
    (checkpoint : option string) (ua : bool) (names : option (list string))
    (fr : training_frames) (X : ndarray cell) (labels : list nat)
    (Y : frame) (mask : option (ndarray cell))
    (shap_values : list (ndarray Q)) (feat_names : list string) :
  torch_imported env = true ->
  reshape_to_training_format ua task_name df = Ok fr ->
  feature_array ua features adducts (index (tf_Y fr)) = Ok X ->
  kmeans_labels env (tf_Y fr) = Ok labels ->
  select_target task_name fr = Ok (Y, mask) ->
  IO.outcome
    (features_selection_torch_model env X (to_numpy Y) task_name mask 100 8
       (1 # 100) folds 128 checkpoint false)
  = Ok shap_values ->
  feature_names ua features names = Ok feat_names ->
  IO.outcome
    (train_pytorch_model_on_intensities env df features adducts task_name
       true csv folds checkpoint ua names)
  = match feature_importance (columns Y) shap_values mask feat_names with
    | Ok table => Ok (FeatureImportance table)
    | Raise e => Raise e
    end.
Proof.
  intros Ht Hfr HX Hk Hsel Hshap Hnames.
  unfold train_pytorch_model_on_intensities.
  rewrite Ht, bind_ret, Hfr, bind_lift_ok, HX, bind_lift_ok, Hk,
    bind_call_ok, Hsel, bind_lift_ok.
  cbn [negb IO.outcome snd].
  rewrite (bind_ok _ _ _ Hshap). cbn [IO.outcome snd].
  rewrite bind_log, Hnames, bind_lift_ok. cbn [IO.outcome snd].
  destruct (feature_importance (columns Y) shap_values mask feat_names);
    reflexivity.
Qed.

(** ** The attribution driver without an ignore mask *)

Section WithoutMask.

Variable env : runtime.

Lemma bind_assoc {A B C : Type} (m : IO.M A) (f : A -> IO.M B)
    (g : B -> IO.M C) :
  IO.bind (IO.bind m f) g = IO.bind m (fun x => IO.bind (f x) g).
Proof.
  destruct m as [t [a|e]]; cbn; [|reflexivity].
  destruct (f a) as [t' [b|e']]; cbn; [|reflexivity].
  destruct (g b) as [t'' r]. now rewrite app_assoc.
Qed.

(** The diagnostic raises when it flattens the mask [None]. *)
Lemma print_score_without_mask (Y : ndarray cell) (batch : nat)
    (test_data : dataset) (trainer : network env) :
  (exists e, IO.outcome (print_score env Y None batch test_data trainer)
             = Raise e) /\
  (forall p,
     trainer_predict env trainer (mk_DataLoader test_data batch None false)
     = Ok p ->
     print_score env Y None batch test_data trainer
     = ([EvPredict], Raise AttributeError)).
Proof.
  unfold print_score.
  destruct (trainer_predict env trainer
              (mk_DataLoader test_data batch None false)) as [p|e].
  - rewrite bind_call_ok, bind_raise_now. cbn. split; [eauto|reflexivity].
  - rewrite bind_call_raise. cbn. split; [eauto|]. intros p H. discriminate H.
Qed.

(** Constructing, training and scoring a fresh network (lines 183-201)
    when the mask is [None]. *)
Lemma fresh_model_without_mask {B : Type} (model : SimpleTwoLayersNN)
    (loader : DataLoader) (Y : ndarray cell) (batch epochs : nat)
    (test_data : dataset) (k : network env -> IO.M B) :
  let run :=
    IO.bind
      (IO.bind (IO.log (EvModel model))
         (fun _ =>
            IO.bind (train_torch_model env model loader None None epochs)
              (fun out =>
                 match out with
                 | OnlyTrainer trainer =>
                     IO.bind (print_score env Y None batch test_data trainer)
                       (fun _ => IO.ret trainer)
                 | WithPredictions _ _ _ => IO.raise AttributeError
                 end)))
      k in
  (exists e, IO.outcome run = Raise e) /\
  ((exists net, trainer_fit env model loader None epochs = Ok net) ->
   (forall net, exists p,
      trainer_predict env net (mk_DataLoader test_data batch None false)
      = Ok p) ->
   run = ([EvModel model; EvFit epochs; EvPredict], Raise AttributeError)).
Proof.
  intros run. unfold run, train_torch_model.
  rewrite !bind_assoc, bind_log.
  destruct (trainer_fit env model loader None epochs) as [net|e].
  - rewrite bind_call_ok, bind_ret, bind_assoc.
    destruct (print_score_without_mask Y batch test_data net) as [[e He] Hs].
    rewrite (bind_raise _ _ _ He). cbn [IO.trace IO.outcome fst snd].
    split; [eauto|].
    intros _ Hpred. destruct (Hpred net) as [p Hp].
    rewrite (Hs p Hp) in He |- *.
    cbn in He. injection He as <-. reflexivity.
  - rewrite bind_call_raise. cbn [IO.trace IO.outcome fst snd].
    split; [eauto|]. intros [net H]. discriminate H.
Qed.

End WithoutMask.

Lemma valid_task_cases (task_name : string) :
  In task_name ["ranking"; "detection"; "regression"] ->
  task_is task_name "ranking" = false ->
  task_is task_name "detection" = false ->
  task_is task_name "regression" = false ->
  False.
Proof.
  unfold task_is. intros [<-|[<-|[<-|[]]]] H1 H2 H3; discriminate.
Qed.

(** The feature-selection branch of the orchestrator stops at the cast
    of a mask that is [None]. *)
Lemma feature_importance_without_mask (cols : list col_key)
    (shap_values : list (ndarray Q)) (feat_names : list string) :
  feature_importance cols shap_values None feat_names = Raise AttributeError.
Proof. reflexivity. Qed.

(** A run that is known in full raises after the three events of a
    fresh network. *)
Lemma after_training {A : Type} (run : IO.M A) (epochs : nat) :
  (exists model,
     run = ([EvModel model; EvFit epochs; EvPredict], Raise AttributeError)) ->
  IO.outcome run = Raise AttributeError /\
  exists model, IO.trace run = [EvModel model; EvFit epochs; EvPredict].
Proof. intros [model ->]. cbn. eauto. Qed.

(** C8.  Called with [ignore_mask=None] and no checkpoint, the
    attribution driver never returns attribution values: it raises.
    When the task name is valid, the loss could be built and the fit and
    the prediction succeed, the exception is the AttributeError of
    flattening [None], raised after the network was constructed, trained
    and used for prediction.  The orchestrator passes [None] for the
    "ranking" task, so with feature selection it never returns for this
    task, with or without a checkpoint: past the driver it casts the same
    [None]. *)
Theorem attribution_needs_ignore_mask (env : runtime) :
  (forall X Y task_name epochs batch lr folds hidden only_train,
     let run :=
       features_selection_torch_model env X Y task_name None epochs batch
         lr folds hidden None only_train in
     (exists e, IO.outcome run = Raise e) /\
     (In task_name ["ranking"; "detection"; "regression"] ->
      (task_name = "ranking" -> neuralNDCG env <> None) ->
      (forall model loader, exists net,
         trainer_fit env model loader None epochs = Ok net) ->
      (forall net loader, exists p, trainer_predict env net loader = Ok p) ->
      IO.outcome run = Raise AttributeError /\
      exists model,
        IO.trace run = [EvModel model; EvFit epochs; EvPredict])) /\
  (forall df features adducts csv folds checkpoint ua names,
     exists e,
       IO.outcome
         (train_pytorch_model_on_intensities env df features adducts
            "ranking" true csv folds checkpoint ua names)
       = Raise e).
Proof.
  assert (P1 :
    forall X Y task_name epochs batch lr folds hidden only_train,
     let run :=
       features_selection_torch_model env X Y task_name None epochs batch
         lr folds hidden None only_train in
     (exists e, IO.outcome run = Raise e) /\
     (In task_name ["ranking"; "detection"; "regression"] ->
      (task_name = "ranking" -> neuralNDCG env <> None) ->
      (forall model loader, exists net,
         trainer_fit env model loader None epochs = Ok net) ->
      (forall net loader, exists p, trainer_predict env net loader = Ok p) ->
      IO.outcome run = Raise AttributeError /\
      exists model,
        IO.trace run = [EvModel model; EvFit epochs; EvPredict])).
  { intros X Y task_name epochs batch lr folds hidden only_train run.
    pose proof (fun B m l b td k =>
                  @fresh_model_without_mask env B m l Y b epochs td k) as F.
    cbv zeta in F.
    unfold run, features_selection_torch_model. cbv zeta.
    unfold torch_name. destruct (torch_imported env) eqn:Ht.
    2:{ cbn. split; [eauto|]. intros _ _ Hfit _.
        destruct (Hfit (mk_SimpleTwoLayersNN 0 0 0 MSELoss 0%Q None false)
                    (mk_DataLoader (TestData X) 0 None false)) as [net Hnet].
        unfold trainer_fit in Hnet. rewrite Ht in Hnet. discriminate Hnet. }
    rewrite bind_lift_ok.
    destruct (task_is task_name "ranking") eqn:Hr;
      [|destruct (task_is task_name "detection") eqn:Hd;
        [|destruct (task_is task_name "regression") eqn:Hg]].
    - unfold NeuralNDCGLoss_init.
      destruct (neuralNDCG env) as [f|] eqn:Hn.
      + rewrite bind_assoc, bind_lift_ok, !bind_ret. cbv beta iota.
        split; [apply F|].
        intros _ _ Hfit Hpred. apply after_training. eexists.
        eapply (proj2 (F _ _ _ _ _ _)); eauto.
      + rewrite bind_assoc, bind_lift_raise. cbn.
        split; [eauto|]. intros _ Hl. apply task_is_true in Hr.
        now elim (Hl Hr).
    - rewrite bind_ret. cbv beta iota.
      split; [apply F|].
      intros _ _ Hfit Hpred. apply after_training. eexists.
        eapply (proj2 (F _ _ _ _ _ _)); eauto.
    - rewrite bind_ret. cbv beta iota.
      split; [apply F|].
      intros _ _ Hfit Hpred. apply after_training. eexists.
        eapply (proj2 (F _ _ _ _ _ _)); eauto.
    - rewrite bind_raise_now. cbn. split; [eauto|].
      intros Hin. now elim (valid_task_cases task_name Hin).
  }
  split; [exact P1|].
  intros df features adducts csv folds checkpoint ua names.
  unfold train_pytorch_model_on_intensities. cbn [negb].
  apply bind_outcome_raise. intros _.
  apply bind_outcome_raise. intros fr.
  apply bind_outcome_raise. intros X.
  apply bind_outcome_raise. intros labels.
  unfold select_target. change (task_is "ranking" "ranking") with true.
  cbv iota. rewrite bind_lift_ok. cbv beta iota zeta.
  apply bind_outcome_raise. intros shap_values.
  apply bind_outcome_raise. intros _.
  apply bind_outcome_raise. intros feat_names.
  rewrite feature_importance_without_mask, bind_lift_raise. cbn. eauto.
Qed.

(** C8 on the toy runtime: the "ranking" task with the mask [None] and
    no checkpoint trains a network and then raises. *)
Lemma attribution_needs_ignore_mask_witness :
  In "ranking" ["ranking"; "detection"; "regression"] /\
  IO.outcome
    (features_selection_torch_model (toy_runtime true)
       (mk_ndarray 1 [[Num 1]; [Num 2]]) (mk_ndarray 1 [[Num 5]; [Num 3]])
       "ranking" None 100 8 (1 # 100) 10 128 None false)
  = Raise AttributeError.
Proof.
  assert (Hin : In "ranking" ["ranking"; "detection"; "regression"])
    by (cbn; tauto).
  split; [exact Hin|].
  destruct (proj1 (attribution_needs_ignore_mask (toy_runtime true))
              (mk_ndarray 1 [[Num 1]; [Num 2]])
              (mk_ndarray 1 [[Num 5]; [Num 3]])
              "ranking" 100 8 (1 # 100)%Q 10 128 false) as [_ H].
  cbv zeta in H. apply H.
  - exact Hin.
  - intros _. discriminate.
  - intros model loader. eexists. reflexivity.
  - intros net loader. eexists. reflexivity.
Defined.
(** ** Batches of a loader *)

Lemma combine_app_aligned {A B : Type} (l1 l2 : list A) (l1' l2' : list B) :
  List.length l1 = List.length l1' ->
  combine (l1 ++ l2) (l1' ++ l2') = combine l1 l1' ++ combine l2 l2'.
Proof.
  revert l1'. induction l1 as [|x l1 IH]; intros [|y l1'] H;
    cbn in *; try discriminate; [reflexivity|].
  f_equal. apply IH. lia.
Qed.

(** Concatenating batches keeps each predicted row beside its index. *)
Lemma combine_concat_batches (batches : list (ndarray Z * list nat)) :
  Forall (fun b => shape0 (fst b) = List.length (snd b)) batches ->
  List.length (List.concat (map (fun b => rows (fst b)) batches))
  = List.length (List.concat (map snd batches)) /\
  combine (List.concat (map (fun b => rows (fst b)) batches))
          (List.concat (map snd batches))
  = List.concat (map (fun b => combine (rows (fst b)) (snd b)) batches).
Proof.
  induction 1 as [|b batches Hb _ [IHlen IH]]; cbn; [auto|].
  unfold shape0 in Hb. split.
  - rewrite !length_app. lia.
  - rewrite combine_app_aligned by exact Hb. now rewrite IH.
Qed.

Lemma concatenate_rows_uniform {A : Type} (w : nat)
    (arrs : list (ndarray A)) :
  arrs <> [] ->
  Forall (fun a => shape1 a = w) arrs ->
  concatenate_rows arrs = Ok (mk_ndarray w (List.concat (map rows arrs))).
Proof.
  intros Hne Hw. destruct arrs as [|a rest]; [contradiction|].
  unfold concatenate_rows.
  inversion Hw as [|? ? Ha Hrest]; subst.
  replace (forallb (fun b => (shape1 b =? shape1 a)%nat) rest) with true;
    [reflexivity|].
  symmetry. apply forallb_forall. intros b Hb.
  rewrite Forall_forall in Hrest. rewrite (Hrest b Hb). apply Nat.eqb_refl.
Qed.

Lemma chunks_concat {A : Type} (n : nat) :
  0 < n ->
  forall (fuel : nat) (l : list A),
    List.length l <= fuel -> List.concat (chunks fuel n l) = l.
Proof.
  intros Hn. induction fuel as [|fuel IH]; intros l Hlen.
  - destruct l; [reflexivity | cbn in Hlen; lia].
  - destruct l as [|x l]; [reflexivity|].
    cbn [chunks List.concat]. rewrite IH; [apply firstn_skipn|].
    rewrite length_skipn. cbn [List.length] in *. lia.
Qed.

(** A loader that does not drop the last batch hands out every index it
    drew, in the order drawn. *)
Lemma batches_of_keep_all {A : Type} (n : nat) (l : list A) :
  0 < n -> List.concat (batches_of n false l) = l.
Proof.
  intros Hn. unfold batches_of. now apply chunks_concat.
Qed.

Lemma fits_imply_torch (env : runtime) :
  fits_every_model env -> torch_imported env = true.
Proof.
  intros H.
  destruct (H (mk_SimpleTwoLayersNN 0 0 0 MSELoss 0%Q None false)
              (mk_DataLoader (TestData (mk_ndarray 0 [])) 0 None false)
              None 0) as [net Hnet].
  unfold trainer_fit in Hnet.
  destruct (torch_imported env); [reflexivity | discriminate Hnet].
Qed.

Lemma dataset_rows_test (X : ndarray cell) :
  dataset_rows (TestData (astype_float32 X)) = shape0 X.
Proof. unfold dataset_rows, astype_float32, shape0. cbn. apply length_map. Qed.

(** ** The cross-validation driver *)

Lemma tags_pad (w : nat) (rs : list cv_row) :
  tags (map (pad_row w) rs) = tags rs.
Proof. unfold tags. rewrite map_map. now apply map_ext. Qed.

Lemma tags_pd_concat (acc : cv_table) (lc : nat * list cv_row) :
  tags (table_rows (pd_concat acc lc))
  = tags (table_rows acc) ++ tags (snd lc).
Proof.
  destruct acc as [[w rs]|]; cbn.
  - rewrite tags_pad. unfold tags. apply map_app.
  - now destruct lc.
Qed.

Lemma tags_fold_results (pred_array : ndarray Z) (pred_indices : list nat)
    (fold : nat) (lc : nat * list cv_row) :
  fold_results pred_array pred_indices fold = Ok lc ->
  tags (snd lc) = map (fun i => (i, fold)) pred_indices.
Proof.
  unfold fold_results, shape0.
  destruct (Nat.eqb_spec (List.length (rows pred_array))
              (List.length pred_indices)) as [Hlen|]; [|discriminate].
  intros [= <-]. cbn [snd]. unfold tags, map2. rewrite map_map. cbn.
  revert Hlen. generalize (rows pred_array) as rs.
  induction pred_indices as [|i l IH]; intros [|r rs] Hlen;
    cbn in *; try discriminate; [reflexivity|].
  f_equal. apply IH. lia.
Qed.

Section CrossValidation.

Variable env : runtime.
Hypothesis fit_ok : fits_every_model env.
Hypothesis predict_ok : predicts_in_batches env.

(** The trainer returns the predictions of the sampled rows: the test
    loader does not drop its last batch, so that the batches it makes
    hold every sampled index. *)
Lemma train_torch_model_predictions (model : SimpleTwoLayersNN)
    (train_loader val_loader test_loader : DataLoader) (epochs : nat)
    (idx : list nat) :
  dl_sampler test_loader = Some idx -> idx <> [] ->
  0 < dl_batch_size test_loader ->
  dl_drop_last test_loader = false ->
  Forall (fun i => i < dataset_rows (dl_dataset test_loader)) idx ->
  exists net pred_array pred_indices,
    train_torch_model env model train_loader (Some val_loader)
      (Some test_loader) epochs
    = ([EvFit epochs; EvPredict],
       Ok (WithPredictions net pred_array pred_indices)) /\
    shape0 pred_array = List.length pred_indices /\
    Permutation pred_indices idx.
Proof.
  intros Hs Hne Hb Hd Hin. unfold train_torch_model.
  destruct (fit_ok model train_loader (Some val_loader) epochs) as [net Hnet].
  destruct (predict_ok net test_loader idx Hs Hb Hin)
    as (order & batches & w & Hperm & Hp & Hsnd & Hall).
  rewrite Hd in Hsnd.
  assert (Hcat : List.concat (map snd batches) = order).
  { rewrite Hsnd. now apply batches_of_keep_all. }
  assert (Hbne : batches <> []).
  { intros ->. cbn in Hcat. subst order.
    apply Permutation_nil in Hperm. contradiction. }
  rewrite Hnet, bind_call_ok, Hp, bind_call_ok.
  rewrite (concatenate_rows_uniform w (map fst batches)).
  2:{ destruct batches; [contradiction | discriminate]. }
  2:{ apply Forall_map. revert Hall. apply Forall_impl. now intros b [H _]. }
  rewrite bind_lift_ok.
  assert (H1 : concatenate_1d (map snd batches)
               = Ok (List.concat (map snd batches))).
  { destruct batches as [|b bs]; [contradiction | reflexivity]. }
  rewrite H1, bind_lift_ok. cbn.
  exists net. eexists. exists (List.concat (map snd batches)).
  split; [reflexivity|]. split.
  - unfold shape0. cbn [rows]. rewrite map_map.
    apply combine_concat_batches.
    revert Hall. apply Forall_impl. now intros b [_ H].
  - rewrite Hcat. exact Hperm.
Qed.

Variables X Y : ndarray cell.
Variable task_name : string.
Variables train_val_dataset test_data : dataset.
Variable loss_fn : loss_function.
Variable activation_fn : option activation.
Variables epochs batch : nat.
Variable lr : Q.
Variable hidden : nat.
Hypothesis batch_positive : 0 < batch.

Let body :=
  cross_val_fold env X Y task_name train_val_dataset test_data loss_fn
    activation_fn epochs batch lr hidden.

(** One fold adds the held-out rows under the number of the fold. *)
Lemma cross_val_fold_rows (fold : nat) (train_index test_index : list nat)
    (acc : cv_table) :
  test_index <> [] ->
  Forall (fun i => i < dataset_rows test_data) test_index ->
  exists tr t new,
    body fold (train_index, test_index) acc = (tr, Ok t) /\
    tags (table_rows t) = tags (table_rows acc) ++ new /\
    Permutation (map fst new) test_index /\
    Forall (fun p => snd p = fold) new.
Proof.
  intros Hne Hin. unfold body, cross_val_fold.
  rewrite bind_log.
  match goal with
  | |- context [train_torch_model env ?m ?tl (Some ?vl) (Some ?sl) epochs] =>
      destruct (train_torch_model_predictions m tl vl sl epochs
                  test_index eq_refl Hne batch_positive eq_refl Hin)
        as (net & pa & pi & Hrun & Hlen & Hperm)
  end.
  rewrite Hrun, bind_ok with (a := WithPredictions net pa pi)
    by reflexivity.
  unfold fold_results. rewrite Hlen, Nat.eqb_refl, bind_lift_ok.
  cbn [IO.trace IO.outcome fst snd IO.ret].
  eexists. eexists. exists (map (fun i => (i, fold)) pi).
  split; [reflexivity|]. split; [|split].
  - rewrite tags_pd_concat. f_equal.
    apply (tags_fold_results pa pi fold).
    unfold fold_results. now rewrite Hlen, Nat.eqb_refl.
  - rewrite map_map. cbn. now rewrite map_id.
  - apply Forall_forall. intros p Hp.
    apply in_map_iff in Hp as (i & <- & _). reflexivity.
Qed.

(** The loop over the folds adds, for every fold, its held-out rows under
    its number. *)
Lemma enumerate_loop_rows (splits : list (list nat * list nat)) :
  Forall (fun s => snd s <> [] /\
                   Forall (fun i => i < dataset_rows test_data) (snd s))
         splits ->
  forall (fold0 : nat) (acc : cv_table),
  exists tr t new,
    enumerate_loop body fold0 splits acc = (tr, Ok t) /\
    tags (table_rows t) = tags (table_rows acc) ++ new /\
    Permutation (map fst new) (List.concat (map snd splits)) /\
    forall p, In p new ->
      exists k train_index test_index,
        nth_error splits k = Some (train_index, test_index) /\
        snd p = fold0 + k /\ In (fst p) test_index.
Proof.
  induction 1 as [|[train_index test_index] splits [Hne Hin] _ IH];
    intros fold0 acc; cbn [enumerate_loop].
  - exists [], acc, []. rewrite app_nil_r. repeat split; auto.
    intros p [].
  - cbn [snd] in Hne, Hin.
    destruct (cross_val_fold_rows fold0 train_index test_index acc Hne Hin)
      as (tr1 & t1 & new1 & Hrun1 & Htags1 & Hperm1 & Hfold1).
    destruct (IH (S fold0) t1)
      as (tr2 & t2 & new2 & Hrun2 & Htags2 & Hperm2 & Hfold2).
    rewrite Hrun1, bind_ok with (a := t1) by reflexivity.
    rewrite Hrun2. cbn [IO.trace IO.outcome fst snd].
    eexists. exists t2, (new1 ++ new2).
    split; [reflexivity|]. split; [|split].
    + now rewrite Htags2, Htags1, app_assoc.
    + rewrite map_app. cbn [map List.concat snd].
      now apply Permutation_app.
    + intros p Hp. apply in_app_or in Hp as [Hp|Hp].
      * exists 0, train_index, test_index. cbn.
        rewrite Forall_forall in Hfold1. rewrite (Hfold1 p Hp).
        split; [reflexivity|]. split; [lia|].
        apply (Permutation_in _ Hperm1). now apply in_map.
      * destruct (Hfold2 p Hp) as (k & tri & tei & Hk & Hf & Hi).
        exists (S k), tri, tei. cbn. split; [exact Hk|]. split; [lia|exact Hi].
Qed.

End CrossValidation.

(** Held-out sets that partition the rows hold row numbers only. *)
Lemma partition_in_range (splits : list (list nat * list nat)) (n : nat) :
  Forall (fun s => snd s <> []) splits ->
  Permutation (List.concat (map snd splits)) (seq 0 n) ->
  Forall (fun s => snd s <> [] /\ Forall (fun i => i < n) (snd s)) splits.
Proof.
  intros Hne Hpart. apply Forall_forall. intros s Hs.
  rewrite Forall_forall in Hne. split; [now apply Hne|].
  apply Forall_forall. intros i Hi.
  assert (Hin : In i (seq 0 n)).
  { apply (Permutation_in _ Hpart). apply in_concat.
    exists (snd s). split; [now apply in_map | exact Hi]. }
  apply in_seq in Hin. lia.
Qed.

(** C5.  Assume that every fit succeeds; that prediction works batch
    by batch as the loader makes them (the sampled indices in some order,
    cut into batches of the batch size, a trailing incomplete batch being
    left out only by a loader that drops the last), each batch holding
    its indices beside one predicted row per index; that the batch size
    is positive; that the task is one of the driver's and its loss can be
    built; and that the split returns folds whose held-out sets are not
    empty and partition the row indices 0 .. n-1 (their concatenation is
    a permutation of these indices).  Then the driver returns a table;
    the indices of its rows are a permutation of 0 .. n-1, so every input
    row occurs exactly once: none is left out, because the driver's test
    loader does not drop its last batch, and none is doubled; and the
    fold tag of a row is the number of the fold that held the row out. *)
Theorem cross_validation_covers_every_row (env : runtime)
    (X Y : ndarray cell) (task_name : string) (classes : list nat)
    (mask : option (ndarray cell)) (epochs batch : nat) (lr : Q)
    (folds hidden : nat) (splits : list (list nat * list nat)) :
  fits_every_model env ->
  predicts_in_batches env ->
  0 < batch ->
  In task_name ["ranking"; "detection"] ->
  (task_name = "ranking" -> neuralNDCG env <> None) ->
  skf_split env folds (shape0 X) classes = Ok splits ->
  Forall (fun s => snd s <> []) splits ->
  Permutation (List.concat (map snd splits)) (seq 0 (shape0 X)) ->
  exists tr all_results,
    train_torch_model_cross_val_loop env X Y task_name classes mask epochs
      batch lr folds hidden
    = (tr, Ok all_results) /\
    Permutation (map cv_index (table_rows all_results)) (seq 0 (shape0 X)) /\
    forall r, In r (table_rows all_results) ->
      exists train_index test_index,
        nth_error splits (cv_fold r) = Some (train_index, test_index) /\
        In (cv_index r) test_index.
Proof.
  intros Hfit Hpred Hbatch Htask Hloss Hsplit Hne Hpart.
  unfold train_torch_model_cross_val_loop. cbv zeta.
  rewrite (torch_name_imported env _ (fits_imply_torch env Hfit)).
  rewrite bind_lift_ok.
  assert (Hsel : exists act lf,
    (if task_is task_name "ranking"
     then IO.bind (IO.lift (NeuralNDCGLoss_init env []))
            (fun l => IO.ret (@None activation, RankingLoss l))
     else if task_is task_name "detection"
          then IO.ret (Some Sigmoid, SorensenDiceLoss)
          else IO.raise ValueError)
    = IO.ret (act, lf)).
  { destruct Htask as [<-|[<-|[]]].
    - change (task_is "ranking" "ranking") with true. cbv iota.
      unfold NeuralNDCGLoss_init.
      destruct (neuralNDCG env) as [f|]; [|now elim (Hloss eq_refl)].
      rewrite bind_lift_ok. eauto.
    - change (task_is "detection" "ranking") with false.
      change (task_is "detection" "detection") with true. cbv iota. eauto. }
  destruct Hsel as (act & lf & ->).
  rewrite bind_ret. cbv beta iota zeta.
  rewrite Hsplit, bind_call_ok.
  pose proof (partition_in_range splits (shape0 X) Hne Hpart) as Hrange.
  rewrite <- (dataset_rows_test X) in Hrange.
  destruct (enumerate_loop_rows env Hfit Hpred X Y task_name
              (TrainValData (astype_float32 X) (astype_float32 Y)
                 (option_map astype_float32 mask))
              (TestData (astype_float32 X)) lf act epochs batch lr
              hidden Hbatch splits Hrange 0 None)
    as (tr & t & new & Hrun & Htags & Hperm & Hfold).
  cbv zeta in Hrun. rewrite Hrun. cbn [IO.trace IO.outcome fst snd].
  cbn [table_rows tags map app] in Htags.
  eexists. exists t. split; [reflexivity|]. split.
  - replace (map cv_index (table_rows t))
      with (map fst (tags (table_rows t)))
      by (unfold tags; rewrite map_map; reflexivity).
    rewrite Htags. now rewrite Hperm.
  - intros r Hin.
    assert (Hp : In (cv_index r, cv_fold r) new).
    { rewrite <- Htags. unfold tags.
      apply (in_map (fun r => (cv_index r, cv_fold r))), Hin. }
    destruct (Hfold _ Hp) as (k & tri & tei & Hk & Hf & Hi).
    cbn in Hf, Hi. subst k. eauto.
Qed.

Lemma toy_runtime_fits (allrank : bool) : fits_every_model (toy_runtime allrank).
Proof. intros model tl vl epochs. eexists. reflexivity. Qed.

(** The toy runtime predicts batch by batch, in the order of the
    sampler. *)
Lemma toy_runtime_predicts (allrank : bool) :
  predicts_in_batches (toy_runtime allrank).
Proof.
  intros net l idx Hs _ _. exists idx. eexists. exists net.
  split; [apply Permutation_refl|].
  cbn. unfold toy_predict. rewrite Hs.
  split; [reflexivity|]. split.
  - rewrite map_map. cbn. apply map_id.
  - apply Forall_map, Forall_forall. intros batch _. cbn.
    split; [reflexivity|]. unfold shape0. cbn. apply length_map.
Qed.

(** C5 on the toy runtime: five rows in two folds, predicted in batches
    of two rows.  The held-out rows 0, 2 and 4 of the first fold come in
    the batches [0; 2] and [4]: the incomplete batch is kept. *)
Lemma cross_validation_covers_every_row_witness :
  0 < 2 /\
  In "detection" ["ranking"; "detection"] /\
  Permutation [0; 2; 4; 1; 3] (seq 0 5) /\
  exists tr all_results,
    train_torch_model_cross_val_loop (toy_runtime false)
      (mk_ndarray 1 [[Num 1]; [Num 2]; [Num 3]; [Num 4]; [Num 5]])
      (mk_ndarray 1 [[Bool true]; [Bool false]; [Bool true]; [Bool false];
                     [Bool true]])
      "detection" [0; 0; 0; 0; 0] None 20 2 (1 # 100) 2 32
    = (tr, Ok all_results) /\
    Permutation (map cv_index (table_rows all_results)) [0; 1; 2; 3; 4].
Proof.
  assert (Hb : 0 < 2) by lia.
  assert (Hin : In "detection" ["ranking"; "detection"]) by (cbn; tauto).
  assert (Hperm : Permutation [0; 2; 4; 1; 3] (seq 0 5)).
  { cbn. apply perm_skip.
    apply (Permutation_cons_app [1] [3; 4] 2).
    apply (Permutation_cons_app [1; 3] [] 4).
    apply Permutation_refl. }
  split; [exact Hb|]. split; [exact Hin|]. split; [exact Hperm|].
  destruct (cross_validation_covers_every_row (toy_runtime false)
              (mk_ndarray 1 [[Num 1]; [Num 2]; [Num 3]; [Num 4]; [Num 5]])
              (mk_ndarray 1 [[Bool true]; [Bool false]; [Bool true];
                             [Bool false]; [Bool true]])
              "detection" [0; 0; 0; 0; 0] None 20 2 (1 # 100)%Q 2 32
              [([1; 3], [0; 2; 4]); ([0; 2; 4], [1; 3])]
              (toy_runtime_fits false) (toy_runtime_predicts false) Hb Hin)
    as (tr & t & Hrun & Hrows & _).
  - intros H. discriminate H.
  - reflexivity.
  - repeat constructor; discriminate.
  - exact Hperm.
  - exists tr, t. split; [exact Hrun | exact Hrows].
Defined.

(** ** The feature-importance table *)

Lemma shap_geb_total (a b : option Q) :
  shap_geb a b = false -> shap_geb b a = true.
Proof.
  destruct a as [x|], b as [y|]; cbn; try congruence.
  intros H. apply Qle_bool_iff.
  destruct (Qlt_le_dec x y) as [Hlt|Hle].
  - now apply Qlt_le_weak.
  - apply Qle_bool_iff in Hle. congruence.
Qed.

Lemma shap_geb_trans (a b c : option Q) :
  shap_geb a b = true -> shap_geb b c = true -> shap_geb a c = true.
Proof.
  destruct a as [x|], b as [y|], c as [z|]; cbn; try congruence.
  rewrite !Qle_bool_iff. intros H1 H2. now apply Qle_trans with y.
Qed.

Lemma insert_desc_perm (r : importance_row) (l : list importance_row) :
  Permutation (insert_desc r l) (r :: l).
Proof.
  induction l as [|h t IH]; cbn; [reflexivity|].
  destruct (shap_geb (mean_abs_shap r) (mean_abs_shap h)); [reflexivity|].
  rewrite IH. apply perm_swap.
Qed.

Lemma sort_values_desc_perm (l : list importance_row) :
  Permutation (sort_values_desc l) l.
Proof.
  induction l as [|r l IH]; cbn; [reflexivity|].
  rewrite insert_desc_perm. now apply perm_skip.
Qed.

Lemma insert_desc_sorted (r : importance_row) (l : list importance_row) :
  StronglySorted shap_ge l -> StronglySorted shap_ge (insert_desc r l).
Proof.
  induction 1 as [|h t Hs IH Hh]; cbn.
  - repeat constructor.
  - destruct (shap_geb (mean_abs_shap r) (mean_abs_shap h)) eqn:E.
    + constructor; [now constructor|].
      constructor; [exact E|].
      eapply Forall_impl; [|exact Hh].
      intros x Hx. unfold shap_ge in *. eapply shap_geb_trans; eauto.
    + constructor; [exact IH|].
      apply Forall_forall. intros x Hx.
      apply (Permutation_in _ (insert_desc_perm r t)) in Hx.
      destruct Hx as [<-|Hx].
      * now apply shap_geb_total.
      * rewrite Forall_forall in Hh. now apply Hh.
Qed.

Lemma sort_values_desc_sorted (l : list importance_row) :
  StronglySorted shap_ge (sort_values_desc l).
Proof.
  induction l as [|r l IH]; cbn; [constructor|].
  now apply insert_desc_sorted.
Qed.

Lemma mean_abs_axis0_length (n : nat) (a : list (list Q)) :
  List.length (mean_abs_axis0 n a) = n.
Proof. unfold mean_abs_axis0. now rewrite length_map, length_seq. Qed.

Lemma map2_keys (c : col_key) (means : list (option Q))
    (names : list string) :
  List.length means = List.length names ->
  map importance_key
      (map2 (fun m name => mk_importance_row name m (fst c) (snd c))
            means names)
  = map (pair c) names.
Proof.
  unfold map2. rewrite map_map. revert names.
  induction means as [|m means IH]; intros [|n names] Hlen;
    cbn in *; try discriminate; [reflexivity|].
  destruct c as [mx pol]. cbn. f_equal.
  specialize (IH names). cbn in IH. apply IH. lia.
Qed.

Section ImportanceLoop.

Variable shap_values : list (ndarray Q).
Variable mask : ndarray cell.
Variable feat_names : list string.

(** One output dimension whose arrays have the shapes of the data. *)
Lemma dimension_importance_keys (i : nat) (c : col_key) (a : ndarray Q) :
  nth_error shap_values i = Some a ->
  i < shape1 mask ->
  shape0 a = shape0 mask ->
  shape1 a = List.length feat_names ->
  exists loc_df,
    dimension_importance shap_values mask feat_names i c = Ok loc_df /\
    map importance_key loc_df = map (pair c) feat_names.
Proof.
  intros Ha Hi H0 H1. unfold dimension_importance. rewrite Ha.
  destruct (Nat.leb_spec (shape1 mask) i) as [Hle|_]; [lia|].
  unfold boolean_index, kept_rows_of. unfold shape0 in H0.
  rewrite length_map, H0, Nat.eqb_refl. cbn [Py.bind].
  rewrite mean_abs_axis0_length, H1, Nat.eqb_refl.
  eexists. split; [reflexivity|].
  apply map2_keys. now rewrite mean_abs_axis0_length.
Qed.

Lemma importance_loop_keys (cols : list col_key) :
  forall (i : nat) (acc : list importance_row),
    i + List.length cols <= List.length shap_values ->
    i + List.length cols <= shape1 mask ->
    (forall k a, i <= k < i + List.length cols ->
                 nth_error shap_values k = Some a ->
                 shape0 a = shape0 mask /\
                 shape1 a = List.length feat_names) ->
    exists new,
      importance_loop shap_values mask feat_names i cols acc
      = Ok (acc ++ new) /\
      map importance_key new = list_prod cols feat_names.
Proof.
  induction cols as [|c cols IH]; intros i acc Hs Hm Hshape;
    cbn [importance_loop].
  - exists []. now rewrite app_nil_r.
  - cbn [List.length] in Hs, Hm, Hshape.
    destruct (nth_error shap_values i) as [a|] eqn:Ha.
    2:{ apply nth_error_None in Ha. lia. }
    destruct (Hshape i a ltac:(lia) Ha) as [H0 H1].
    destruct (dimension_importance_keys i c a Ha ltac:(lia) H0 H1)
      as (loc_df & Hloc & Hkeys).
    rewrite Hloc. cbn [Py.bind].
    destruct (IH (S i) (acc ++ loc_df)) as (new & Hrun & Hnew).
    + lia.
    + lia.
    + intros k b Hk. apply Hshape. lia.
    + exists (loc_df ++ new). rewrite Hrun, app_assoc.
      split; [reflexivity|].
      rewrite map_app, Hkeys, Hnew. reflexivity.
Qed.

End ImportanceLoop.

Lemma NoDup_map_pair {A B : Type} (x : A) (l : list B) :
  NoDup l -> NoDup (map (pair x) l).
Proof.
  induction 1 as [|y l Hy _ IH]; cbn; constructor; [|exact IH].
  intros Hin. apply in_map_iff in Hin as (z & [= ->] & Hz). contradiction.
Qed.

Lemma NoDup_list_prod {A B : Type} (l : list A) (l' : list B) :
  NoDup l -> NoDup l' -> NoDup (list_prod l l').
Proof.
  intros Hl Hl'. induction Hl as [|x l Hx _ IH]; cbn; [constructor|].
  apply NoDup_app.
  - now apply NoDup_map_pair.
  - exact IH.
  - intros [a b] Hin Hin'. apply in_map_iff in Hin as (y & [= <- <-] & _).
    apply in_prod_iff in Hin' as [Hin' _]. contradiction.
Qed.

(** C7.  Given a mask and attribution arrays with the shapes of the data
    (one array per output dimension, each with the rows of the mask and
    one column per feature name), the feature-importance table is
    returned and
    - has one row per output dimension and feature name,
    - its (matrix, polarity, feature name) triples are those of the
      product of the output dimensions and the feature names,
    - it is sorted by [mean_abs_shap] from large to small, with NaN,
      the mean of a dimension without kept rows, last,
    - when the dimensions and the feature names are free of duplicates,
      every feature name occurs exactly once per (matrix, polarity) pair.
    A row is labelled by its feature name. *)
Theorem feature_importance_table (cols : list col_key)
    (shap_values : list (ndarray Q)) (mask : ndarray cell)
    (feat_names : list string) :
  List.length cols <= List.length shap_values ->
  List.length cols <= shape1 mask ->
  (forall i a, i < List.length cols ->
               nth_error shap_values i = Some a ->
               shape0 a = shape0 mask /\ shape1 a = List.length feat_names) ->
  exists table,
    feature_importance cols shap_values (Some mask) feat_names = Ok table /\
    List.length table = List.length cols * List.length feat_names /\
    Permutation (map importance_key table) (list_prod cols feat_names) /\
    StronglySorted shap_ge table /\
    (NoDup cols -> NoDup feat_names ->
     forall c name, In c cols -> In name feat_names ->
       count_occ importance_key_eq_dec (map importance_key table) (c, name)
       = 1).
Proof.
  intros Hs Hm Hshape. unfold feature_importance.
  destruct (importance_loop_keys shap_values mask feat_names cols 0 [])
    as (new & Hrun & Hkeys); auto.
  { intros k a Hk. apply Hshape. lia. }
  rewrite Hrun. cbn [Py.bind app].
  eexists. split; [reflexivity|].
  assert (Hperm : Permutation (map importance_key (sort_values_desc new))
                    (list_prod cols feat_names)).
  { rewrite <- Hkeys. apply Permutation_map, sort_values_desc_perm. }
  split; [|split; [exact Hperm|split]].
  - rewrite <- (length_map importance_key), (Permutation_length Hperm).
    apply length_prod.
  - apply sort_values_desc_sorted.
  - intros Hc Hn c name Hinc Hinn.
    apply NoDup_count_occ'.
    + apply (Permutation_NoDup (Permutation_sym Hperm)).
      now apply NoDup_list_prod.
    + apply (Permutation_in _ (Permutation_sym Hperm)).
      now apply in_prod.
Qed.

(** C7 on two output dimensions and five features: ten rows. *)
Lemma feature_importance_table_witness :
  List.length importance_columns <= List.length importance_shap /\
  List.length importance_columns <= shape1 importance_mask /\
  exists table,
    feature_importance importance_columns importance_shap
      (Some importance_mask) importance_names = Ok table /\
    List.length table = 10 /\
    map feature_name table
    = ["mass"; "mass"; "logP"; "charge"; "rings"; "charge"; "donors";
       "donors"; "rings"; "logP"].
Proof.
  split; [cbn; lia|]. split; [cbn; lia|].
  destruct (feature_importance_table importance_columns importance_shap
              importance_mask importance_names)
    as (table & Hrun & Hlen & _).
  - cbn. lia.
  - cbn. lia.
  - intros [|[|i]] a Hi Ha; cbn in Ha; try (cbn in Hi; lia);
      injection Ha as <-; split; reflexivity.
  - exists table. split; [exact Hrun|]. split; [exact Hlen|].
    vm_compute in Hrun. injection Hrun as <-. reflexivity.
Defined.

(** ** Feature columns and feature names *)

Lemma get_level_values_some (n : nat) (idx : list (list string)) :
  Forall (fun k => nth_error k n <> None) idx ->
  get_level_values n idx = Ok (map (fun k => nth n k "") idx).
Proof.
  induction 1 as [|k idx Hk _ IH]; cbn; [reflexivity|].
  destruct (nth_error k n) as [s|] eqn:E; [|contradiction].
  rewrite IH. cbn. now rewrite (nth_error_nth _ _ _ E).
Qed.

Lemma loc_rows_single (t : feature_table) (keys : list string) :
  Forall (fun k => exists row, rows_labelled t k = [row]) keys ->
  loc_rows t keys = Ok (map (fun k => hd [] (rows_labelled t k)) keys).
Proof.
  induction 1 as [|k keys [row Hk] _ IH]; cbn; [reflexivity|].
  rewrite Hk, IH. reflexivity.
Qed.

Lemma combine_projections {A B : Type} (l : list A) (l' : list B) :
  List.length l = List.length l' ->
  map (fun p => fst p) (combine l l') = l /\
  map (fun p => snd p) (combine l l') = l'.
Proof.
  revert l'. induction l as [|x l IH]; intros [|y l'] Hlen;
    cbn in *; try discriminate; [auto|].
  destruct (IH l' ltac:(lia)) as [E1 E2]. rewrite E1, E2. auto.
Qed.

Lemma dimension_importance_labels (shap_values : list (ndarray Q))
    (mask : ndarray cell) (names : list string) (i : nat) (c : col_key)
    (loc_df : list importance_row) :
  dimension_importance shap_values mask names i c = Ok loc_df ->
  map feature_name loc_df = names /\
  exists a kept,
    nth_error shap_values i = Some a /\
    boolean_index (rows a) (kept_rows_of mask i) = Ok kept /\
    map mean_abs_shap loc_df = mean_abs_axis0 (shape1 a) kept.
Proof.
  unfold dimension_importance.
  destruct (nth_error shap_values i) as [a|]; [|discriminate].
  destruct (shape1 mask <=? i)%nat; [discriminate|].
  destruct (boolean_index (rows a) (kept_rows_of mask i)) as [kept|] eqn:Hb;
    [|discriminate].
  cbn [Py.bind].
  destruct (Nat.eqb_spec (List.length (mean_abs_axis0 (shape1 a) kept))
              (List.length names)) as [Hlen|]; [|discriminate].
  intros [= <-]. unfold map2. rewrite !map_map. cbn.
  destruct (combine_projections _ _ Hlen) as [H1 H2].
  split; [exact H2|].
  exists a, kept. rewrite H1. auto.
Qed.

Lemma nth_error_map2 {A B C : Type} (f : A -> B -> C) :
  forall (l1 : list A) (l2 : list B) (j : nat) (a : A) (b : B),
    nth_error l1 j = Some a -> nth_error l2 j = Some b ->
    nth_error (map2 f l1 l2) j = Some (f a b).
Proof.
  unfold map2.
  induction l1 as [|x l1 IH]; intros [|y l2] [|j] a b H1 H2; cbn in *;
    try discriminate.
  - now injection H1 as ->; injection H2 as ->.
  - now apply IH.
Qed.

(** The [j]-th mean of [np.mean(np.abs(a), axis=0)] is the mean of the
    absolute values of column [j]. *)
Lemma mean_abs_axis0_nth (n : nat) (a : list (list Q)) (j : nat) :
  j < n ->
  nth_error (mean_abs_axis0 n a) j
  = Some (match a with
          | [] => None
          | _ => Some (Qsum (map (fun row => Qabs (nth j row 0%Q)) a)
                       / inject_Z (Z.of_nat (List.length a)))%Q
          end).
Proof.
  intros Hj. unfold mean_abs_axis0.
  rewrite nth_error_map.
  rewrite (nth_error_nth' (seq 0 n) 0) by (rewrite length_seq; exact Hj).
  rewrite seq_nth by exact Hj. reflexivity.
Qed.

(** The table of one output dimension, row by row. *)
Lemma dimension_importance_rows (shap_values : list (ndarray Q))
    (mask : ndarray cell) (names : list string) (i : nat) (c : col_key)
    (loc_df : list importance_row) :
  dimension_importance shap_values mask names i c = Ok loc_df ->
  exists a kept,
    nth_error shap_values i = Some a /\
    boolean_index (rows a) (kept_rows_of mask i) = Ok kept /\
    shape1 a = List.length names /\
    List.length loc_df = List.length names /\
    forall j name,
      nth_error names j = Some name ->
      nth_error loc_df j
      = Some (mk_importance_row name
                (match kept with
                 | [] => None
                 | _ => Some (Qsum (map (fun row => Qabs (nth j row 0%Q)) kept)
                              / inject_Z (Z.of_nat (List.length kept)))%Q
                 end)
                (fst c) (snd c)).
Proof.
  unfold dimension_importance.
  destruct (nth_error shap_values i) as [a|]; [|discriminate].
  destruct (shape1 mask <=? i)%nat; [discriminate|].
  destruct (boolean_index (rows a) (kept_rows_of mask i)) as [kept|] eqn:Hb;
    [|discriminate].
  cbn [Py.bind].
  destruct (Nat.eqb_spec (List.length (mean_abs_axis0 (shape1 a) kept))
              (List.length names)) as [Hlen|]; [|discriminate].
  intros [= <-].
  assert (Hw : shape1 a = List.length names).
  { rewrite <- Hlen. symmetry. apply mean_abs_axis0_length. }
  exists a, kept. split; [reflexivity|]. split; [exact Hb|].
  split; [exact Hw|]. split.
  - unfold map2. rewrite length_map, length_combine, Hlen. apply Nat.min_id.
  - intros j name Hj.
    assert (Hlt : j < shape1 a).
    { rewrite Hw. apply nth_error_Some. congruence. }
    exact (nth_error_map2
             (fun m name => mk_importance_row name m (fst c) (snd c))
             _ _ j _ _ (mean_abs_axis0_nth _ kept j Hlt) Hj).
Qed.

(** C9.  With adduct features, for entities whose molecule and adduct
    each have one row in their table, the feature matrix is built and a
    row of it is the molecule's feature row followed by the adduct's
    one-hot row: molecule columns first.  The list of feature names is
    the adduct column names followed by the molecule feature names:
    adduct names first.  The table of an output dimension has one row per
    name of this list, and its [j]-th row puts the [j]-th name of the list
    beside the mean, over the rows that are not ignored, of the absolute
    attributions of column [j], the attributions of column [j] of [X]:
    where the two orders differ, a molecule column of [X] is labelled
    with the name of an adduct column. *)
Theorem feature_names_against_columns
    (features_df adducts_one_hot : feature_table)
    (adducts_columns : list string) (Y_index : list row_key) :
  Forall (has_feature_rows features_df adducts_one_hot) Y_index ->
  exists X names,
    feature_array true features_df adducts_one_hot Y_index = Ok X /\
    feature_names true features_df (Some adducts_columns) = Ok names /\
    shape1 X = List.length (ft_columns features_df)
               + List.length (ft_columns adducts_one_hot) /\
    (forall i name adduct,
       nth_error Y_index i = Some [name; adduct] ->
       exists frow arow,
         rows_labelled features_df name = [frow] /\
         rows_labelled adducts_one_hot adduct = [arow] /\
         nth_error (rows X) i = Some (frow ++ arow)) /\
    names = adducts_columns ++ ft_columns features_df /\
    (forall shap_values mask i c loc_df,
       dimension_importance shap_values mask names i c = Ok loc_df ->
       map feature_name loc_df = adducts_columns ++ ft_columns features_df /\
       exists a kept,
         nth_error shap_values i = Some a /\
         boolean_index (rows a) (kept_rows_of mask i) = Ok kept /\
         shape1 a = List.length names /\
         List.length loc_df = List.length names /\
         forall j name,
           nth_error (adducts_columns ++ ft_columns features_df) j
           = Some name ->
           nth_error loc_df j
           = Some (mk_importance_row name
                     (match kept with
                      | [] => None
                      | _ =>
                          Some (Qsum (map (fun row => Qabs (nth j row 0%Q))
                                        kept)
                                / inject_Z (Z.of_nat (List.length kept)))%Q
                      end)
                     (fst c) (snd c))).
Proof.
  intros Hrows. unfold feature_array, feature_names.
  assert (H0 : get_level_values 0 Y_index
               = Ok (map (fun k => nth 0 k "") Y_index)).
  { apply get_level_values_some. eapply Forall_impl; [|exact Hrows].
    intros k (name & adduct & frow & arow & -> & _). discriminate. }
  assert (H1 : get_level_values 1 Y_index
               = Ok (map (fun k => nth 1 k "") Y_index)).
  { apply get_level_values_some. eapply Forall_impl; [|exact Hrows].
    intros k (name & adduct & frow & arow & -> & _). discriminate. }
  rewrite H0. cbn [Py.bind].
  rewrite loc_rows_single.
  2:{ apply Forall_map. eapply Forall_impl; [|exact Hrows].
      intros k (name & adduct & frow & arow & -> & Hf & _). cbn. eauto. }
  cbn [Py.bind]. unfold with_index.
  rewrite !length_map, Nat.eqb_refl. cbn [Py.bind].
  rewrite H1. cbn [Py.bind].
  rewrite loc_rows_single.
  2:{ apply Forall_map. eapply Forall_impl; [|exact Hrows].
      intros k (name & adduct & frow & arow & -> & _ & Ha). cbn. eauto. }
  cbn [Py.bind]. rewrite !length_map, Nat.eqb_refl. cbn [Py.bind].
  eexists. eexists. split; [reflexivity|]. split; [reflexivity|].
  split; [reflexivity|]. split; [|split; [reflexivity|]].
  - intros i name adduct Hi. cbn [rows].
    rewrite !map_map, map2_map.
    rewrite Forall_forall in Hrows.
    destruct (Hrows _ (nth_error_In _ _ Hi))
      as (name' & adduct' & frow & arow & [= <- <-] & Hf & Ha).
    exists frow, arow. split; [exact Hf|]. split; [exact Ha|].
    rewrite (map_nth_error _ _ _ Hi). cbn. now rewrite Hf, Ha.
  - intros shap_values mask i c loc_df Hloc.
    split.
    + exact (proj1 (dimension_importance_labels _ _ _ _ _ _ Hloc)).
    + exact (dimension_importance_rows shap_values mask _ i c loc_df Hloc).
Qed.

(** C9 on the small tables.  The row of glucose with the adduct +H holds
    mass and logP before the two adduct indicators, while the names start
    with the adduct indicators; so the attribution 7 of the first column
    of [X], the mass, is reported under the name "is_H", and the
    attribution 5 of the third column, the indicator of +H, under the
    name "mass". *)
Lemma feature_names_against_columns_witness :
  Forall (has_feature_rows small_features small_adducts)
    [["glucose"; "+H"]] /\
  exists X names loc_df,
    feature_array true small_features small_adducts [["glucose"; "+H"]]
    = Ok X /\
    feature_names true small_features (Some ["is_H"; "is_Na"]) = Ok names /\
    rows X = [[Num 180; Num (-3); Num 1; Num 0]] /\
    names = ["is_H"; "is_Na"; "mass"; "logP"] /\
    dimension_importance [mk_ndarray 4 [[7 # 1; 2 # 1; 5 # 1; 0 # 1]]]%Q
      (mk_ndarray 1 [[Bool false]]) names 0 ("DHB", "positive")
    = Ok loc_df /\
    nth_error loc_df 0
    = Some (mk_importance_row "is_H" (Some (7 # 1)%Q) "DHB" "positive") /\
    nth_error loc_df 2
    = Some (mk_importance_row "mass" (Some (5 # 1)%Q) "DHB" "positive").
Proof.
  assert (H : Forall (has_feature_rows small_features small_adducts)
                [["glucose"; "+H"]]).
  { constructor; [|constructor].
    exists "glucose", "+H", [Num 180; Num (-3)], [Num 1; Num 0].
    repeat split. }
  split; [exact H|].
  destruct (feature_names_against_columns small_features small_adducts
              ["is_H"; "is_Na"] [["glucose"; "+H"]] H)
    as (X & names & HX & Hn & _ & _ & Hnames & Himp).
  destruct (dimension_importance
              [mk_ndarray 4 [[7 # 1; 2 # 1; 5 # 1; 0 # 1]]]%Q
              (mk_ndarray 1 [[Bool false]]) names 0
              ("DHB"%string, "positive"%string)) as [loc_df|] eqn:Hd.
  2:{ rewrite Hnames in Hd. vm_compute in Hd. discriminate Hd. }
  destruct (Himp _ _ _ _ _ Hd)
    as (_ & a & kept & Ha & Hkept & _ & _ & Hrow).
  cbn in Ha. injection Ha as <-.
  vm_compute in Hkept. injection Hkept as <-.
  exists X, names, loc_df. split; [exact HX|]. split; [exact Hn|].
  split; [vm_compute in HX; injection HX as <-; reflexivity|].
  split; [exact Hnames|]. split; [exact Hd|]. split.
  - exact (Hrow 0 "is_H"%string eq_refl).
  - exact (Hrow 2 "mass"%string eq_refl).
Defined.

(** ** Held-out predictions have the width of the target *)

Lemma bind_ok_inv {A B : Type} (m : IO.M A) (k : A -> IO.M B) (b : B) :
  IO.outcome (IO.bind m k) = Ok b ->
  exists a, IO.outcome m = Ok a /\ IO.outcome (k a) = Ok b.
Proof.
  destruct m as [t [a|e]]; cbn; [|discriminate].
  destruct (k a) as [t' r] eqn:E. cbn. intros ->.
  exists a. rewrite E. auto.
Qed.

Lemma concatenate_rows_full {A : Type} (w : nat) (arrs : list (ndarray A))
    (a : ndarray A) :
  Forall (fun b => shape1 b = w /\
                   Forall (fun row => List.length row = w) (rows b)) arrs ->
  concatenate_rows arrs = Ok a ->
  shape1 a = w /\ Forall (fun row => List.length row = w) (rows a).
Proof.
  intros Hall. unfold concatenate_rows.
  destruct arrs as [|a0 rest]; [discriminate|].
  destruct (forallb _ rest); [|discriminate].
  intros [= <-]. cbn [shape1 rows]. split.
  - now inversion Hall as [|? ? [H _] _].
  - change (rows a0 ++ List.concat (map rows rest))
      with (List.concat (map rows (a0 :: rest))).
    apply Forall_concat, Forall_map.
    eapply Forall_impl; [|exact Hall]. intros b [_ H]. exact H.
Qed.

Lemma pad_row_full (w : nat) (r : cv_row) : full_row w r -> pad_row w r = r.
Proof.
  intros [Hlen _]. unfold pad_row. rewrite Hlen, Nat.sub_diag. cbn.
  rewrite app_nil_r. now destruct r.
Qed.

Lemma pd_concat_full (w : nat) (acc : cv_table) (lc : nat * list cv_row) :
  full_table w acc -> full_table w (Some lc) ->
  full_table w (pd_concat acc lc).
Proof.
  destruct lc as [w' rs]. destruct acc as [[w0 rs0]|]; cbn; [|auto].
  intros [-> H0] [-> H1]. rewrite Nat.max_id. split; [reflexivity|].
  assert (H : Forall (full_row w) (rs0 ++ rs)) by now apply Forall_app.
  replace (map (pad_row w) (rs0 ++ rs)) with (rs0 ++ rs); [exact H|].
  rewrite <- (map_id (rs0 ++ rs)) at 1. apply map_ext_Forall.
  eapply Forall_impl; [|exact H]. intros r Hr. now rewrite pad_row_full.
Qed.

Lemma fold_results_full (w : nat) (pa : ndarray Z) (pi : list nat)
    (fold : nat) (lc : nat * list cv_row) :
  shape1 pa = w -> Forall (fun row => List.length row = w) (rows pa) ->
  fold_results pa pi fold = Ok lc -> full_table w (Some lc).
Proof.
  intros Hw Hrows. unfold fold_results.
  destruct (shape0 pa =? List.length pi)%nat; [|discriminate].
  intros [= <-]. cbn. split; [exact Hw|].
  unfold map2. apply Forall_map, Forall_forall. intros [i row] Hin.
  apply in_combine_r in Hin. rewrite Forall_forall in Hrows.
  split; cbn.
  - rewrite length_map. now apply Hrows.
  - apply Forall_map, Forall_forall. reflexivity.
Qed.

Section FullRows.

Variable env : runtime.
Hypothesis full_ok : predicts_full_rows env.

Lemma train_torch_model_full (model : SimpleTwoLayersNN)
    (train_loader : DataLoader) (val_loader : option DataLoader)
    (test_loader : DataLoader) (epochs : nat)
    (out : train_output (network env)) :
  IO.outcome (train_torch_model env model train_loader val_loader
                (Some test_loader) epochs) = Ok out ->
  exists net pa pi,
    out = WithPredictions net pa pi /\
    shape1 pa = nb_out_feat model /\
    Forall (fun row => List.length row = nb_out_feat model) (rows pa).
Proof.
  unfold train_torch_model. intros H.
  apply bind_ok_inv in H as (net & Hfit & H).
  apply bind_ok_inv in H as (batches & Hp & H).
  apply bind_ok_inv in H as (pa & Hc & H).
  apply bind_ok_inv in H as (pi & _ & H).
  cbn in Hfit, Hp, Hc, H. injection H as <-.
  exists net, pa, pi. split; [reflexivity|].
  apply (concatenate_rows_full (nb_out_feat model) (map fst batches)).
  - apply Forall_map. exact (full_ok _ _ _ _ _ _ _ Hfit Hp).
  - exact Hc.
Qed.

Variables X Y : ndarray cell.
Variable task_name : string.
Variables train_val_dataset test_data : dataset.
Variable loss_fn : loss_function.
Variable activation_fn : option activation.
Variables epochs batch : nat.
Variable lr : Q.
Variable hidden : nat.

Let body :=
  cross_val_fold env X Y task_name train_val_dataset test_data loss_fn
    activation_fn epochs batch lr hidden.

Lemma cross_val_fold_full (fold : nat) (split : list nat * list nat)
    (acc t : cv_table) :
  full_table (shape1 Y) acc ->
  IO.outcome (body fold split acc) = Ok t ->
  full_table (shape1 Y) t.
Proof.
  intros Hacc. unfold body, cross_val_fold.
  destruct split as [train_index test_index]. intros H.
  apply bind_ok_inv in H as (_ & _ & H).
  apply bind_ok_inv in H as (out & Hout & H).
  apply train_torch_model_full in Hout
    as (net & pa & pi & -> & Hw & Hrows).
  cbn [nb_out_feat] in Hw, Hrows.
  apply bind_ok_inv in H as (lc & Hlc & H).
  cbn in Hlc, H. injection H as <-.
  apply pd_concat_full; [exact Hacc|].
  now apply (fold_results_full (shape1 Y) pa pi fold).
Qed.

Lemma enumerate_loop_full (splits : list (list nat * list nat)) :
  forall (fold0 : nat) (acc t : cv_table),
    full_table (shape1 Y) acc ->
    IO.outcome (enumerate_loop body fold0 splits acc) = Ok t ->
    full_table (shape1 Y) t.
Proof.
  induction splits as [|s splits IH]; intros fold0 acc t Hacc;
    cbn [enumerate_loop].
  - cbn. now intros [= <-].
  - intros H. apply bind_ok_inv in H as (t1 & H1 & H).
    apply (IH (S fold0) t1); [|exact H].
    now apply (cross_val_fold_full fold0 s acc).
Qed.

End FullRows.

(** The table the cross-validation driver returns has one prediction per
    column of the target in every row. *)
Lemma cross_val_loop_full (env : runtime) (X Y : ndarray cell)
    (task_name : string) (classes : list nat) (mask : option (ndarray cell))
    (epochs batch : nat) (lr : Q) (folds hidden : nat) (t : cv_table) :
  predicts_full_rows env ->
  IO.outcome (train_torch_model_cross_val_loop env X Y task_name classes
                mask epochs batch lr folds hidden) = Ok t ->
  full_table (shape1 Y) t.
Proof.
  intros Hfull. unfold train_torch_model_cross_val_loop. cbv zeta.
  intros H. apply bind_ok_inv in H as (train_val_dataset & _ & H).
  apply bind_ok_inv in H as ([act lf] & _ & H).
  apply bind_ok_inv in H as (splits & _ & H).
  eapply enumerate_loop_full; [exact Hfull| |exact H]. exact I.
Qed.

(** ** The long table and the fold lookup *)

Lemma bind_outcome_raise_after {A B : Type} (m : IO.M A) (k : A -> IO.M B) :
  (forall a, IO.outcome m = Ok a -> exists e, IO.outcome (k a) = Raise e) ->
  exists e, IO.outcome (IO.bind m k) = Raise e.
Proof.
  intros H. destruct m as [t [a|e]]; cbn.
  - destruct (H a eq_refl) as [e He]. destruct (k a) as [t' r].
    cbn in He. eauto.
  - eauto.
Qed.

Lemma insert_by_index_perm (r : cv_row) (l : list cv_row) :
  Permutation (insert_by_index r l) (r :: l).
Proof.
  induction l as [|h t IH]; cbn [insert_by_index]; [reflexivity|].
  destruct (cv_index r <? cv_index h)%nat; [reflexivity|].
  rewrite IH. apply perm_swap.
Qed.

Lemma sort_index_perm (l : list cv_row) : Permutation (sort_index l) l.
Proof.
  induction l as [|r l IH]; cbn; [reflexivity|].
  rewrite insert_by_index_perm. now apply perm_skip.
Qed.

(** The first entry of a stacked frame whose first cell is not NaN. *)
Lemma stack_first (r0 : row_key) (idx : list row_key) (c0 : col_key)
    (cols : list col_key) (v0 : cell) (row : list cell)
    (vals : list (list cell)) :
  cell_isna v0 = false ->
  exists rest,
    stack (r0 :: idx) (c0 :: cols) ((v0 :: row) :: vals)
    = (r0 ++ [fst c0; snd c0], v0) :: rest.
Proof.
  intros H. unfold stack. cbn. rewrite H. cbn. eauto.
Qed.

Lemma stack_keys (idx : list row_key) (cols : list col_key)
    (vals : list (list cell)) (e : list string * cell) :
  In e (stack idx cols vals) ->
  exists r c, fst e = r ++ [fst c; snd c].
Proof.
  unfold stack. intros H.
  apply in_flat_map in H as ([r row] & _ & H).
  apply in_flat_map in H as ([c v] & _ & H). cbn in H.
  destruct (cell_isna v); [contradiction|].
  destruct H as [<-|[]]. cbn. eauto.
Qed.

Lemma join_inner_keys (a b : list (list string * cell))
    (x : list string * cell * cell) :
  In x (join_inner a b) -> exists e, In e a /\ fst (fst x) = fst e.
Proof.
  unfold join_inner. intros H.
  apply in_flat_map in H as (e & He & H).
  destruct (find _ b) as [e'|]; [|contradiction].
  destruct H as [<-|[]]. cbn. eauto.
Qed.

Lemma join_inner_first (k : list string) (v v' : cell)
    (a b : list (list string * cell)) :
  join_inner ((k, v) :: a) ((k, v') :: b) <> [].
Proof.
  unfold join_inner. cbn [flat_map find fst snd].
  destruct (list_eq_dec string_dec k k) as [_|H]; [|contradiction].
  cbn [app]. discriminate.
Qed.

(** In a flat index no row is labelled by a tuple. *)
Lemma loc_fold_tuple (idx : list row_key) (folds : list nat)
    (t : list string) (keys : list label) :
  single_level idx ->
  loc_fold (map label_of idx) folds (Tuple t :: keys) = Raise KeyError.
Proof.
  intros Hs. cbn [loc_fold].
  replace (filter _ (combine (map label_of idx) folds)) with
    (@nil (label * nat)); [reflexivity|].
  symmetry. revert folds.
  induction Hs as [|k idx [s ->] _ IH]; intros [|f folds]; cbn;
    try reflexivity.
  destruct (label_eq_dec (Scalar s) (Tuple t)) as [H|_]; [discriminate|].
  apply IH.
Qed.

(** The fold lookup of a non-empty long table over a flat index. *)
Lemma attach_fold_single_level (Y : frame) (training_results : list cv_row)
    (reshaped_out : list (list string * cell * cell)) :
  single_level (index Y) ->
  reshaped_out <> [] ->
  Forall (fun e => exists r c, fst (fst e) = r ++ [fst c; snd c])
         reshaped_out ->
  attach_fold Y training_results reshaped_out = Raise KeyError.
Proof.
  intros Hs Hne Hkeys. unfold attach_fold.
  assert (Hlev : forall n, n < 2 ->
    Forall (fun k : list string => nth_error k n <> None)
           (map (fun e : list string * cell * cell => fst (fst e))
                reshaped_out)).
  { intros n Hn. apply Forall_map. eapply Forall_impl; [|exact Hkeys].
    intros e (r & c & ->). apply nth_error_Some.
    rewrite length_app. cbn. lia. }
  rewrite !get_level_values_some by (apply Hlev; lia).
  cbn [Py.bind].
  destruct reshaped_out as [|e rest]; [contradiction|].
  cbn [map map2 combine fst snd].
  now rewrite loc_fold_tuple.
Qed.

Lemma reshape_join_keys (Y : frame) (out : cv_table)
    (training_results : list cv_row)
    (reshaped_out : list (list string * cell * cell)) :
  reshape_join Y out = Ok (training_results, reshaped_out) ->
  Forall (fun e => exists r c, fst (fst e) = r ++ [fst c; snd c])
         reshaped_out.
Proof.
  unfold reshape_join. destruct out as [[w rs]|].
  2:{ destruct (index Y); discriminate. }
  destruct (with_index _ (index Y)); [|discriminate]. cbn [Py.bind].
  destruct (w =? List.length (columns Y))%nat; [|discriminate].
  intros [= _ <-]. apply Forall_forall. intros x Hx.
  apply join_inner_keys in Hx as (e & He & ->).
  now apply stack_keys in He.
Qed.

(** A target without NaN and a full table of predictions share their
    first cell, so the joined table has a row. *)
Lemma reshape_join_nonempty (idx : list row_key) (cols : list col_key)
    (f : row_key -> col_key -> cell) (out : cv_table)
    (training_results : list cv_row)
    (reshaped_out : list (list string * cell * cell)) :
  idx <> [] -> cols <> [] ->
  (forall r c, cell_isna (f r c) = false) ->
  full_table (List.length cols) out ->
  reshape_join (tabulate idx cols f) out
  = Ok (training_results, reshaped_out) ->
  reshaped_out <> [].
Proof.
  intros Hidx Hcols Hf Hfull. unfold reshape_join.
  destruct out as [[w rs]|].
  2:{ cbn. destruct idx; discriminate. }
  cbn [index columns values tabulate]. unfold with_index.
  destruct (Nat.eqb_spec (List.length (map cv_pred (sort_index rs)))
              (List.length idx)) as [Hlen|]; [|discriminate].
  cbn [Py.bind].
  destruct (w =? List.length cols)%nat; [|discriminate].
  intros [= _ <-].
  destruct Hfull as [_ Hrows].
  assert (Hsorted : Forall (full_row (List.length cols)) (sort_index rs)).
  { apply Forall_forall. intros r Hr.
    rewrite Forall_forall in Hrows. apply Hrows.
    now apply (Permutation_in _ (sort_index_perm rs)). }
  destruct idx as [|r0 idx]; [contradiction|].
  destruct cols as [|c0 cols]; [contradiction|].
  destruct (sort_index rs) as [|p0 ps]; [discriminate Hlen|].
  inversion Hsorted as [|? ? [Hw Hnan] _]; subst.
  destruct (cv_pred p0) as [|x xs] eqn:Ep; [discriminate Hw|].
  inversion Hnan as [|? ? Hx _]; subst.
  cbn [map]. rewrite Ep.
  match goal with
  | |- join_inner (stack _ _ ((_ :: ?row) :: ?vals)) _ <> [] =>
      destruct (stack_first r0 idx c0 cols (f r0 c0) row vals (Hf r0 c0))
        as [rest1 ->]
  end.
  destruct (stack_first r0 idx c0 cols x xs (map cv_pred ps) Hx)
    as [rest2 ->].
  apply join_inner_first.
Qed.

(** ** The orchestrator without adduct features *)

Lemma reshape_ok_no_dup (ua : bool) (task_name : string)
    (df : list observation) (fr : training_frames) :
  reshape_to_training_format ua task_name df = Ok fr ->
  duplicate_entries ua df = false.
Proof.
  unfold reshape_to_training_format, pivot.
  destruct (duplicate_entries ua df); [discriminate|reflexivity].
Qed.

(** The target of a task of the cross-validation driver: the axes of
    [Y], which stem from the table, and no NaN. *)
Lemma cv_target_shape (ua : bool) (task_name : string)
    (df : list observation) (fr : training_frames) (Y : frame)
    (mask : option (ndarray cell)) :
  reshape_to_training_format ua task_name df = Ok fr ->
  select_target task_name fr = Ok (Y, mask) ->
  In task_name ["ranking"; "detection"] ->
  (forall r, In r (index (tf_Y fr)) ->
             exists o, In o df /\ index_key ua o = r) /\
  exists f,
    Y = tabulate (index (tf_Y fr))
          (sort_unique col_key_compare (map column_key df)) f /\
    forall r c, cell_isna (f r c) = false.
Proof.
  intros Hfr Hsel Htask.
  pose proof (reshape_closed_form ua task_name df
                (reshape_ok_no_dup ua task_name df fr Hfr)) as Hc.
  cbv zeta in Hc. rewrite Hfr in Hc. injection Hc as ->.
  cbn [tf_Y index tabulate]. split.
  - intros r Hr. apply In_all_rows.
    destruct (task_is task_name "ranking"); [|exact Hr].
    now apply filter_In in Hr as [Hr _].
  - unfold select_target in Hsel. cbn [tf_Y tf_Y_detected tf_Y_is_na] in Hsel.
    destruct Htask as [<-|[<-|[]]].
    + change (task_is "ranking" "ranking") with true in Hsel.
      cbv iota in Hsel. rewrite setitem_mask_tabulate in Hsel.
      injection Hsel as <- _. eexists. split; [reflexivity|].
      intros r c. cbn beta. destruct (observed ua df r c) as [o|]; cbn.
      * now destruct (detected o).
      * reflexivity.
    + change (task_is "detection" "ranking") with false in Hsel.
      change (task_is "detection" "detection") with true in Hsel.
      cbv iota in Hsel. injection Hsel as <- _.
      eexists. split; [reflexivity|]. reflexivity.
Qed.

(** C10.  Without adduct features the row index of [Y] has one level.
    The fold lookup then asks for (level 0, level 1) tuples in a flat
    index, which holds none: whenever the joined table of observed values
    and predictions has a row, reshaping raises KeyError.  So, with a
    k-means that rejects an empty sample and networks that predict one
    value per output column, every invocation of the orchestrator with
    [use_adduct_features=False] on the cross-validation path raises and no
    table is returned. *)
Theorem flat_index_breaks_fold_lookup (env : runtime) :
  (forall Y out training_results reshaped_out,
     single_level (index Y) ->
     reshape_join Y out = Ok (training_results, reshaped_out) ->
     reshaped_out <> [] ->
     reshape_results Y out = Raise KeyError) /\
  (kmeans_needs_rows env ->
   predicts_full_rows env ->
   forall df features adducts task_name csv folds checkpoint names,
   exists e,
     IO.outcome
       (train_pytorch_model_on_intensities env df features adducts task_name
          false csv folds checkpoint false names)
     = Raise e).
Proof.
  assert (P1 : forall Y out training_results reshaped_out,
     single_level (index Y) ->
     reshape_join Y out = Ok (training_results, reshaped_out) ->
     reshaped_out <> [] ->
     reshape_results Y out = Raise KeyError).
  { intros Y out tr ro Hs Hj Hne. unfold reshape_results.
    rewrite Hj. cbn [Py.bind].
    apply attach_fold_single_level; auto.
    now apply (reshape_join_keys Y out tr). }
  split; [exact P1|].
  intros Hk Hfull df features adducts task_name csv folds checkpoint names.
  unfold train_pytorch_model_on_intensities. cbn [negb].
  apply bind_outcome_raise. intros _.
  apply bind_outcome_raise_after. intros fr Hfr. cbn in Hfr.
  apply bind_outcome_raise. intros X.
  apply bind_outcome_raise_after. intros labels Hlabels. cbn in Hlabels.
  apply bind_outcome_raise_after. intros [Y mask] Hsel. cbn in Hsel.
  cbv beta iota zeta.
  apply bind_outcome_raise_after. intros out Hout.
  assert (Htask : In task_name ["ranking"; "detection"]).
  { unfold train_torch_model_cross_val_loop in Hout. cbv zeta in Hout.
    apply bind_ok_inv in Hout as (train_val_dataset & _ & Hout).
    destruct (task_is task_name "ranking") eqn:Hr.
    - apply task_is_true in Hr. cbn. auto.
    - destruct (task_is task_name "detection") eqn:Hd.
      + apply task_is_true in Hd. cbn. auto.
      + rewrite bind_raise_now in Hout. discriminate Hout. }
  destruct (cv_target_shape false task_name df fr Y mask Hfr Hsel Htask)
    as (Hrows & f & -> & Hf).
  apply cross_val_loop_full in Hout; [|exact Hfull].
  cbn [to_numpy shape1 columns tabulate] in Hout.
  pose proof (Hk _ _ Hlabels) as Hidx.
  assert (Hcols : sort_unique col_key_compare (map column_key df) <> []).
  { destruct (index (tf_Y fr)) as [|r0 idx] eqn:E; [contradiction|].
    destruct (Hrows r0 (or_introl eq_refl)) as (o & Ho & _).
    intros Hnil.
    assert (Hin : In (column_key o)
                     (sort_unique col_key_compare (map column_key df))).
    { apply In_all_columns. eauto. }
    rewrite Hnil in Hin. contradiction. }
  assert (Hsingle : single_level (index (tf_Y fr))).
  { apply Forall_forall. intros r Hr.
    destruct (Hrows r Hr) as (o & _ & <-). cbn. eauto. }
  destruct (reshape_join
              (tabulate (index (tf_Y fr))
                 (sort_unique col_key_compare (map column_key df)) f) out)
    as [[tr ro]|e] eqn:Hj.
  - assert (Hne : ro <> []).
    { eapply reshape_join_nonempty; eauto. }
    rewrite (P1 (tabulate (index (tf_Y fr))
                   (sort_unique col_key_compare (map column_key df)) f)
                out tr ro Hsingle Hj Hne), bind_lift_raise.
    cbn. eauto.
  - unfold reshape_results. rewrite Hj. cbn. eauto.
Qed.

Lemma toy_runtime_kmeans (allrank : bool) :
  kmeans_needs_rows (toy_runtime allrank).
Proof.
  intros Y labels. cbn. unfold toy_kmeans.
  destruct (index Y); [discriminate|]. intros _. discriminate.
Qed.

Lemma toy_runtime_full_rows (allrank : bool) :
  predicts_full_rows (toy_runtime allrank).
Proof.
  intros model tl vl epochs net l batches. cbn. unfold toy_predict.
  intros [= <-] [= <-]. apply Forall_map, Forall_forall. intros batch _.
  cbn. split; [reflexivity|].
  apply Forall_map, Forall_forall. intros i _. apply repeat_length.
Qed.

(** C10 on the small table: keyed by molecule alone, the run trains its
    two folds and then fails in the fold lookup. *)
Lemma flat_index_breaks_fold_lookup_witness :
  kmeans_needs_rows (toy_runtime false) /\
  predicts_full_rows (toy_runtime false) /\
  IO.outcome
    (train_pytorch_model_on_intensities (toy_runtime false) small_table
       small_features small_adducts "detection" false None 2 None false None)
  = Raise KeyError.
Proof.
  split; [apply toy_runtime_kmeans|]. split; [apply toy_runtime_full_rows|].
  destruct (proj2 (flat_index_breaks_fold_lookup (toy_runtime false))
              (toy_runtime_kmeans false) (toy_runtime_full_rows false)
              small_table small_features small_adducts "detection" None 2
              None None) as [e He].
  assert (He' := He). vm_compute in He'. injection He' as <-. exact He.
Defined.

(** The same run keyed by molecule and adduct returns its long table:
    three entities by two (matrix, polarity) columns. *)
Lemma two_level_index_reshapes :
  exists table,
    IO.outcome
      (train_pytorch_model_on_intensities (toy_runtime false) small_table
         small_features small_adducts "detection" false None 2 None true
         (Some ["is_H"; "is_Na"]))
    = Ok (LongTable table) /\
    List.length table = 6 /\
    Forall (fun r => model_type r = "NN") table.
Proof.
  eexists. split; [vm_compute; reflexivity|].
  split; [reflexivity|]. repeat constructor.
Qed.

(* ================================================================= *)
(** * Further properties of the drivers *)

(** ** Tasks that a path cannot serve *)

Lemma outcome_raise_pair {A : Type} (m : IO.M A) (t : list event) (e : exn) :
  m = (t, Raise e) -> exists e', IO.outcome m = Raise e'.
Proof. intros ->. cbn. eauto. Qed.

Lemma cross_val_loop_regression (env : runtime) (X Y : ndarray cell)
    (classes : list nat) (mask : option (ndarray cell))
    (epochs batch : nat) (lr : Q) (folds hidden : nat) :
  torch_imported env = true ->
  train_torch_model_cross_val_loop env X Y "regression" classes mask epochs
    batch lr folds hidden
  = ([], Raise ValueError).
Proof.
  intros Ht. unfold train_torch_model_cross_val_loop.
  now rewrite (torch_name_imported env _ Ht), bind_lift_ok.
Qed.

Lemma cross_val_loop_regression_raises (env : runtime) (X Y : ndarray cell)
    (classes : list nat) (mask : option (ndarray cell))
    (epochs batch : nat) (lr : Q) (folds hidden : nat) :
  exists e,
    IO.outcome
      (train_torch_model_cross_val_loop env X Y "regression" classes mask
         epochs batch lr folds hidden)
    = Raise e.
Proof.
  destruct (torch_imported env) eqn:Ht.
  - rewrite (cross_val_loop_regression env X Y classes mask epochs batch lr
               folds hidden Ht).
    cbn. eauto.
  - unfold train_torch_model_cross_val_loop.
    rewrite (torch_name_missing env _ Ht). cbn. eauto.
Qed.

(** X1.  The orchestrator accepts the task "regression", but without
    feature selection it hands it to the cross-validation driver, which
    knows only "ranking" and "detection": such a run never returns.  When
    the steps before the dispatch succeed it stops with the driver's
    ValueError right after the k-means call, and no network is built. *)
Theorem regression_needs_feature_selection (env : runtime)
    (df : list observation) (features adducts : feature_table)
    (csv : option string) (folds : nat) (checkpoint : option string)
    (ua : bool) (names : option (list string)) :
  let run :=
    train_pytorch_model_on_intensities env df features adducts "regression"
      false csv folds checkpoint ua names in
  (exists e, IO.outcome run = Raise e) /\
  (torch_imported env = true ->
   forall fr X labels,
     reshape_to_training_format ua "regression" df = Ok fr ->
     feature_array ua features adducts (index (tf_Y fr)) = Ok X ->
     kmeans_labels env (tf_Y fr) = Ok labels ->
     run = ([EvKMeans], Raise ValueError)).
Proof.
  intros run. unfold run. split.
  - unfold train_pytorch_model_on_intensities. cbn [negb].
    apply bind_outcome_raise. intros _.
    apply bind_outcome_raise. intros fr.
    apply bind_outcome_raise. intros X.
    apply bind_outcome_raise. intros labels.
    apply bind_outcome_raise. intros [Y mask]. cbv beta iota zeta.
    apply bind_outcome_raise_after. intros out Hout.
    destruct (cross_val_loop_regression_raises env X (to_numpy Y) labels
                mask 20 8 (1 # 100)%Q folds 32) as [e He].
    rewrite He in Hout. discriminate Hout.
  - intros Ht fr X labels Hfr HX Hk.
    rewrite (orchestrator_cross_validation_call env df features adducts
               "regression" csv folds checkpoint ua names fr X labels
               (tf_Y fr)
               (Some (logical_not (to_numpy (tf_Y_detected fr))))
               Ht Hfr HX Hk eq_refl).
    now rewrite (cross_val_loop_regression env _ _ _ _ _ _ _ _ _ Ht).
Qed.

(** X1 on the small table. *)
Lemma regression_needs_feature_selection_witness :
  torch_imported (toy_runtime true) = true /\
  train_pytorch_model_on_intensities (toy_runtime true) small_table
    small_features small_adducts "regression" false None 2 None true
    (Some ["is_H"; "is_Na"])
  = ([EvKMeans], Raise ValueError).
Proof.
  split; [reflexivity|].
  destruct (regression_needs_feature_selection (toy_runtime true) small_table
              small_features small_adducts None 2 None true
              (Some ["is_H"; "is_Na"])) as [_ H].
  cbv zeta in H. refine (H eq_refl _ _ _ eq_refl eq_refl eq_refl).
Defined.



(** X3.  With feature selection and adduct features, leaving
    [adducts_columns] at its default [None] never yields a table: the
    run raises, at the latest when it asks [None] for its list of names
    after the attribution driver has returned. *)
Theorem adduct_names_are_required (env : runtime)
    (df : list observation) (features adducts : feature_table)
    (task_name : string) (csv : option string) (folds : nat)
    (checkpoint : option string) :
  let run :=
    train_pytorch_model_on_intensities env df features adducts task_name
      true csv folds checkpoint true None in
  (exists e, IO.outcome run = Raise e) /\
  (torch_imported env = true ->
   forall fr X labels Y mask shap_values,
     reshape_to_training_format true task_name df = Ok fr ->
     feature_array true features adducts (index (tf_Y fr)) = Ok X ->
     kmeans_labels env (tf_Y fr) = Ok labels ->
     select_target task_name fr = Ok (Y, mask) ->
     IO.outcome
       (features_selection_torch_model env X (to_numpy Y) task_name mask 100
          8 (1 # 100) folds 128 checkpoint false)
     = Ok shap_values ->
     IO.outcome run = Raise AttributeError).
Proof.
  intros run. unfold run. split.
  - unfold train_pytorch_model_on_intensities. cbn [negb].
    apply bind_outcome_raise. intros _.
    apply bind_outcome_raise. intros fr.
    apply bind_outcome_raise. intros X.
    apply bind_outcome_raise. intros labels.
    apply bind_outcome_raise. intros [Y mask]. cbv beta iota zeta.
    apply bind_outcome_raise. intros shap_values.
    apply bind_outcome_raise. intros _.
    cbn [feature_names]. rewrite bind_lift_raise. cbn. eauto.
  - intros Ht fr X labels Y mask shap_values Hfr HX Hk Hsel Hshap.
    unfold train_pytorch_model_on_intensities.
    rewrite Ht, bind_ret, Hfr, bind_lift_ok, HX, bind_lift_ok, Hk,
      bind_call_ok, Hsel, bind_lift_ok.
    cbn [negb IO.outcome snd].
    rewrite (bind_ok _ _ _ Hshap). cbn [IO.outcome snd].
    rewrite bind_log. reflexivity.
Qed.

(** X3 on the table of one hundred molecules: the attribution values are
    computed from a checkpoint, then the names are missing. *)
Lemma adduct_names_are_required_witness :
  torch_imported (toy_runtime false) = true /\
  IO.outcome
    (train_pytorch_model_on_intensities (toy_runtime false) hundred_table
       hundred_features small_adducts "detection" true None 10
       (Some "model.ckpt") true None)
  = Raise AttributeError.
Proof.
  split; [reflexivity|].
  destruct (reshape_to_training_format true "detection" hundred_table)
    as [fr|] eqn:Hfr; [|vm_compute in Hfr; discriminate Hfr].
  destruct (feature_array true hundred_features small_adducts
              (index (tf_Y fr))) as [X|] eqn:HX.
  2:{ vm_compute in Hfr. injection Hfr as <-. vm_compute in HX.
      discriminate HX. }
  destruct (IO.outcome
              (features_selection_torch_model (toy_runtime false) X
                 (to_numpy (tf_Y_detected fr)) "detection"
                 (Some (to_numpy (tf_Y_is_na fr))) 100 8 (1 # 100) 10 128
                 (Some "model.ckpt") false)) as [sv|] eqn:Hsv.
  2:{ vm_compute in Hfr. injection Hfr as <-. vm_compute in HX.
      injection HX as <-. vm_compute in Hsv. discriminate Hsv. }
  destruct (adduct_names_are_required (toy_runtime false) hundred_table
              hundred_features small_adducts "detection" None 10
              (Some "model.ckpt")) as [_ H].
  cbv zeta in H.
  refine (H eq_refl fr X (map (fun _ => 0) (index (tf_Y fr)))
            (tf_Y_detected fr) (Some (to_numpy (tf_Y_is_na fr))) sv
            Hfr HX _ eq_refl Hsv).
  cbn. unfold toy_kmeans.
  destruct (index (tf_Y fr)) eqn:E; [|reflexivity].
  vm_compute in Hfr. injection Hfr as <-. discriminate E.
Defined.

(** ** The attribution driver with a checkpoint *)

(** X4.  In a process that imported the training stack, with a
    positive batch size (a loader needs one), a checkpoint path and a
    task whose loss can be built, the attribution driver constructs and
    trains no network: it loads the network, and then either raises what
    the load raised, or, with fewer than 100 rows, the ValueError of
    drawing 100 distinct rows, or returns what the explainer returns for
    the loaded network on [X] against the 100 sampled rows. *)
Theorem checkpoint_skips_training (env : runtime) (X Y : ndarray cell)
    (task_name : string) (mask : option (ndarray cell))
    (epochs batch : nat) (lr : Q) (folds hidden : nat) (path : string)
    (only_train : bool) :
  torch_imported env = true ->
  0 < batch ->
  In task_name ["ranking"; "detection"; "regression"] ->
  (task_name = "ranking" -> neuralNDCG env <> None) ->
  features_selection_torch_model env X Y task_name mask epochs batch lr
    folds hidden (Some path) only_train
  = match load_from_checkpoint env path with
    | Raise e => ([EvLoadCheckpoint path], Raise e)
    | Ok net =>
        if (shape0 X <? 100)%nat
        then ([EvLoadCheckpoint path], Raise ValueError)
        else ([EvLoadCheckpoint path; EvExplain],
              shap_values_of env net
                (map (fun i => nth i (rows X) [])
                     (random_choice env (shape0 X) 100))
                X)
    end.
Proof.
  intros Ht _ Htask Hloss. unfold features_selection_torch_model. cbv zeta.
  rewrite (torch_name_imported env _ Ht), bind_lift_ok.
  assert (Hsel : exists act lf,
    (if task_is task_name "ranking"
     then IO.bind (IO.lift (NeuralNDCGLoss_init env []))
            (fun l => IO.ret (@None activation, RankingLoss l))
     else if task_is task_name "detection"
          then IO.ret (Some Sigmoid, SorensenDiceLoss)
          else if task_is task_name "regression"
               then IO.ret (None, MSELoss)
               else IO.raise ValueError)
    = IO.ret (act, lf)).
  { destruct Htask as [<-|[<-|[<-|[]]]].
    - change (task_is "ranking" "ranking") with true. cbv iota.
      unfold NeuralNDCGLoss_init.
      destruct (neuralNDCG env) as [f|]; [|now elim (Hloss eq_refl)].
      rewrite bind_lift_ok. eauto.
    - change (task_is "detection" "ranking") with false.
      change (task_is "detection" "detection") with true. cbv iota. eauto.
    - change (task_is "regression" "ranking") with false.
      change (task_is "regression" "detection") with false.
      change (task_is "regression" "regression") with true. cbv iota.
      eauto. }
  destruct Hsel as (act & lf & ->).
  rewrite bind_ret. cbv beta iota zeta.
  destruct (load_from_checkpoint env path) as [net|e].
  - rewrite bind_call_ok.
    destruct (shape0 X <? 100)%nat.
    + rewrite bind_raise_now. reflexivity.
    + rewrite bind_ret. reflexivity.
  - rewrite bind_call_raise. reflexivity.
Qed.

(** X4 on one hundred rows: the loaded network is explained at once. *)
Lemma checkpoint_skips_training_witness :
  torch_imported (toy_runtime false) = true /\
  0 < 8 /\
  In "regression" ["ranking"; "detection"; "regression"] /\
  IO.trace
    (features_selection_torch_model (toy_runtime false)
       (mk_ndarray 1 (repeat [Num 1] 100)) (mk_ndarray 1 (repeat [Num 2] 100))
       "regression" None 100 8 (1 # 100) 10 128 (Some "model.ckpt") false)
  = [EvLoadCheckpoint "model.ckpt"; EvExplain].
Proof.
  assert (Hin : In "regression" ["ranking"; "detection"; "regression"])
    by (cbn; tauto).
  assert (Hb : 0 < 8) by lia.
  split; [reflexivity|]. split; [exact Hb|]. split; [exact Hin|].
  rewrite (checkpoint_skips_training (toy_runtime false)
             (mk_ndarray 1 (repeat [Num 1] 100))
             (mk_ndarray 1 (repeat [Num 2] 100))
             "regression" None 100 8 (1 # 100)%Q 10 128 "model.ckpt" false
             eq_refl Hb Hin).
  - reflexivity.
  - intros H. discriminate H.
Defined.

(** ** The background sample *)

Lemma raises_without_explain_bind {A B : Type} (m : IO.M A)
    (k : A -> IO.M B) :
  existsb is_explain_event (IO.trace m) = false ->
  (forall a, (exists e, IO.outcome (k a) = Raise e) /\
             existsb is_explain_event (IO.trace (k a)) = false) ->
  (exists e, IO.outcome (IO.bind m k) = Raise e) /\
  existsb is_explain_event (IO.trace (IO.bind m k)) = false.
Proof.
  intros Ht Hk. destruct m as [t [a|e]]; cbn in *.
  - destruct (Hk a) as [[e He] Hn]. destruct (k a) as [t' r]. cbn in *.
    rewrite existsb_app, Ht, Hn. split; [eauto | reflexivity].
  - split; [eauto | exact Ht].
Qed.

Lemma no_explain_bind {A B : Type} (m : IO.M A) (k : A -> IO.M B) :
  existsb is_explain_event (IO.trace m) = false ->
  (forall a, existsb is_explain_event (IO.trace (k a)) = false) ->
  existsb is_explain_event (IO.trace (IO.bind m k)) = false.
Proof.
  intros Ht Hk. destruct m as [t [a|e]]; cbn in *; [|exact Ht].
  specialize (Hk a). destruct (k a) as [t' r]. cbn in *.
  rewrite existsb_app, Ht, Hk. reflexivity.
Qed.

Lemma no_explain_lift {A : Type} (r : result A) :
  existsb is_explain_event (IO.trace (IO.lift r)) = false.
Proof. reflexivity. Qed.

(** X5.  On fewer than 100 rows the attribution driver never returns
    attribution values and never calls the explainer, whatever the task,
    the mask and the checkpoint: drawing 100 distinct rows for the
    background fails, after the training when there is no checkpoint. *)
Theorem attribution_needs_hundred_rows (env : runtime) (X Y : ndarray cell)
    (task_name : string) (mask : option (ndarray cell))
    (epochs batch : nat) (lr : Q) (folds hidden : nat)
    (checkpoint : option string) (only_train : bool) :
  shape0 X < 100 ->
  let run :=
    features_selection_torch_model env X Y task_name mask epochs batch lr
      folds hidden checkpoint only_train in
  (exists e, IO.outcome run = Raise e) /\
  existsb is_explain_event (IO.trace run) = false.
Proof.
  intros Hrows run. unfold run, features_selection_torch_model. cbv zeta.
  apply Nat.ltb_lt in Hrows. rewrite Hrows.
  apply raises_without_explain_bind; [apply no_explain_lift|].
  intros train_val_dataset.
  apply raises_without_explain_bind.
  - destruct (task_is task_name "ranking").
    + destruct (NeuralNDCGLoss_init env []); reflexivity.
    + destruct (task_is task_name "detection"); [reflexivity|].
      destruct (task_is task_name "regression"); reflexivity.
  - intros [act lf]. cbv beta iota zeta.
    apply raises_without_explain_bind.
    2:{ intros net. rewrite bind_raise_now. cbn. eauto. }
    destruct checkpoint as [path|].
    + destruct (load_from_checkpoint env path); reflexivity.
    + apply no_explain_bind; [reflexivity|]. intros _.
      apply no_explain_bind.
      * unfold train_torch_model.
        destruct (trainer_fit env _ _ None epochs); reflexivity.
      * intros [trainer|trainer pa pi]; [|reflexivity].
        apply no_explain_bind; [|reflexivity].
        unfold print_score.
        destruct (trainer_predict env trainer _) as [p|]; [|reflexivity].
        rewrite bind_call_ok. cbn [IO.trace fst existsb is_explain_event orb].
        destruct (option_map astype_float32 mask) as [m|]; [|reflexivity].
        rewrite bind_ret.
        apply no_explain_bind; [apply no_explain_lift|]. intros preds.
        apply no_explain_bind; [apply no_explain_lift|]. intros pred_array.
        apply no_explain_bind; [apply no_explain_lift|]. intros gt.
        reflexivity.
Qed.

(** X5 on two rows with a checkpoint and with a mask. *)
Lemma attribution_needs_hundred_rows_witness :
  shape0 (mk_ndarray 1 [[Num 1]; [Num 2]]) < 100 /\
  IO.outcome
    (features_selection_torch_model (toy_runtime false)
       (mk_ndarray 1 [[Num 1]; [Num 2]])
       (mk_ndarray 1 [[Bool true]; [Bool false]]) "detection"
       (Some (mk_ndarray 1 [[Bool false]; [Bool false]]))
       100 8 (1 # 100) 10 128 None false)
  = Raise ValueError.
Proof.
  assert (Hlt : shape0 (mk_ndarray 1 [[Num 1]; [Num 2]]) < 100)
    by (cbn; lia).
  split; [exact Hlt|].
  destruct (attribution_needs_hundred_rows (toy_runtime false)
              (mk_ndarray 1 [[Num 1]; [Num 2]])
              (mk_ndarray 1 [[Bool true]; [Bool false]]) "detection"
              (Some (mk_ndarray 1 [[Bool false]; [Bool false]]))
              100 8 (1 # 100)%Q 10 128 None false Hlt) as [[e He] _].
  assert (He' := He). vm_compute in He'. injection He' as <-. exact He.
Defined.

(** ** The single-model trainer *)

(** X6.  When the fit succeeds and the prediction comes in at least one
    batch, all batches of one width and each with as many rows as
    indices, the trainer fits once, predicts once and returns the rows of
    the batches and their indices concatenated in batch order, equally
    many of both: the i-th returned row is the prediction for the i-th
    returned index. *)
Theorem train_torch_model_keeps_row_identity (env : runtime)
    (model : SimpleTwoLayersNN) (train_loader : DataLoader)
    (val_loader : option DataLoader) (test_loader : DataLoader)
    (epochs : nat) (net : network env)
    (batches : list (ndarray Z * list nat)) (w : nat) :
  trainer_fit env model train_loader val_loader epochs = Ok net ->
  trainer_predict env net test_loader = Ok batches ->
  batches <> [] ->
  Forall (fun b => shape1 (fst b) = w) batches ->
  Forall (fun b => shape0 (fst b) = List.length (snd b)) batches ->
  exists pred_array pred_indices,
    train_torch_model env model train_loader val_loader (Some test_loader)
      epochs
    = ([EvFit epochs; EvPredict],
       Ok (WithPredictions net pred_array pred_indices)) /\
    shape1 pred_array = w /\
    shape0 pred_array = List.length pred_indices /\
    combine (rows pred_array) pred_indices
    = List.concat (map (fun b => combine (rows (fst b)) (snd b)) batches).
Proof.
  intros Hfit Hpred Hne Hw Hlen. unfold train_torch_model.
  rewrite Hfit, bind_call_ok, Hpred, bind_call_ok.
  rewrite (concatenate_rows_uniform w (map fst batches)).
  2:{ destruct batches; [contradiction|discriminate]. }
  2:{ now apply Forall_map. }
  rewrite bind_lift_ok.
  assert (H1 : concatenate_1d (map snd batches)
               = Ok (List.concat (map snd batches))).
  { destruct batches; [contradiction|reflexivity]. }
  rewrite H1, bind_lift_ok. cbn [IO.trace IO.outcome IO.ret fst snd].
  eexists. eexists. split; [reflexivity|].
  cbn [shape1 rows]. unfold shape0. cbn [rows]. rewrite map_map.
  destruct (combine_concat_batches batches Hlen) as [H2 H3]. auto.
Qed.

(** X6 on the toy runtime: a test loader over the rows 2 and 0. *)
Lemma train_torch_model_keeps_row_identity_witness :
  exists pred_array pred_indices,
    train_torch_model (toy_runtime false)
      (mk_SimpleTwoLayersNN 32 1 2 SorensenDiceLoss (1 # 100) (Some Sigmoid)
         true)
      (mk_DataLoader (TestData (mk_ndarray 1 [[Num 1]; [Num 2]; [Num 3]])) 8
         (Some [1]) true)
      None
      (Some (mk_DataLoader
               (TestData (mk_ndarray 1 [[Num 1]; [Num 2]; [Num 3]])) 8
               (Some [2; 0]) false))
      20
    = ([EvFit 20; EvPredict],
       Ok (WithPredictions (2 : network (toy_runtime false)) pred_array
             pred_indices)) /\
    combine (rows pred_array) pred_indices
    = [([0; 0]%Z, 2); ([0; 0]%Z, 0)].
Proof.
  destruct (train_torch_model_keeps_row_identity (toy_runtime false)
              (mk_SimpleTwoLayersNN 32 1 2 SorensenDiceLoss (1 # 100)%Q
                 (Some Sigmoid) true)
              (mk_DataLoader
                 (TestData (mk_ndarray 1 [[Num 1]; [Num 2]; [Num 3]])) 8
                 (Some [1]) true)
              None
              (mk_DataLoader
                 (TestData (mk_ndarray 1 [[Num 1]; [Num 2]; [Num 3]])) 8
                 (Some [2; 0]) false)
              20 2
              [(mk_ndarray 2 [[0; 0]; [0; 0]]%Z, [2; 0])] 2
              eq_refl eq_refl)
    as (pa & pi & Hrun & _ & _ & Hpairs).
  - discriminate.
  - repeat constructor.
  - repeat constructor.
  - exists pa, pi. split; [exact Hrun | exact Hpairs].
Defined.

(** X7.  The edges of the trainer.  Without a test loader it returns the
    fitted trainer alone and never predicts.  A fit that raises ends the
    call before any prediction.  A prediction that comes in no batch at
    all (a test loader over no row), or in batches of different widths,
    makes the call raise ValueError after fit and prediction. *)
Theorem train_torch_model_edges (env : runtime) (model : SimpleTwoLayersNN)
    (train_loader : DataLoader) (val_loader : option DataLoader)
    (epochs : nat) :
  (train_torch_model env model train_loader val_loader None epochs
   = match trainer_fit env model train_loader val_loader epochs with
     | Ok net => ([EvFit epochs], Ok (OnlyTrainer net))
     | Raise e => ([EvFit epochs], Raise e)
     end) /\
  (forall test_loader e,
     trainer_fit env model train_loader val_loader epochs = Raise e ->
     train_torch_model env model train_loader val_loader test_loader epochs
     = ([EvFit epochs], Raise e)) /\
  (forall test_loader net,
     trainer_fit env model train_loader val_loader epochs = Ok net ->
     trainer_predict env net test_loader = Ok [] ->
     train_torch_model env model train_loader val_loader (Some test_loader)
       epochs
     = ([EvFit epochs; EvPredict], Raise ValueError)) /\
  (forall test_loader net b batches b',
     trainer_fit env model train_loader val_loader epochs = Ok net ->
     trainer_predict env net test_loader = Ok (b :: batches) ->
     In b' batches -> shape1 (fst b') <> shape1 (fst b) ->
     train_torch_model env model train_loader val_loader (Some test_loader)
       epochs
     = ([EvFit epochs; EvPredict], Raise ValueError)).
Proof.
  unfold train_torch_model. split; [|split; [|split]].
  - destruct (trainer_fit env model train_loader val_loader epochs).
    + now rewrite bind_call_ok.
    + now rewrite bind_call_raise.
  - intros test_loader e ->. now rewrite bind_call_raise.
  - intros test_loader net Hfit Hp.
    rewrite Hfit, bind_call_ok, Hp, bind_call_ok. reflexivity.
  - intros test_loader net b batches b' Hfit Hp Hin Hw.
    rewrite Hfit, bind_call_ok, Hp, bind_call_ok.
    cbn [map concatenate_rows].
    replace (forallb (fun b0 => (shape1 b0 =? shape1 (fst b))%nat)
               (map fst batches)) with false; [reflexivity|].
    symmetry. apply not_true_is_false. intros Hall.
    rewrite forallb_forall in Hall.
    specialize (Hall (fst b') (in_map fst _ _ Hin)).
    apply Nat.eqb_eq in Hall. contradiction.
Qed.

(** X7 on the toy runtime with a prediction that returns no batch. *)
Lemma train_torch_model_edges_witness :
  train_torch_model
    (mk_runtime true Z None nat (fun model _ _ _ => Ok (nb_out_feat model))
       (fun _ _ => Ok []) (fun _ => Ok 2) (fun n k => seq 0 k) toy_shap
       toy_kmeans toy_split)
    (mk_SimpleTwoLayersNN 32 1 2 SorensenDiceLoss (1 # 100) (Some Sigmoid)
       true)
    (mk_DataLoader (TestData (mk_ndarray 1 [[Num 1]])) 8 (Some [0]) true)
    None
    (Some (mk_DataLoader (TestData (mk_ndarray 1 [[Num 1]])) 8 (Some [])
             false))
    20
  = ([EvFit 20; EvPredict], Raise ValueError).
Proof.
  apply (proj1 (proj2 (proj2 (train_torch_model_edges
           (mk_runtime true Z None nat
              (fun model _ _ _ => Ok (nb_out_feat model))
              (fun _ _ => Ok []) (fun _ => Ok 2) (fun n k => seq 0 k)
              toy_shap toy_kmeans toy_split)
           (mk_SimpleTwoLayersNN 32 1 2 SorensenDiceLoss (1 # 100)%Q
              (Some Sigmoid) true)
           (mk_DataLoader (TestData (mk_ndarray 1 [[Num 1]])) 8 (Some [0])
              true)
           None 20))) _ 2 eq_refl eq_refl).
Defined.

(** ** The attribution driver without a checkpoint *)

Lemma flat_cells_astype (a : ndarray cell) :
  List.length (List.concat (rows (astype_float32 a)))
  = List.length (List.concat (rows a)).
Proof.
  unfold astype_float32. cbn [rows].
  now rewrite <- concat_map, length_map.
Qed.

Lemma train_torch_model_only_fit (env : runtime) (model : SimpleTwoLayersNN)
    (train_loader : DataLoader) (val_loader : option DataLoader)
    (epochs : nat) (net : network env) :
  trainer_fit env model train_loader val_loader epochs = Ok net ->
  train_torch_model env model train_loader val_loader None epochs
  = ([EvFit epochs], Ok (OnlyTrainer net)).
Proof. intros H. unfold train_torch_model. now rewrite H, bind_call_ok. Qed.

(** The diagnostic with a mask: predictions and target are flattened and
    indexed with the flattened mask. *)
Lemma print_score_with_mask (env : runtime) (Y m : ndarray cell)
    (batch : nat) (test_data : dataset) (trainer : network env)
    (batches : list (ndarray Z * list nat)) (preds : ndarray Z) :
  trainer_predict env trainer (mk_DataLoader test_data batch None false)
  = Ok batches ->
  concatenate_rows (map fst batches) = Ok preds ->
  List.length (List.concat (rows preds)) = List.length (List.concat (rows m)) ->
  print_score env Y (Some m) batch test_data trainer
  = if (List.length (List.concat (rows Y))
        =? List.length (List.concat (rows m)))%nat
    then ([EvPredict; EvPrint], Ok tt)
    else ([EvPredict], Raise IndexError).
Proof.
  intros Hp Hc Hlen. unfold print_score.
  rewrite Hp, bind_call_ok, bind_ret, Hc, bind_lift_ok.
  unfold boolean_index. rewrite !length_map, Hlen, Nat.eqb_refl.
  rewrite bind_lift_ok, flat_cells_astype.
  destruct (List.length (List.concat (rows Y))
            =? List.length (List.concat (rows m)))%nat.
  - rewrite bind_lift_ok. reflexivity.
  - reflexivity.
Qed.

(** X17.  Without a checkpoint and with an ignore mask, on at least 100
    rows, the attribution driver builds one network (as many inputs as
    [X] has columns, as many outputs as [Y], the ignore-mask flag for
    "detection" only), fits it once on all rows without a validation
    loader, and predicts all rows for the diagnostic.  When the fit
    succeeds and the predictions hold as many values as the mask has
    cells, the run goes on as follows: if the target has as many cells as
    the mask, the diagnostic is printed and the result is what the
    explainer returns for the fitted network on [X] against the 100
    sampled rows; otherwise the diagnostic stops the run with IndexError
    and the explainer is never called.  No cross-validation split is
    made, and [num_cross_val_folds] and [only_train] play no part. *)
Theorem attribution_trains_once_on_all_rows (env : runtime)
    (X Y m : ndarray cell) (task_name : string) (epochs batch : nat)
    (lr : Q) (folds hidden : nat) (only_train : bool) :
  fits_every_model env ->
  (forall model train_loader net,
     trainer_fit env model train_loader None epochs = Ok net ->
     nb_out_feat model = shape1 Y ->
     exists batches preds,
       trainer_predict env net
         (mk_DataLoader (TestData (astype_float32 X)) batch None false)
       = Ok batches /\
       concatenate_rows (map fst batches) = Ok preds /\
       List.length (List.concat (rows preds))
       = List.length (List.concat (rows m))) ->
  In task_name ["ranking"; "detection"; "regression"] ->
  (task_name = "ranking" -> neuralNDCG env <> None) ->
  100 <= shape0 X ->
  exists model net,
    num_feat model = hidden /\
    nb_in_feat model = shape1 X /\
    nb_out_feat model = shape1 Y /\
    has_ignore_mask model = task_is task_name "detection" /\
    trainer_fit env model
      (mk_DataLoader
         (TrainValData (astype_float32 X) (astype_float32 Y)
            (Some (astype_float32 m)))
         batch None true)
      None epochs
    = Ok net /\
    features_selection_torch_model env X Y task_name (Some m) epochs batch lr
      folds hidden None only_train
    = if (List.length (List.concat (rows Y))
          =? List.length (List.concat (rows m)))%nat
      then ([EvModel model; EvFit epochs; EvPredict; EvPrint; EvExplain],
            shap_values_of env net
              (map (fun i => nth i (rows X) [])
                   (random_choice env (shape0 X) 100))
              X)
      else ([EvModel model; EvFit epochs; EvPredict], Raise IndexError).
Proof.
  intros Hfit Hpred Htask Hloss Hrows.
  unfold features_selection_torch_model. cbv zeta.
  rewrite (torch_name_imported env _ (fits_imply_torch env Hfit)),
    bind_lift_ok.
  assert (Hsel : exists act lf,
    (if task_is task_name "ranking"
     then IO.bind (IO.lift (NeuralNDCGLoss_init env []))
            (fun l => IO.ret (@None activation, RankingLoss l))
     else if task_is task_name "detection"
          then IO.ret (Some Sigmoid, SorensenDiceLoss)
          else if task_is task_name "regression"
               then IO.ret (None, MSELoss)
               else IO.raise ValueError)
    = IO.ret (act, lf)).
  { destruct Htask as [<-|[<-|[<-|[]]]].
    - change (task_is "ranking" "ranking") with true. cbv iota.
      unfold NeuralNDCGLoss_init.
      destruct (neuralNDCG env) as [f|]; [|now elim (Hloss eq_refl)].
      rewrite bind_lift_ok. eauto.
    - change (task_is "detection" "ranking") with false.
      change (task_is "detection" "detection") with true. cbv iota. eauto.
    - change (task_is "regression" "ranking") with false.
      change (task_is "regression" "detection") with false.
      change (task_is "regression" "regression") with true. cbv iota.
      eauto. }
  destruct Hsel as (act & lf & ->).
  rewrite bind_ret. cbv beta iota zeta. cbn [option_map].
  set (model := mk_SimpleTwoLayersNN hidden (shape1 X) (shape1 Y) lf lr act
                  (task_is task_name "detection")).
  set (tl := mk_DataLoader
               (TrainValData (astype_float32 X) (astype_float32 Y)
                  (Some (astype_float32 m)))
               batch None true).
  destruct (Hfit model tl None epochs) as [net Hnet].
  destruct (Hpred model tl net Hnet eq_refl)
    as (batches & preds & Hp & Hc & Hlen).
  exists model, net.
  split; [reflexivity|]. split; [reflexivity|]. split; [reflexivity|].
  split; [reflexivity|]. split; [exact Hnet|].
  assert (Hle : (shape0 X <? 100)%nat = false) by (apply Nat.ltb_ge; lia).
  rewrite Hle.
  rewrite bind_assoc, bind_log.
  rewrite bind_assoc, (train_torch_model_only_fit env model tl None epochs net Hnet).
  rewrite bind_ok with (a := OnlyTrainer net) by reflexivity.
  cbn [IO.trace IO.outcome fst snd app].
  rewrite bind_assoc.
  rewrite (print_score_with_mask env Y (astype_float32 m) batch
             (TestData (astype_float32 X)) net batches preds Hp Hc)
    by (now rewrite flat_cells_astype).
  rewrite flat_cells_astype.
  destruct (List.length (List.concat (rows Y))
            =? List.length (List.concat (rows m)))%nat.
  - rewrite bind_ok with (a := tt) by reflexivity. cbn [IO.trace IO.outcome fst snd app].
    rewrite !bind_ret. reflexivity.
  - reflexivity.
Qed.

(** X17 on one hundred rows and one output column. *)
Lemma attribution_trains_once_on_all_rows_witness :
  In "regression" ["ranking"; "detection"; "regression"] /\
  100 <= shape0 (mk_ndarray 1 (repeat [Num 1] 100)) /\
  IO.trace
    (features_selection_torch_model (toy_runtime false)
       (mk_ndarray 1 (repeat [Num 1] 100)) (mk_ndarray 1 (repeat [Num 2] 100))
       "regression" (Some (mk_ndarray 1 (repeat [Bool false] 100)))
       100 8 (1 # 100) 10 128 None false)
  = [EvModel (mk_SimpleTwoLayersNN 128 1 1 MSELoss (1 # 100) None false);
     EvFit 100; EvPredict; EvPrint; EvExplain].
Proof.
  assert (Hin : In "regression" ["ranking"; "detection"; "regression"])
    by (cbn; tauto).
  assert (Hrows : 100 <= shape0 (mk_ndarray 1 (repeat [Num 1] 100)))
    by (vm_compute; lia).
  split; [exact Hin|]. split; [exact Hrows|].
  destruct (attribution_trains_once_on_all_rows (toy_runtime false)
              (mk_ndarray 1 (repeat [Num 1] 100))
              (mk_ndarray 1 (repeat [Num 2] 100))
              (mk_ndarray 1 (repeat [Bool false] 100))
              "regression" 100 8 (1 # 100)%Q 10 128 false
              (toy_runtime_fits false))
    as (model & net & _ & _ & _ & _ & _ & Hrun).
  - intros model tl net Hnet Hout. cbn in Hnet. injection Hnet as <-.
    rewrite Hout. eexists. eexists.
    split; [reflexivity|]. split; [reflexivity|]. vm_compute. reflexivity.
  - exact Hin.
  - intros H. discriminate H.
  - exact Hrows.
  - reflexivity.
Defined.

(** ** Networks of the cross-validation driver *)

Section FoldTrace.

Variable env : runtime.
Hypothesis fit_ok : fits_every_model env.
Hypothesis predict_ok : predicts_in_batches env.

Variables X Y : ndarray cell.
Variable task_name : string.
Variables train_val_dataset test_data : dataset.
Variable loss_fn : loss_function.
Variable activation_fn : option activation.
Variables epochs batch : nat.
Variable lr : Q.
Variable hidden : nat.
Hypothesis batch_positive : 0 < batch.

Let body :=
  cross_val_fold env X Y task_name train_val_dataset test_data loss_fn
    activation_fn epochs batch lr hidden.

Let model :=
  mk_SimpleTwoLayersNN hidden (shape1 X) (shape1 Y) loss_fn lr activation_fn
    (task_is task_name "detection").

Lemma cross_val_fold_trace (fold : nat) (train_index test_index : list nat)
    (acc : cv_table) :
  test_index <> [] ->
  Forall (fun i => i < dataset_rows test_data) test_index ->
  exists t,
    body fold (train_index, test_index) acc
    = ([EvModel model; EvFit epochs; EvPredict], Ok t).
Proof.
  intros Hne Hin. unfold body, cross_val_fold. fold model.
  rewrite bind_log.
  match goal with
  | |- context [train_torch_model env model ?tl (Some ?vl) (Some ?sl) epochs] =>
      destruct (train_torch_model_predictions env fit_ok predict_ok model tl
                  vl sl epochs test_index eq_refl Hne batch_positive eq_refl
                  Hin)
        as (net & pa & pi & Hrun & Hlen & _)
  end.
  rewrite Hrun, bind_ok with (a := WithPredictions net pa pi)
    by reflexivity.
  unfold fold_results. rewrite Hlen, Nat.eqb_refl, bind_lift_ok.
  cbn. eauto.
Qed.

Lemma enumerate_loop_trace (splits : list (list nat * list nat)) :
  Forall (fun s => snd s <> [] /\
                   Forall (fun i => i < dataset_rows test_data) (snd s))
         splits ->
  forall (fold0 : nat) (acc : cv_table),
  exists t,
    enumerate_loop body fold0 splits acc
    = (flat_map (fun _ => [EvModel model; EvFit epochs; EvPredict]) splits,
       Ok t).
Proof.
  induction 1 as [|[train_index test_index] splits [Hne Hin] _ IH];
    intros fold0 acc; cbn [enumerate_loop flat_map].
  - exists acc. reflexivity.
  - cbn [snd] in Hne, Hin.
    destruct (cross_val_fold_trace fold0 train_index test_index acc Hne Hin)
      as [t1 H1].
    destruct (IH (S fold0) t1) as [t2 H2].
    rewrite H1, bind_ok with (a := t1) by reflexivity.
    rewrite H2. cbn [IO.trace IO.outcome fst snd]. eauto.
Qed.

End FoldTrace.

(** X8.  Assume that every fit succeeds, that prediction works batch by
    batch as the loader makes them, that the batch size is positive, that
    the task is one of the driver's and its loss can be built, and that
    the held-out set of every fold is not empty and holds row numbers of
    [X].  Then the cross-validation driver splits once and, for every
    fold in turn, constructs a network, fits it and predicts with it, and
    does nothing else.  The networks of all folds have one configuration:
    as many inputs as [X] has columns, as many outputs as [Y] has
    columns, the given hidden width and learning rate, a sigmoid and the
    ignore-mask flag for "detection" only. *)
Theorem one_network_per_fold (env : runtime)
    (X Y : ndarray cell) (task_name : string) (classes : list nat)
    (mask : option (ndarray cell)) (epochs batch : nat) (lr : Q)
    (folds hidden : nat) (splits : list (list nat * list nat)) :
  fits_every_model env ->
  predicts_in_batches env ->
  0 < batch ->
  In task_name ["ranking"; "detection"] ->
  (task_name = "ranking" -> neuralNDCG env <> None) ->
  skf_split env folds (shape0 X) classes = Ok splits ->
  Forall (fun s => snd s <> [] /\ Forall (fun i => i < shape0 X) (snd s))
         splits ->
  exists model,
    num_feat model = hidden /\
    nb_in_feat model = shape1 X /\
    nb_out_feat model = shape1 Y /\
    learning_rate model = lr /\
    has_ignore_mask model = task_is task_name "detection" /\
    final_activation model
    = (if task_is task_name "detection" then Some Sigmoid else None) /\
    IO.trace
      (train_torch_model_cross_val_loop env X Y task_name classes mask epochs
         batch lr folds hidden)
    = EvSplit folds
      :: flat_map (fun _ => [EvModel model; EvFit epochs; EvPredict]) splits.
Proof.
  intros Hfit Hpred Hbatch Htask Hloss Hsplit Hne.
  unfold train_torch_model_cross_val_loop. cbv zeta.
  rewrite (torch_name_imported env _ (fits_imply_torch env Hfit)),
    bind_lift_ok.
  assert (Hsel : exists act lf,
    (if task_is task_name "ranking"
     then IO.bind (IO.lift (NeuralNDCGLoss_init env []))
            (fun l => IO.ret (@None activation, RankingLoss l))
     else if task_is task_name "detection"
          then IO.ret (Some Sigmoid, SorensenDiceLoss)
          else IO.raise ValueError)
    = IO.ret (act, lf) /\
    act = if task_is task_name "detection" then Some Sigmoid else None).
  { destruct Htask as [<-|[<-|[]]].
    - change (task_is "ranking" "ranking") with true.
      change (task_is "ranking" "detection") with false. cbv iota.
      unfold NeuralNDCGLoss_init.
      destruct (neuralNDCG env) as [f|]; [|now elim (Hloss eq_refl)].
      rewrite bind_lift_ok. eauto.
    - change (task_is "detection" "ranking") with false.
      change (task_is "detection" "detection") with true. cbv iota. eauto. }
  destruct Hsel as (act & lf & -> & Hact).
  rewrite bind_ret. cbv beta iota zeta.
  rewrite Hsplit, bind_call_ok.
  rewrite <- (dataset_rows_test X) in Hne.
  destruct (enumerate_loop_trace env Hfit Hpred X Y task_name
              (TrainValData (astype_float32 X) (astype_float32 Y)
                 (option_map astype_float32 mask))
              (TestData (astype_float32 X)) lf act epochs batch lr hidden
              Hbatch splits Hne 0 None) as [t Hrun].
  cbv zeta in Hrun. rewrite Hrun. cbn [IO.trace IO.outcome fst snd].
  eexists. repeat split; try reflexivity. exact Hact.
Qed.

(** X8 on the toy runtime: two folds of two held-out rows each, predicted
    in batches of one row; two networks. *)
Lemma one_network_per_fold_witness :
  0 < 1 /\
  In "detection" ["ranking"; "detection"] /\
  exists model,
    nb_in_feat model = 1 /\
    IO.trace
      (train_torch_model_cross_val_loop (toy_runtime false)
         (mk_ndarray 1 [[Num 1]; [Num 2]; [Num 3]; [Num 4]])
         (mk_ndarray 1 [[Bool true]; [Bool false]; [Bool true]; [Bool false]])
         "detection" [0; 0; 0; 0] None 20 1 (1 # 100) 2 32)
    = [EvSplit 2; EvModel model; EvFit 20; EvPredict;
       EvModel model; EvFit 20; EvPredict].
Proof.
  assert (Hb : 0 < 1) by lia.
  assert (Hin : In "detection" ["ranking"; "detection"]) by (cbn; tauto).
  split; [exact Hb|]. split; [exact Hin|].
  destruct (one_network_per_fold (toy_runtime false)
              (mk_ndarray 1 [[Num 1]; [Num 2]; [Num 3]; [Num 4]])
              (mk_ndarray 1 [[Bool true]; [Bool false]; [Bool true];
                             [Bool false]])
              "detection" [0; 0; 0; 0] None 20 1 (1 # 100)%Q 2 32
              [([1; 3], [0; 2]); ([0; 2], [1; 3])]
              (toy_runtime_fits false) (toy_runtime_predicts false) Hb Hin)
    as (model & _ & Hin_feat & _ & _ & _ & _ & Htrace).
  - intros H. discriminate H.
  - reflexivity.
  - repeat constructor; try discriminate; cbn; lia.
  - exists model. split; [exact Hin_feat | exact Htrace].
Defined.

(** ** The order of the held-out predictions *)

Lemma insert_by_index_sorted (r : cv_row) (l : list cv_row) :
  Sorted (fun a b => cv_index a <= cv_index b) l ->
  Sorted (fun a b => cv_index a <= cv_index b) (insert_by_index r l).
Proof.
  induction 1 as [|h t Hs IH Hh]; cbn [insert_by_index].
  - repeat constructor.
  - destruct (Nat.ltb_spec (cv_index r) (cv_index h)) as [Hlt|Hge].
    + constructor; [now constructor|]. constructor. lia.
    + constructor; [exact IH|].
      destruct t as [|h' t']; cbn [insert_by_index].
      * constructor. exact Hge.
      * destruct (cv_index r <? cv_index h')%nat.
        -- constructor. exact Hge.
        -- inversion Hh; subst. now constructor.
Qed.

Lemma sort_index_sorted (l : list cv_row) :
  Sorted (fun a b => cv_index a <= cv_index b) (sort_index l).
Proof.
  induction l as [|r l IH]; cbn; [constructor|].
  now apply insert_by_index_sorted.
Qed.

(** A sorted arrangement of [a], [a+1], ... is that sequence. *)
Lemma sorted_permutation_of_seq (n : nat) :
  forall (a : nat) (l : list nat),
    StronglySorted le l -> Permutation l (seq a n) -> l = seq a n.
Proof.
  induction n as [|n IH]; intros a l Hs Hp; cbn [seq] in *.
  - apply Permutation_sym, Permutation_nil in Hp. exact Hp.
  - destruct l as [|x l].
    { apply Permutation_nil in Hp. discriminate Hp. }
    apply StronglySorted_inv in Hs as [Hs Hx].
    assert (Hxa : x = a).
    { assert (Hin : In a (x :: l))
        by (apply (Permutation_in _ (Permutation_sym Hp)); now left).
      assert (Hin' : In x (a :: seq (S a) n))
        by (apply (Permutation_in _ Hp); now left).
      destruct Hin as [->|Hin]; [reflexivity|].
      rewrite Forall_forall in Hx. specialize (Hx a Hin).
      destruct Hin' as [->|Hin']; [reflexivity|].
      apply in_seq in Hin'. lia. }
    subst x. f_equal. apply IH; [exact Hs|].
    now apply Permutation_cons_inv in Hp.
Qed.

Lemma sort_index_indices (rs : list cv_row) (n : nat) :
  Permutation (map cv_index rs) (seq 0 n) ->
  map cv_index (sort_index rs) = seq 0 n.
Proof.
  intros Hp. apply sorted_permutation_of_seq.
  - apply Sorted_StronglySorted; [intros x y z; apply Nat.le_trans|].
    pose proof (sort_index_sorted rs) as Hs.
    induction Hs as [|h t _ IH Hh]; cbn; constructor; [exact IH|].
    destruct Hh; cbn; constructor; assumption.
  - rewrite <- Hp. apply Permutation_map, sort_index_perm.
Qed.

(** X9.  When the rows of the held-out predictions carry the indices
    0 .. n-1, each once, in any order (as after a cross-validation over
    folds that partition the rows), sorting by index puts the prediction
    of input row [i] at position [i]: the order in which the orchestrator
    then re-keys the rows with the index of [Y].  Sorting neither drops
    nor adds a row. *)
Theorem sort_index_restores_row_order (rs : list cv_row) (n : nat) :
  Permutation (map cv_index rs) (seq 0 n) ->
  map cv_index (sort_index rs) = seq 0 n /\
  Permutation (sort_index rs) rs /\
  forall i r, nth_error (sort_index rs) i = Some r -> cv_index r = i.
Proof.
  intros Hp.
  pose proof (sort_index_indices rs n Hp) as Hmap.
  split; [exact Hmap|]. split; [apply sort_index_perm|].
  intros i r Hi.
  apply (map_nth_error cv_index) in Hi. rewrite Hmap in Hi.
  assert (Hlt : i < n).
  { rewrite <- (length_seq n 0). apply nth_error_Some. congruence. }
  rewrite (nth_error_nth' _ 0) in Hi by (rewrite length_seq; exact Hlt).
  rewrite seq_nth in Hi by exact Hlt. now injection Hi as ->.
Qed.

(** X9 on three rows returned in the order 2, 0, 1. *)
Lemma sort_index_restores_row_order_witness :
  Permutation [2; 0; 1] (seq 0 3) /\
  map cv_index
    (sort_index [mk_cv_row 2 [Num 7] 1; mk_cv_row 0 [Num 5] 0;
                 mk_cv_row 1 [Num 6] 1])
  = seq 0 3.
Proof.
  assert (Hp : Permutation [2; 0; 1] (seq 0 3)).
  { apply (Permutation_cons_app [0; 1] [] 2). reflexivity. }
  split; [exact Hp|].
  exact (proj1 (sort_index_restores_row_order
                  [mk_cv_row 2 [Num 7] 1; mk_cv_row 0 [Num 5] 0;
                   mk_cv_row 1 [Num 6] 1] 3 Hp)).
Defined.

(* ================================================================= *)
(** * Further properties of the orchestrator's data preparation *)

(** ** Shape of the targets *)

Lemma tabulate_cells (idx : list row_key) (cols : list col_key)
    (f : row_key -> col_key -> cell) (P : cell -> Prop) :
  (forall r c, P (f r c)) ->
  List.length (values (tabulate idx cols f)) = List.length idx /\
  Forall (fun row => List.length row = List.length cols /\ Forall P row)
         (values (tabulate idx cols f)).
Proof.
  intros H. unfold tabulate. cbn [values]. split; [apply length_map|].
  apply Forall_forall. intros row Hin.
  apply in_map_iff in Hin as (r & <- & _).
  split; [apply length_map|].
  apply Forall_forall. intros c Hc.
  apply in_map_iff in Hc as (k & <- & _). apply H.
Qed.

Lemma task_is_eq (task_name name : string) :
  task_is task_name name = true <-> task_name = name.
Proof. apply String.eqb_eq. Qed.

(** X10.  For each of the three tasks and every table that the pivot
    accepts, the target [Y] that is handed to the drivers keeps the row
    index and the columns of the reshaped intensities (the index from
    which [X] is built), is rectangular, and holds no NaN: every missing
    combination has been replaced.  "ranking" has no ignore mask; for the
    other two tasks the mask is a boolean array with the shape of [Y]. *)
Theorem targets_are_complete_and_aligned (ua : bool) (task_name : string)
    (df : list observation) :
  duplicate_entries ua df = false ->
  In task_name ["ranking"; "detection"; "regression"] ->
  exists fr Y mask,
    reshape_to_training_format ua task_name df = Ok fr /\
    training_targets ua task_name df = Ok (Y, mask) /\
    index Y = index (tf_Y fr) /\
    columns Y = columns (tf_Y fr) /\
    List.length (values Y) = List.length (index Y) /\
    Forall (fun row => List.length row = List.length (columns Y) /\
                       Forall (fun c => cell_isna c = false) row)
           (values Y) /\
    (mask = None <-> task_name = "ranking") /\
    forall m, mask = Some m ->
      shape0 m = List.length (index Y) /\
      shape1 m = List.length (columns Y) /\
      Forall (fun row => List.length row = List.length (columns Y) /\
                         Forall (fun c => exists b, c = Bool b) row)
             (rows m).
Proof.
  intros Hdup Htask.
  pose proof (reshape_closed_form ua task_name df Hdup) as Hfr.
  cbv zeta in Hfr.
  set (cols := sort_unique col_key_compare (map column_key df)) in *.
  set (kept := if task_is task_name "ranking"
               then filter (ever_detected ua df cols)
                      (sort_unique row_key_compare (map (index_key ua) df))
               else sort_unique row_key_compare (map (index_key ua) df)) in *.
  unfold training_targets. rewrite Hfr. cbn [Py.bind].
  unfold select_target. cbn [tf_Y tf_Y_detected tf_Y_is_na].
  assert (HY : forall r c,
             cell_isna (match observed ua df r c with
                        | Some o => if detected o then Num (intensity o)
                                    else Num 0
                        | None => Num 0
                        end) = false).
  { intros r c. destruct (observed ua df r c) as [o|]; [|reflexivity].
    now destruct (detected o). }
  destruct Htask as [<-|[<-|[<-|[]]]].
  - change (task_is "ranking" "ranking") with true. cbv iota.
    rewrite setitem_mask_tabulate.
    match goal with
    | |- context [Ok (tabulate kept cols ?f, None)] =>
        destruct (tabulate_cells kept cols f (fun c => cell_isna c = false))
          as [Hl Hc]
    end.
    { intros r c. cbv beta.
      destruct (cell_is_True _); [reflexivity | apply HY]. }
    eexists. eexists. eexists.
    split; [reflexivity|]. split; [reflexivity|].
    split; [reflexivity|]. split; [reflexivity|].
    split; [exact Hl|]. split; [exact Hc|].
    split; [tauto|]. intros m Hm. discriminate Hm.
  - change (task_is "detection" "ranking") with false.
    change (task_is "detection" "detection") with true. cbv iota.
    match goal with
    | |- context [Ok (tabulate kept cols ?f, Some (to_numpy
                                                     (tabulate _ _ ?g)))] =>
        destruct (tabulate_cells kept cols f (fun c => cell_isna c = false))
          as [Hl Hc];
        [ intros r c; reflexivity
        | destruct (tabulate_cells kept cols g
                      (fun c => exists b, c = Bool b)) as [Hl' Hc'] ]
    end.
    { intros r c. destruct (observed ua df r c); eauto. }
    eexists. eexists. eexists.
    split; [reflexivity|]. split; [reflexivity|].
    split; [reflexivity|]. split; [reflexivity|].
    split; [exact Hl|]. split; [exact Hc|].
    split; [split; discriminate|].
    intros m [= <-].
    split; [exact Hl'|]. split; [reflexivity | exact Hc'].
  - change (task_is "regression" "ranking") with false.
    change (task_is "regression" "detection") with false.
    change (task_is "regression" "regression") with true. cbv iota.
    match goal with
    | |- context [Ok (tabulate kept cols ?f, Some (logical_not (to_numpy
                                                     (tabulate _ _ ?g))))] =>
        destruct (tabulate_cells kept cols f (fun c => cell_isna c = false))
          as [Hl Hc];
        [ exact HY
        | destruct (tabulate_cells kept cols g
                      (fun c => exists b, c = Bool b)) as [Hl' Hc'] ]
    end.
    { intros r c. eauto. }
    eexists. eexists. eexists.
    split; [reflexivity|]. split; [reflexivity|].
    split; [reflexivity|]. split; [reflexivity|].
    split; [exact Hl|]. split; [exact Hc|].
    split; [split; discriminate|].
    intros m [= <-].
    unfold logical_not, to_numpy, shape0. cbn [rows shape1].
    split; [rewrite length_map; exact Hl'|]. split; [reflexivity|].
    apply Forall_map. revert Hc'. apply Forall_impl.
    intros row [Hlen Hrow]. split; [rewrite length_map; exact Hlen|].
    apply Forall_map. revert Hrow. apply Forall_impl.
    intros c [b ->]. cbn. eauto.
Qed.

(** X10 on the small table and the task "regression". *)
Lemma targets_are_complete_and_aligned_witness :
  duplicate_entries true small_table = false /\
  In "regression" ["ranking"; "detection"; "regression"] /\
  exists fr Y mask,
    reshape_to_training_format true "regression" small_table = Ok fr /\
    training_targets true "regression" small_table = Ok (Y, mask) /\
    index Y = index (tf_Y fr) /\
    List.length (values Y) = List.length (index Y).
Proof.
  assert (Hd : duplicate_entries true small_table = false) by reflexivity.
  assert (Hin : In "regression" ["ranking"; "detection"; "regression"])
    by (cbn; tauto).
  split; [exact Hd|]. split; [exact Hin|].
  destruct (targets_are_complete_and_aligned true "regression" small_table
              Hd Hin) as (fr & Y & mask & H1 & H2 & H3 & _ & H5 & _).
  exists fr, Y, mask. repeat split; assumption.
Defined.

(** ** Tables that the orchestrator rejects *)

Lemma has_dup_repeated {A : Type} (eq_dec : forall x y : A, {x = y} + {x <> y})
    (a : A) (l1 l2 l3 : list A) :
  has_dup eq_dec (l1 ++ a :: l2 ++ a :: l3) = true.
Proof.
  induction l1 as [|x l1 IH]; cbn [app has_dup].
  - apply orb_true_iff. left. apply existsb_exists. exists a.
    split; [apply in_or_app; right; now left|].
    destruct (eq_dec a a); congruence.
  - rewrite IH. apply orb_true_r.
Qed.

(** X11.  A table with two rows for one combination of entity, matrix
    and polarity stops the orchestrator with the ValueError of the pivot
    before any external call, whatever the task.  Without adduct features
    the entity is the molecule alone, so two adducts of one molecule under
    the same matrix and polarity are such a pair. *)
Theorem repeated_combination_is_rejected (env : runtime)
    (l1 l2 l3 : list observation) (o1 o2 : observation)
    (features adducts : feature_table) (task_name : string)
    (selection : bool) (csv : option string) (folds : nat)
    (checkpoint : option string) (ua : bool) (names : option (list string)) :
  torch_imported env = true ->
  name_short o1 = name_short o2 ->
  matrix o1 = matrix o2 ->
  polarity o1 = polarity o2 ->
  (ua = true -> adduct o1 = adduct o2) ->
  train_pytorch_model_on_intensities env (l1 ++ o1 :: l2 ++ o2 :: l3)
    features adducts task_name selection csv folds checkpoint ua names
  = ([], Raise ValueError).
Proof.
  intros Ht Hn Hm Hp Ha.
  assert (Hk : entry_key ua o1 = entry_key ua o2).
  { unfold entry_key, index_key, column_key. rewrite Hn, Hm, Hp.
    destruct ua; [now rewrite (Ha eq_refl) | reflexivity]. }
  assert (Hd : duplicate_entries ua (l1 ++ o1 :: l2 ++ o2 :: l3) = true).
  { unfold duplicate_entries.
    rewrite map_app. cbn [map]. rewrite map_app. cbn [map]. rewrite Hk.
    apply has_dup_repeated. }
  unfold train_pytorch_model_on_intensities.
  rewrite Ht, bind_ret.
  unfold reshape_to_training_format, pivot. rewrite Hd. reflexivity.
Qed.

(** X11: glucose with two adducts in one matrix and polarity, read
    without adduct features. *)
Lemma repeated_combination_is_rejected_witness :
  train_pytorch_model_on_intensities (toy_runtime true)
    [mk_observation "glucose" "+H" "DHB" "positive" 120 true;
     mk_observation "glucose" "+Na" "DHB" "positive" 80 true]
    small_features small_adducts "detection" false None 2 None false None
  = ([], Raise ValueError).
Proof.
  apply (repeated_combination_is_rejected (toy_runtime true) [] [] []
           (mk_observation "glucose" "+H" "DHB" "positive" 120 true)
           (mk_observation "glucose" "+Na" "DHB" "positive" 80 true)
           small_features small_adducts "detection" false None 2 None false
           None eq_refl eq_refl eq_refl eq_refl).
  intros H. discriminate H.
Defined.

Lemma rows_labelled_absent (t : feature_table) (s : string) :
  ~ In s (ft_index t) -> rows_labelled t s = [].
Proof.
  intros Hn. unfold rows_labelled.
  destruct (filter (fun p => String.eqb (fst p) s)
                   (combine (ft_index t) (ft_values t))) as [|p l] eqn:E;
    [reflexivity|].
  assert (Hin : In p (filter (fun p => String.eqb (fst p) s)
                        (combine (ft_index t) (ft_values t))))
    by (rewrite E; now left).
  apply filter_In in Hin as [Hin Hs]. destruct p as [k v]. cbn [fst] in Hs.
  apply String.eqb_eq in Hs. subst k.
  apply in_combine_l in Hin. contradiction.
Qed.

Lemma loc_rows_missing (t : feature_table) (keys : list string) (s : string) :
  In s keys -> rows_labelled t s = [] -> loc_rows t keys = Raise KeyError.
Proof.
  intros Hin Hs. induction keys as [|k keys IH]; [contradiction|].
  cbn [loc_rows].
  destruct (rows_labelled t k) as [|row found] eqn:E; [reflexivity|].
  destruct Hin as [->|Hin]; [congruence|].
  now rewrite (IH Hin).
Qed.

Lemma index_key_level0 (ua : bool) (o : observation) :
  nth_error (index_key ua o) 0 = Some (name_short o).
Proof. now destruct ua. Qed.

(** X12.  A molecule of the intensity table that has no row in
    [features_df] stops the orchestrator with the KeyError of the feature
    lookup, before the k-means call and any training, in every task.  For
    "ranking" this needs the molecule to survive the removal of entities
    that are never detected. *)
Theorem unknown_molecule_is_rejected (env : runtime) (df : list observation)
    (o : observation) (features adducts : feature_table)
    (task_name : string) (selection : bool) (csv : option string)
    (folds : nat) (checkpoint : option string) (ua : bool)
    (names : option (list string)) :
  torch_imported env = true ->
  duplicate_entries ua df = false ->
  In o df ->
  ~ In (name_short o) (ft_index features) ->
  (task_name = "ranking" -> detected o = true) ->
  train_pytorch_model_on_intensities env df features adducts task_name
    selection csv folds checkpoint ua names
  = ([], Raise KeyError).
Proof.
  intros Ht Hdup Hin Hno Hdet.
  pose proof (reshape_closed_form ua task_name df Hdup) as Hfr.
  cbv zeta in Hfr.
  set (cols := sort_unique col_key_compare (map column_key df)) in *.
  set (all_rows := sort_unique row_key_compare (map (index_key ua) df)) in *.
  set (kept := if task_is task_name "ranking"
               then filter (ever_detected ua df cols) all_rows
               else all_rows) in *.
  assert (Hsub : forall k, In k kept -> In k all_rows).
  { intros k. unfold kept. destruct (task_is task_name "ranking");
      [intros H; now apply filter_In in H | trivial]. }
  assert (Hkept : In (index_key ua o) kept).
  { assert (Hall : In (index_key ua o) all_rows)
      by (apply In_all_rows; eauto).
    unfold kept. destruct (task_is task_name "ranking") eqn:E; [|exact Hall].
    apply filter_In. split; [exact Hall|].
    apply (ever_detected_true ua df Hdup). exists o.
    apply task_is_eq in E. auto. }
  assert (Hlevels : get_level_values 0 kept
                    = Ok (map (fun k => nth 0 k ""%string) kept)).
  { apply get_level_values_some. apply Forall_forall. intros k Hk.
    apply Hsub, In_all_rows in Hk as (o' & _ & <-).
    now rewrite index_key_level0. }
  assert (HX : feature_array ua features adducts kept = Raise KeyError).
  { unfold feature_array. rewrite Hlevels. cbn [Py.bind].
    rewrite (loc_rows_missing features _ (name_short o)); [reflexivity | |].
    - apply in_map_iff. exists (index_key ua o). split; [|exact Hkept].
      apply nth_error_nth. apply index_key_level0.
    - now apply rows_labelled_absent. }
  unfold train_pytorch_model_on_intensities.
  rewrite Ht, bind_ret, Hfr, bind_lift_ok.
  cbn [tf_Y index tabulate]. rewrite HX. reflexivity.
Qed.

(** X12 on the small table with a feature table that lacks its first
    molecule. *)
Lemma unknown_molecule_is_rejected_witness :
  exists o,
    In o small_table /\
    ~ In (name_short o) (ft_index (mk_feature_table [] ["mass"] [])) /\
    train_pytorch_model_on_intensities (toy_runtime true) small_table
      (mk_feature_table [] ["mass"] []) small_adducts "detection" false None
      2 None true None
    = ([], Raise KeyError).
Proof.
  destruct small_table as [|o rest] eqn:E; [discriminate E|].
  exists o.
  assert (Hin : In o (o :: rest)) by now left.
  assert (Hno : ~ In (name_short o)
                  (ft_index (mk_feature_table [] ["mass"] [])))
    by (intros []).
  split; [exact Hin|]. split; [exact Hno|].
  apply (unknown_molecule_is_rejected (toy_runtime true) (o :: rest) o
           (mk_feature_table [] ["mass"] []) small_adducts "detection" false
           None 2 None true None eq_refl).
  - rewrite <- E. reflexivity.
  - exact Hin.
  - exact Hno.
  - intros H. discriminate H.
Defined.

Lemma loc_rows_found (t : feature_table) (keys : list string) :
  Forall (fun k => rows_labelled t k <> []) keys ->
  exists found,
    loc_rows t keys = Ok found /\
    List.length keys <= List.length found /\
    forall s, In s keys -> 2 <= List.length (rows_labelled t s) ->
              List.length keys < List.length found.
Proof.
  induction 1 as [|k keys Hk _ (rest & Hrest & Hle & Hlt)]; cbn [loc_rows].
  - exists []. repeat split; [cbn; lia | intros s []].
  - destruct (rows_labelled t k) as [|row found] eqn:E; [congruence|].
    rewrite Hrest. cbn [Py.bind]. eexists. split; [reflexivity|].
    rewrite length_app. cbn [List.length]. split; [lia|].
    intros s [->|Hin] H2.
    + rewrite E in H2. cbn [List.length] in H2. lia.
    + specialize (Hlt s Hin H2). lia.
Qed.

(** X13.  A label that occurs more than once in [features_df] and names
    a molecule of [Y] makes the lookup return more feature rows than [Y]
    has entities; re-indexing them with the index of [Y] fails with a
    ValueError, with and without adduct features. *)
Theorem repeated_feature_label_is_rejected (ua : bool)
    (features adducts : feature_table) (Y_index : list row_key)
    (k : row_key) (s : string) :
  Forall (fun k => exists name, nth_error k 0 = Some name /\
                                rows_labelled features name <> []) Y_index ->
  In k Y_index ->
  nth_error k 0 = Some s ->
  2 <= List.length (rows_labelled features s) ->
  feature_array ua features adducts Y_index = Raise ValueError.
Proof.
  intros Hall Hk Hs H2.
  unfold feature_array.
  rewrite (get_level_values_some 0 Y_index).
  2:{ revert Hall. apply Forall_impl. intros k' (name & -> & _). discriminate. }
  cbn [Py.bind].
  destruct (loc_rows_found features (map (fun k => nth 0 k ""%string) Y_index))
    as (found & Hfound & _ & Hlt).
  { apply Forall_map. revert Hall. apply Forall_impl.
    intros k' (name & Hn & Hrows). now rewrite (nth_error_nth _ _ _ Hn). }
  rewrite Hfound. cbn [Py.bind].
  assert (Hlen : List.length Y_index < List.length found).
  { assert (Hin : In s (map (fun k => nth 0 k ""%string) Y_index)).
    { apply in_map_iff. exists k. split; [|exact Hk].
      now apply nth_error_nth. }
    pose proof (Hlt s Hin H2) as H. rewrite length_map in H. exact H. }
  unfold with_index.
  destruct (Nat.eqb_spec (List.length found) (List.length Y_index)) as [E|_];
    [lia | reflexivity].
Qed.

(** X13 on a feature table that lists glucose twice. *)
Lemma repeated_feature_label_is_rejected_witness :
  feature_array false
    (mk_feature_table ["glucose"; "glucose"] ["mass"] [[Num 180]; [Num 181]])
    small_adducts [["glucose"]]
  = Raise ValueError.
Proof.
  apply (repeated_feature_label_is_rejected false
           (mk_feature_table ["glucose"; "glucose"] ["mass"]
              [[Num 180]; [Num 181]])
           small_adducts [["glucose"]] ["glucose"] "glucose").
  - constructor; [|constructor].
    exists "glucose"%string. split; [reflexivity|]. cbn. discriminate.
  - now left.
  - reflexivity.
  - cbn. lia.
Defined.

(** ** Attributions of ignored observations *)

Lemma select_agree {A : Type} (mask : list bool) :
  forall l l' : list A,
    List.length l = List.length l' ->
    (forall r, nth_error mask r = Some true ->
               nth_error l r = nth_error l' r) ->
    select mask l = select mask l'.
Proof.
  induction mask as [|m mask IH]; intros [|x l] [|x' l'] Hlen H;
    cbn [select]; try reflexivity; try discriminate Hlen.
  injection Hlen as Hlen.
  assert (Hrest : select mask l = select mask l').
  { apply IH; [exact Hlen|]. intros r Hr. apply (H (S r)). exact Hr. }
  destruct m; [|exact Hrest].
  specialize (H 0 eq_refl). cbn in H. injection H as ->. now rewrite Hrest.
Qed.

Lemma importance_loop_ext (shap shap' : list (ndarray Q)) (mask : ndarray cell)
    (names : list string) (cols : list col_key) :
  (forall i c, dimension_importance shap mask names i c
               = dimension_importance shap' mask names i c) ->
  forall i acc,
    importance_loop shap mask names i cols acc
    = importance_loop shap' mask names i cols acc.
Proof.
  intros H. induction cols as [|c cols IH]; intros i acc;
    cbn [importance_loop]; [reflexivity|].
  rewrite H. destruct (dimension_importance shap' mask names i c);
    cbn [Py.bind]; [apply IH | reflexivity].
Qed.

(** X14.  The feature-importance table depends on the attribution
    arrays only through the rows that the mask does not ignore: two runs
    whose attributions of every output dimension have the same shape and
    agree on the rows kept for that dimension give the same table, or
    fail alike. *)
Theorem ignored_rows_do_not_count (cols : list col_key)
    (shap shap' : list (ndarray Q)) (mask : ndarray cell)
    (names : list string) :
  List.length shap = List.length shap' ->
  (forall i a a',
     nth_error shap i = Some a -> nth_error shap' i = Some a' ->
     shape1 a = shape1 a' /\ shape0 a = shape0 a' /\
     forall r row,
       nth_error (rows mask) r = Some row ->
       cell_to_bool (nth i row NaN) = false ->
       nth_error (rows a) r = nth_error (rows a') r) ->
  feature_importance cols shap (Some mask) names
  = feature_importance cols shap' (Some mask) names.
Proof.
  intros Hlen Hagree. unfold feature_importance.
  rewrite (importance_loop_ext shap shap' mask names cols); [reflexivity|].
  intros i c. unfold dimension_importance.
  destruct (nth_error shap i) as [a|] eqn:Ea;
    destruct (nth_error shap' i) as [a'|] eqn:Ea'.
  - destruct (Hagree i a a' Ea Ea') as (H1 & H0 & Hrows).
    destruct (shape1 mask <=? i)%nat; [reflexivity|].
    unfold boolean_index. unfold shape0 in H0. rewrite <- H0, <- H1.
    rewrite (select_agree (kept_rows_of mask i) (rows a) (rows a') H0);
      [reflexivity|].
    intros r Hr. unfold kept_rows_of in Hr. rewrite nth_error_map in Hr.
    destruct (nth_error (rows mask) r) as [row|] eqn:Er; [|discriminate].
    cbn in Hr. injection Hr as Hr. apply negb_true_iff in Hr.
    now apply (Hrows r row).
  - apply nth_error_None in Ea'.
    assert (i < List.length shap) by (apply nth_error_Some; congruence). lia.
  - apply nth_error_None in Ea.
    assert (i < List.length shap') by (apply nth_error_Some; congruence). lia.
  - reflexivity.
Qed.

(** X14: one output dimension, two observations of which the second is
    ignored; its attribution is changed from 9 to 5. *)
Lemma ignored_rows_do_not_count_witness :
  feature_importance [("DHB", "positive")]
    [mk_ndarray 1 [[2 # 1]; [9 # 1]]]%Q
    (Some (mk_ndarray 1 [[Bool false]; [Bool true]])) ["mass"]
  = feature_importance [("DHB", "positive")]
      [mk_ndarray 1 [[2 # 1]; [5 # 1]]]%Q
      (Some (mk_ndarray 1 [[Bool false]; [Bool true]])) ["mass"].
Proof.
  apply (ignored_rows_do_not_count [("DHB"%string, "positive"%string)]
           [mk_ndarray 1 [[2 # 1]; [9 # 1]]]%Q
           [mk_ndarray 1 [[2 # 1]; [5 # 1]]]%Q
           (mk_ndarray 1 [[Bool false]; [Bool true]]) ["mass"%string]
           eq_refl).
  intros [|i] a a' Ha Ha'.
  - injection Ha as <-. injection Ha' as <-.
    split; [reflexivity|]. split; [reflexivity|].
    intros [|[|r]] row Hr Hc.
    + reflexivity.
    + injection Hr as <-. discriminate Hc.
    + destruct r; discriminate Hr.
  - destruct i; discriminate Ha.
Defined.

(* ================================================================= *)
(** * The long table of a run keyed by molecule and adduct *)

Lemma length_flat_map_blocks {A B : Type} (g : A -> list B) (l : list A)
    (m : nat) :
  (forall x, In x l -> List.length (g x) = m) ->
  List.length (flat_map g l) = List.length l * m.
Proof.
  induction l as [|x l IH]; intros H; cbn [flat_map List.length];
    [reflexivity|].
  rewrite length_app, (H x (or_introl eq_refl)), IH; [cbn; lia|].
  intros y Hy. apply H. now right.
Qed.

Lemma combine_map_map {A B C D : Type} (g : A -> C) (h : B -> D)
    (l : list A) (l' : list B) :
  combine (map g l) (map h l')
  = map (fun p => (g (fst p), h (snd p))) (combine l l').
Proof.
  revert l'. induction l as [|x l IH]; intros [|y l']; cbn;
    try reflexivity.
  now rewrite IH.
Qed.

(** *** Stacking a frame without NaN *)

Lemma stack_row_full (r : row_key) (cols : list col_key) (row : list cell) :
  Forall (fun c => cell_isna c = false) row ->
  flat_map
    (fun cv : col_key * cell =>
       if cell_isna (snd cv) then []
       else [(r ++ [fst (fst cv); snd (fst cv)], snd cv)])
    (combine cols row)
  = combine (map (fun c => r ++ [fst c; snd c]) cols) row.
Proof.
  revert row. induction cols as [|c cols IH]; intros [|v row] H; cbn;
    try reflexivity.
  inversion H as [|? ? Hv Hrow]; subst. rewrite Hv. cbn.
  f_equal. now apply IH.
Qed.

Lemma stack_full (idx : list row_key) (cols : list col_key)
    (vals : list (list cell)) :
  List.length vals = List.length idx ->
  Forall (fun row => List.length row = List.length cols /\
                     Forall (fun c => cell_isna c = false) row) vals ->
  stack idx cols vals
  = combine (flat_map (fun r => map (fun c => r ++ [fst c; snd c]) cols) idx)
            (List.concat vals).
Proof.
  unfold stack. revert vals.
  induction idx as [|r idx IH]; intros [|row vals] Hlen Hall;
    cbn in Hlen; try discriminate; [reflexivity|].
  inversion Hall as [|? ? [Hw Hn] Hrest]; subst.
  cbn [combine flat_map List.concat fst snd].
  rewrite combine_app_aligned by (rewrite length_map; now symmetry).
  f_equal; [exact (stack_row_full r cols row Hn)|].
  apply IH; [lia | exact Hrest].
Qed.

(** *** Joining two series with the same unique keys *)

Lemma find_key_unique (K : list (list string)) :
  forall (V : list cell) (k : list string) (v : cell),
    NoDup K -> In (k, v) (combine K V) ->
    find (fun e' : list string * cell =>
            if list_eq_dec string_dec (fst e') k then true else false)
         (combine K V)
    = Some (k, v).
Proof.
  induction K as [|k0 K IH]; intros [|v0 V] k v Hnd Hin; cbn in Hin;
    try contradiction.
  inversion Hnd as [|? ? Hk0 Hnd']; subst. cbn [combine find fst].
  destruct (list_eq_dec string_dec k0 k) as [E|Hne].
  - subst k0. destruct Hin as [E|Hin]; [now injection E as ->|].
    apply in_combine_l in Hin. contradiction.
  - destruct Hin as [E|Hin]; [injection E as E _; contradiction|].
    now apply IH.
Qed.

Lemma join_inner_pointwise (b : list (list string * cell)) :
  forall (K : list (list string)) (V V' : list cell),
    List.length V = List.length K -> List.length V' = List.length K ->
    (forall k v', In (k, v') (combine K V') ->
       find (fun e' : list string * cell =>
               if list_eq_dec string_dec (fst e') k then true else false) b
       = Some (k, v')) ->
    join_inner (combine K V) b = combine (combine K V) V'.
Proof.
  unfold join_inner.
  induction K as [|k K IH]; intros [|v V] [|v' V'] H1 H2 Hf; cbn in H1, H2;
    try discriminate; [reflexivity|].
  cbn [combine flat_map fst snd].
  rewrite (Hf k v' (or_introl eq_refl)). cbn [app snd]. f_equal.
  apply IH; [lia | lia |]. intros k1 v1 Hin. apply Hf. now right.
Qed.

Lemma join_inner_aligned (K : list (list string)) (V V' : list cell) :
  NoDup K ->
  List.length V = List.length K -> List.length V' = List.length K ->
  join_inner (combine K V) (combine K V') = combine (combine K V) V'.
Proof.
  intros Hnd H1 H2. apply join_inner_pointwise; [exact H1 | exact H2 |].
  intros k v' Hin. now apply find_key_unique.
Qed.

(** *** Keys of the long table *)

Lemma long_keys_NoDup (idx : list row_key) (cols : list col_key) :
  Forall (fun r => List.length r = 2) idx ->
  NoDup idx -> NoDup cols ->
  NoDup (flat_map (fun r => map (fun c => r ++ [fst c; snd c]) cols) idx).
Proof.
  intros H2 Hidx Hcols.
  induction Hidx as [|r idx Hr _ IH]; cbn [flat_map]; [constructor|].
  inversion H2 as [|? ? Hlen H2']; subst.
  apply NoDup_app.
  - clear - Hcols. induction Hcols as [|c cols Hc _ IHc]; cbn; constructor;
      [|exact IHc].
    intros Hin. apply in_map_iff in Hin as (c' & E & Hc').
    apply app_inv_head in E. destruct c as [m p], c' as [m' p'].
    cbn in E. injection E as -> ->. contradiction.
  - now apply IH.
  - intros k Hk Hk'.
    apply in_map_iff in Hk as (c & <- & _).
    apply in_flat_map in Hk' as (r' & Hr' & Hk').
    apply in_map_iff in Hk' as (c' & E & _).
    rewrite Forall_forall in H2'. specialize (H2' r' Hr').
    assert (Er : r' = r).
    { destruct r as [|a [|b [|x r]]]; try discriminate Hlen.
      destruct r' as [|a' [|b' [|x' r']]]; try discriminate H2'.
      cbn in E. now injection E as -> ->. }
    subst r'. contradiction.
Qed.

Lemma long_keys_levels (idx : list row_key) (cols : list col_key) (n : nat) :
  n < 2 ->
  Forall (fun k : list string => nth_error k n <> None)
    (flat_map (fun r => map (fun c => r ++ [fst c; snd c]) cols) idx).
Proof.
  intros Hn. apply Forall_forall. intros k Hk.
  apply in_flat_map in Hk as (r & _ & Hk).
  apply in_map_iff in Hk as (c & <- & _).
  apply nth_error_Some. rewrite length_app. cbn. lia.
Qed.

Lemma long_keys_labels (idx : list row_key) (cols : list col_key) :
  Forall (fun r => List.length r = 2) idx ->
  map (fun k => Tuple [nth 0 k ""%string; nth 1 k ""%string])
    (flat_map (fun r => map (fun c => r ++ [fst c; snd c]) cols) idx)
  = flat_map (fun r => repeat (label_of r) (List.length cols)) idx.
Proof.
  induction 1 as [|r idx Hr _ IH]; cbn [flat_map map]; [reflexivity|].
  rewrite map_app, IH, map_map. f_equal.
  destruct r as [|a [|b [|x r]]]; try discriminate Hr.
  cbn [app nth label_of]. apply map_const.
Qed.

(** *** The fold of an entity *)

Lemma label_of_two_levels (r r' : row_key) :
  List.length r = 2 -> List.length r' = 2 ->
  label_of r = label_of r' -> r = r'.
Proof.
  destruct r as [|a [|b [|x r]]]; destruct r' as [|a' [|b' [|x' r']]];
    cbn; try discriminate.
  intros _ _ E. now injection E as -> ->.
Qed.

Lemma fold_lookup_absent (l : list (row_key * cv_row)) (r : row_key) :
  List.length r = 2 ->
  Forall (fun rp => List.length (fst rp) = 2) l ->
  ~ In r (map fst l) ->
  filter (fun p : label * nat =>
            if label_eq_dec (fst p) (label_of r) then true else false)
         (map (fun rp => (label_of (fst rp), cv_fold (snd rp))) l)
  = [].
Proof.
  intros Hr. induction 1 as [|[r0 p0] l H0 _ IH]; intros Hn;
    cbn [map filter fst snd]; [reflexivity|].
  cbn [fst] in H0.
  destruct (label_eq_dec (label_of r0) (label_of r)) as [E|_].
  - apply label_of_two_levels in E; [|assumption..].
    exfalso. apply Hn. left. exact E.
  - apply IH. intros Hin. apply Hn. now right.
Qed.

Lemma fold_lookup_unique (l : list (row_key * cv_row)) (r : row_key)
    (p : cv_row) :
  Forall (fun rp => List.length (fst rp) = 2) l ->
  NoDup (map fst l) ->
  In (r, p) l ->
  map snd
    (filter (fun q : label * nat =>
               if label_eq_dec (fst q) (label_of r) then true else false)
            (map (fun rp => (label_of (fst rp), cv_fold (snd rp))) l))
  = [cv_fold p].
Proof.
  intros H2. induction H2 as [|[r0 p0] l H0 H2 IH]; intros Hnd Hin;
    [contradiction|].
  cbn [fst] in H0. cbn [map fst] in Hnd.
  inversion Hnd as [|? ? Hr0 Hnd']; subst.
  assert (Hr : List.length r = 2).
  { destruct Hin as [[= <- _]|Hin]; [exact H0|].
    rewrite Forall_forall in H2. exact (H2 _ Hin). }
  cbn [map filter fst snd].
  destruct (label_eq_dec (label_of r0) (label_of r)) as [E|Hne].
  - apply label_of_two_levels in E; [|assumption..]. subst r0.
    destruct Hin as [[= <-]|Hin].
    + cbn [map snd]. now rewrite (fold_lookup_absent l r Hr H2 Hr0).
    + exfalso. apply Hr0. apply in_map_iff. now exists (r, p).
  - destruct Hin as [[= -> _]|Hin]; [contradiction|]. now apply IH.
Qed.

Lemma loc_fold_repeat (L : list label) (FO : list nat) (k : label) (f : nat)
    (n : nat) (rest : list label) (restF : list nat) :
  map snd (filter (fun p => if label_eq_dec (fst p) k then true else false)
                  (combine L FO)) = [f] ->
  loc_fold L FO rest = Ok restF ->
  loc_fold L FO (repeat k n ++ rest) = Ok (repeat f n ++ restF).
Proof.
  intros Hk Hrest. induction n as [|n IH]; cbn [repeat app loc_fold];
    [exact Hrest|].
  rewrite Hk, IH. reflexivity.
Qed.

Lemma loc_fold_blocks (L : list label) (FO : list nat) (m : nat) :
  forall (idx : list row_key) (srt : list cv_row),
    List.length srt = List.length idx ->
    (forall r p, In (r, p) (combine idx srt) ->
       map snd (filter (fun q => if label_eq_dec (fst q) (label_of r)
                                 then true else false)
                       (combine L FO)) = [cv_fold p]) ->
    loc_fold L FO (flat_map (fun r => repeat (label_of r) m) idx)
    = Ok (flat_map (fun p => repeat (cv_fold p) m) srt).
Proof.
  induction idx as [|r idx IH]; intros [|p srt] Hlen Hlook; cbn in Hlen;
    try discriminate; [reflexivity|].
  cbn [flat_map]. apply loc_fold_repeat.
  - apply Hlook. now left.
  - apply IH; [lia|]. intros r' p' Hin. apply Hlook. now right.
Qed.

(** *** The four columns *)

Lemma long_table_lengths (idx : list row_key) (cols : list col_key)
    (f : row_key -> col_key -> cell) (srt : list cv_row) :
  List.length srt = List.length idx ->
  Forall (full_row (List.length cols)) srt ->
  let K := flat_map (fun r => map (fun c => r ++ [fst c; snd c]) cols) idx in
  List.length K = List.length idx * List.length cols /\
  List.length (flat_map (fun r => map (f r) cols) idx) = List.length K /\
  List.length (flat_map cv_pred srt) = List.length K /\
  List.length (flat_map (fun p => repeat (cv_fold p) (List.length cols)) srt)
  = List.length K.
Proof.
  intros Hlen Hfull K.
  assert (HK : List.length K = List.length idx * List.length cols).
  { apply length_flat_map_blocks. intros r _. apply length_map. }
  split; [exact HK|]. rewrite HK. split; [|split].
  - apply length_flat_map_blocks. intros r _. apply length_map.
  - rewrite <- Hlen. apply length_flat_map_blocks. intros r Hr.
    rewrite Forall_forall in Hfull. now apply Hfull.
  - rewrite <- Hlen. apply length_flat_map_blocks. intros r _.
    apply repeat_length.
Qed.

(** The reshaping of the results over a two-level row index: the series
    of observed values and of predictions are joined cell by cell, and
    every cell finds the fold of its entity. *)
Lemma reshape_results_two_level (idx : list row_key)
    (cols : list col_key) (f : row_key -> col_key -> cell)
    (rs : list cv_row) :
  Forall (fun r => List.length r = 2) idx ->
  NoDup idx -> NoDup cols ->
  (forall r c, cell_isna (f r c) = false) ->
  List.length rs = List.length idx ->
  Forall (full_row (List.length cols)) rs ->
  reshape_results (tabulate idx cols f) (Some (List.length cols, rs))
  = Ok (map2 (fun e fo =>
                mk_long_row (fst (fst e)) (snd (fst e)) (snd e) fo "NN")
          (combine
             (combine
                (flat_map (fun r => map (fun c => r ++ [fst c; snd c]) cols)
                   idx)
                (flat_map (fun r => map (f r) cols) idx))
             (flat_map cv_pred (sort_index rs)))
          (flat_map (fun p => repeat (cv_fold p) (List.length cols))
             (sort_index rs))).
Proof.
  intros H2 Hidx Hcols Hf Hlen Hfull.
  set (srt := sort_index rs).
  set (m := List.length cols).
  assert (Hsrt_len : List.length srt = List.length idx).
  { unfold srt. now rewrite (Permutation_length (sort_index_perm rs)). }
  assert (Hsrt_full : Forall (full_row m) srt).
  { apply Forall_forall. intros r Hr. rewrite Forall_forall in Hfull.
    apply Hfull. now apply (Permutation_in _ (sort_index_perm rs)). }
  destruct (long_table_lengths idx cols f srt Hsrt_len Hsrt_full)
    as (HK & HVY & HVP & HF).
  fold m in HK, HF.
  set (K := flat_map (fun r => map (fun c => r ++ [fst c; snd c]) cols) idx)
    in *.
  set (VY := flat_map (fun r => map (f r) cols) idx) in *.
  set (VP := flat_map cv_pred srt) in *.
  set (F := flat_map (fun p => repeat (cv_fold p) m) srt) in *.
  assert (Hgt : stack idx cols (values (tabulate idx cols f)) = combine K VY).
  { rewrite stack_full.
    - unfold K, VY. cbn [tabulate values]. f_equal.
      symmetry. apply flat_map_concat_map.
    - cbn [tabulate values]. apply length_map.
    - destruct (tabulate_cells idx cols f (fun c => cell_isna c = false) Hf)
        as [_ H].
      exact H. }
  assert (Hpred : stack idx cols (map cv_pred srt) = combine K VP).
  { rewrite stack_full.
    - unfold K, VP. f_equal. symmetry. apply flat_map_concat_map.
    - now rewrite length_map.
    - apply Forall_map. exact Hsrt_full. }
  set (R := combine (combine K VY) VP).
  assert (HR : List.length R = List.length K).
  { unfold R. rewrite !length_combine. lia. }
  assert (HRK : map (fun e : list string * cell * cell => fst (fst e)) R = K).
  { unfold R.
    destruct (combine_projections (combine K VY) VP) as [E1 _].
    { rewrite length_combine. lia. }
    destruct (combine_projections K VY (eq_sym HVY)) as [E2 _].
    rewrite <- E2 at 2. rewrite <- E1 at 2. now rewrite map_map. }
  assert (Hjoin : reshape_join (tabulate idx cols f) (Some (m, rs))
                  = Ok (srt, R)).
  { unfold reshape_join. fold srt. cbn [index columns tabulate].
    unfold with_index. rewrite length_map, Hsrt_len, Nat.eqb_refl.
    cbn [Py.bind]. fold m. rewrite Nat.eqb_refl.
    change (mk_frame idx cols (map (fun r => map (f r) cols) idx))
      with (tabulate idx cols f).
    rewrite Hgt, Hpred. unfold R.
    rewrite join_inner_aligned;
      [reflexivity | now apply long_keys_NoDup | exact HVY | exact HVP]. }
  unfold reshape_results. rewrite Hjoin. cbn [Py.bind].
  unfold attach_fold. rewrite HRK.
  rewrite !get_level_values_some by (apply long_keys_levels; lia).
  cbn [Py.bind]. rewrite map2_map.
  unfold K at 1. rewrite (long_keys_labels idx cols H2).
  cbn [index tabulate]. fold m.
  rewrite (loc_fold_blocks (map label_of idx) (map cv_fold srt) m idx srt
             Hsrt_len).
  - cbn [Py.bind]. fold F. rewrite HF, HR, Nat.eqb_refl. reflexivity.
  - intros r p Hin. rewrite combine_map_map.
    apply fold_lookup_unique; [| |exact Hin].
    + apply Forall_forall. intros [r' p'] Hin'.
      apply in_combine_l in Hin'. rewrite Forall_forall in H2.
      now apply H2.
    + destruct (combine_projections idx srt (eq_sym Hsrt_len)) as [E _].
      assert (Em : map fst (combine idx srt) = idx) by exact E.
      rewrite Em. exact Hidx.
Qed.

(** The columns of a long table that is put together from four equally
    long columns. *)
Lemma long_table_columns (K : list (list string)) (VY VP : list cell)
    (F : list nat) :
  List.length VY = List.length K ->
  List.length VP = List.length K ->
  List.length F = List.length K ->
  let table :=
    map2 (fun e fo =>
            mk_long_row (fst (fst e)) (snd (fst e)) (snd e) fo "NN")
      (combine (combine K VY) VP) F in
  map lr_levels table = K /\
  map observed_value table = VY /\
  map prediction table = VP /\
  map lr_fold table = F /\
  Forall (fun x => model_type x = "NN"%string) table /\
  List.length table = List.length K.
Proof.
  intros HVY HVP HF table. unfold table, map2.
  set (R := combine (combine K VY) VP).
  assert (HR : List.length R = List.length K).
  { unfold R. rewrite !length_combine. lia. }
  destruct (combine_projections R F) as [ER EF]; [lia|].
  destruct (combine_projections (combine K VY) VP) as [E1 E1'].
  { rewrite length_combine. lia. }
  destruct (combine_projections K VY (eq_sym HVY)) as [E2 E2'].
  fold R in E1, E1'.
  split; [|split; [|split; [|split; [|split]]]].
  - rewrite map_map. cbn [lr_levels].
    transitivity (map (fun kv : list string * cell => fst kv)
                    (map (fun e : list string * cell * cell => fst e)
                       (map (fun p => fst p) (combine R F))));
      [now rewrite !map_map | rewrite ER, E1; exact E2].
  - rewrite map_map. cbn [observed_value].
    transitivity (map (fun kv : list string * cell => snd kv)
                    (map (fun e : list string * cell * cell => fst e)
                       (map (fun p => fst p) (combine R F))));
      [now rewrite !map_map | rewrite ER, E1; exact E2'].
  - rewrite map_map. cbn [prediction].
    transitivity (map (fun e : list string * cell * cell => snd e)
                    (map (fun p => fst p) (combine R F)));
      [now rewrite map_map | rewrite ER; exact E1'].
  - rewrite map_map. cbn [lr_fold]. exact EF.
  - apply Forall_map, Forall_forall. reflexivity.
  - rewrite length_map, length_combine. lia.
Qed.

(** X15.  The long table of a cross-validation over a two-level row
    index.  Let [Y] have entities keyed by (molecule, adduct), each once,
    distinct (matrix, polarity) columns and no NaN, and let the table of
    held-out predictions have one row per entity, each with one
    prediction per column, none NaN.  Then the reshaping succeeds and the
    long table has one row per entity and column, entity by entity in the
    order of [Y]: its key columns are the levels of the entity followed
    by matrix and polarity, [observed_value] is [Y] read row by row,
    [prediction] is the predictions sorted by row number read row by row,
    [fold] repeats the fold of the sorted prediction row once per column,
    and [model_type] is "NN" throughout. *)
Theorem long_table_of_two_level_index (idx : list row_key)
    (cols : list col_key) (f : row_key -> col_key -> cell)
    (rs : list cv_row) :
  Forall (fun r => List.length r = 2) idx ->
  NoDup idx -> NoDup cols ->
  (forall r c, cell_isna (f r c) = false) ->
  List.length rs = List.length idx ->
  Forall (full_row (List.length cols)) rs ->
  exists table,
    reshape_results (tabulate idx cols f) (Some (List.length cols, rs))
    = Ok table /\
    map lr_levels table
    = flat_map (fun r => map (fun c => r ++ [fst c; snd c]) cols) idx /\
    map observed_value table = flat_map (fun r => map (f r) cols) idx /\
    map prediction table = flat_map cv_pred (sort_index rs) /\
    map lr_fold table
    = flat_map (fun p => repeat (cv_fold p) (List.length cols))
        (sort_index rs) /\
    Forall (fun x => model_type x = "NN"%string) table /\
    List.length table = List.length idx * List.length cols.
Proof.
  intros H2 Hidx Hcols Hf Hlen Hfull.
  assert (Hsrt_len : List.length (sort_index rs) = List.length idx).
  { now rewrite (Permutation_length (sort_index_perm rs)). }
  assert (Hsrt_full : Forall (full_row (List.length cols)) (sort_index rs)).
  { apply Forall_forall. intros r Hr. rewrite Forall_forall in Hfull.
    apply Hfull. now apply (Permutation_in _ (sort_index_perm rs)). }
  destruct (long_table_lengths idx cols f (sort_index rs) Hsrt_len Hsrt_full)
    as (HK & HVY & HVP & HF).
  eexists. split.
  { exact (reshape_results_two_level idx cols f rs H2 Hidx Hcols Hf Hlen
             Hfull). }
  destruct (long_table_columns _ _ _ _ HVY HVP HF)
    as (E1 & E2 & E3 & E4 & E5 & E6).
  split; [exact E1|]. split; [exact E2|]. split; [exact E3|].
  split; [exact E4|]. split; [exact E5|].
  rewrite E6. exact HK.
Qed.

(** X15 on two entities, one column and predictions that arrive in the
    order 1, 0. *)
Lemma long_table_of_two_level_index_witness :
  exists table,
    reshape_results
      (tabulate [["glucose"; "+H"]; ["glucose"; "+Na"]] [("DHB", "positive")]
         (fun _ _ => Num 7))
      (Some (1, [mk_cv_row 1 [Num 4] 0; mk_cv_row 0 [Num 3] 1]))
    = Ok table /\
    map prediction table = [Num 3; Num 4] /\
    map lr_fold table = [1; 0].
Proof.
  destruct (long_table_of_two_level_index
              [["glucose"; "+H"]; ["glucose"; "+Na"]]%string
              [("DHB", "positive")]%string
              (fun _ _ => Num 7)
              [mk_cv_row 1 [Num 4] 0; mk_cv_row 0 [Num 3] 1])
    as (table & Hrun & _ & _ & Hp & Hfo & _).
  - repeat constructor.
  - repeat constructor; cbn; intros H; intuition discriminate.
  - repeat constructor. intros [].
  - reflexivity.
  - reflexivity.
  - repeat constructor.
  - exists table. split; [exact Hrun|]. split; [exact Hp | exact Hfo].
Defined.

(* ================================================================= *)
(** * A cross-validation run from the table to the long table *)

(** ** The axes of a pivot hold every key once *)

Lemma string_compare_flip (x y : string) :
  String.compare x y = Gt -> String.compare y x = Lt.
Proof.
  rewrite String.compare_antisym.
  destruct (String.compare y x); cbn; congruence.
Qed.

Lemma string_compare_trans (x y z : string) (c : comparison) :
  String.compare x y = c -> String.compare y z = c ->
  String.compare x z = c.
Proof.
  destruct c; intros H1 H2.
  - apply string_compare_eq in H1, H2. subst. now apply string_compare_eq.
  - apply String_as_OT.cmp_lt. apply String_as_OT.cmp_lt in H1, H2.
    exact (String_as_OT.lt_trans _ _ _ H1 H2).
  - apply string_compare_flip in H1, H2.
    apply String_as_OT.cmp_lt in H1, H2.
    pose proof (String_as_OT.lt_trans _ _ _ H2 H1) as H.
    apply String_as_OT.cmp_lt in H. unfold String_as_OT.cmp in H.
    rewrite String.compare_antisym, H. reflexivity.
Qed.

Section SortUniqueSorted.

Variable K : Type.
Variable cmp : K -> K -> comparison.
Hypothesis cmp_eq : forall x y, cmp x y = Eq <-> x = y.
Hypothesis cmp_trans :
  forall x y z, cmp x y = Lt -> cmp y z = Lt -> cmp x z = Lt.
Hypothesis cmp_flip : forall x y, cmp x y = Gt -> cmp y x = Lt.

Lemma insert_key_sorted (k : K) (l : list K) :
  StronglySorted (fun a b => cmp a b = Lt) l ->
  StronglySorted (fun a b => cmp a b = Lt) (insert_key cmp k l).
Proof.
  induction 1 as [|h t Hs IH Hh]; cbn [insert_key].
  - repeat constructor.
  - destruct (cmp k h) eqn:E.
    + now constructor.
    + constructor; [now constructor|]. constructor; [exact E|].
      revert Hh. apply Forall_impl. intros x Hx.
      now apply (cmp_trans k h x).
    + constructor; [exact IH|]. apply Forall_forall. intros x Hx.
      apply (In_insert_key K cmp cmp_eq) in Hx as [->|Hx];
        [now apply cmp_flip|].
      rewrite Forall_forall in Hh. now apply Hh.
Qed.

Lemma sort_unique_sorted (l : list K) :
  StronglySorted (fun a b => cmp a b = Lt) (sort_unique cmp l).
Proof.
  unfold sort_unique. induction l as [|k l IH]; cbn [fold_right];
    [constructor|].
  now apply insert_key_sorted.
Qed.

Lemma sort_unique_NoDup (l : list K) : NoDup (sort_unique cmp l).
Proof.
  pose proof (sort_unique_sorted l) as H.
  induction H as [|h t _ IH Hh]; constructor; [|exact IH].
  intros Hin. rewrite Forall_forall in Hh. specialize (Hh h Hin).
  assert (E : cmp h h = Eq) by now apply cmp_eq.
  congruence.
Qed.

End SortUniqueSorted.

Lemma row_axis_NoDup (l : list row_key) :
  NoDup (sort_unique row_key_compare l).
Proof.
  apply sort_unique_NoDup.
  - apply row_key_compare_eq.
  - intros x y z. unfold row_key_compare.
    apply list_compare_trans.
    + apply string_compare_eq.
    + intros a b c k. apply string_compare_trans.
    + intros a b. apply String.compare_antisym.
  - intros x y H. unfold row_key_compare in *.
    rewrite (list_compare_antisym _ string_compare_eq x y), H; [reflexivity|].
    intros a b. apply String.compare_antisym.
Qed.

Lemma col_axis_NoDup (l : list col_key) :
  NoDup (sort_unique col_key_compare l).
Proof.
  apply sort_unique_NoDup.
  - apply col_key_compare_eq.
  - intros [m1 p1] [m2 p2] [m3 p3]. unfold col_key_compare. cbn [fst snd].
    destruct (String.compare m1 m2) eqn:E12;
      destruct (String.compare m2 m3) eqn:E23; try discriminate;
      intros H1 H2.
    + rewrite (string_compare_trans m1 m2 m3 Eq E12 E23).
      exact (string_compare_trans p1 p2 p3 Lt H1 H2).
    + apply string_compare_eq in E12. subst m2. now rewrite E23.
    + apply string_compare_eq in E23. subst m3. now rewrite E12.
    + now rewrite (string_compare_trans m1 m2 m3 Lt E12 E23).
  - intros [m1 p1] [m2 p2]. unfold col_key_compare. cbn [fst snd].
    destruct (String.compare m1 m2) eqn:E; try discriminate; intros H.
    + apply string_compare_eq in E. subst m2.
      replace (String.compare m1 m1) with Eq
        by (symmetry; now apply string_compare_eq).
      now apply string_compare_flip.
    + now rewrite (string_compare_flip m1 m2 E).
Qed.

(** ** Rows of the feature matrix *)

Lemma feature_array_rows (ua : bool) (features adducts : feature_table)
    (idx : list row_key) (X : ndarray cell) :
  feature_array ua features adducts idx = Ok X ->
  shape0 X = List.length idx.
Proof.
  unfold feature_array.
  destruct (get_level_values 0 idx) as [names|]; [|discriminate].
  cbn [Py.bind].
  destruct (loc_rows features names) as [found|]; [|discriminate].
  cbn [Py.bind]. unfold with_index at 1.
  destruct (Nat.eqb_spec (List.length found) (List.length idx)) as [E|];
    [|discriminate].
  cbn [Py.bind]. destruct ua.
  - destruct (get_level_values 1 idx) as [ads|]; [|discriminate].
    cbn [Py.bind].
    destruct (loc_rows adducts ads) as [found'|]; [|discriminate].
    cbn [Py.bind]. unfold with_index.
    destruct (Nat.eqb_spec (List.length found') (List.length idx)) as [E'|];
      [|discriminate].
    cbn [Py.bind]. intros [= <-]. unfold shape0, map2. cbn [rows].
    rewrite length_map, length_combine. lia.
  - intros [= <-]. exact E.
Qed.

(** ** The table of held-out predictions *)

Lemma cross_val_loop_table (env : runtime) (X Y : ndarray cell)
    (task_name : string) (classes : list nat)
    (mask : option (ndarray cell)) (epochs batch : nat) (lr : Q)
    (folds hidden : nat) (splits : list (list nat * list nat)) :
  fits_every_model env ->
  predicts_in_batches env ->
  predicts_full_rows env ->
  0 < batch ->
  In task_name ["ranking"; "detection"] ->
  (task_name = "ranking" -> neuralNDCG env <> None) ->
  skf_split env folds (shape0 X) classes = Ok splits ->
  Forall (fun s => snd s <> []) splits ->
  Permutation (List.concat (map snd splits)) (seq 0 (shape0 X)) ->
  0 < shape0 X ->
  exists model rs,
    num_feat model = hidden /\
    nb_in_feat model = shape1 X /\
    nb_out_feat model = shape1 Y /\
    train_torch_model_cross_val_loop env X Y task_name classes mask epochs
      batch lr folds hidden
    = (EvSplit folds
       :: flat_map (fun _ => [EvModel model; EvFit epochs; EvPredict]) splits,
       Ok (Some (shape1 Y, rs))) /\
    Permutation (map cv_index rs) (seq 0 (shape0 X)) /\
    Forall (full_row (shape1 Y)) rs /\
    forall r, In r rs ->
      exists train_index test_index,
        nth_error splits (cv_fold r) = Some (train_index, test_index) /\
        In (cv_index r) test_index.
Proof.
  intros Hfit Hpred Hfull Hbatch Htask Hloss Hsplit Hne Hpart Hpos.
  pose proof (partition_in_range splits (shape0 X) Hne Hpart) as Hrange.
  rewrite <- (dataset_rows_test X) in Hrange.
  assert (Hrun : exists act lf t,
    train_torch_model_cross_val_loop env X Y task_name classes mask epochs
      batch lr folds hidden
    = (EvSplit folds
       :: flat_map
            (fun _ =>
               [EvModel (mk_SimpleTwoLayersNN hidden (shape1 X) (shape1 Y) lf
                           lr act (task_is task_name "detection"));
                EvFit epochs; EvPredict])
            splits,
       Ok t) /\
    Permutation (map cv_index (table_rows t)) (seq 0 (shape0 X)) /\
    forall r, In r (table_rows t) ->
      exists train_index test_index,
        nth_error splits (cv_fold r) = Some (train_index, test_index) /\
        In (cv_index r) test_index).
  { unfold train_torch_model_cross_val_loop. cbv zeta.
    rewrite (torch_name_imported env _ (fits_imply_torch env Hfit)),
      bind_lift_ok.
    assert (Hsel : exists act lf,
      (if task_is task_name "ranking"
       then IO.bind (IO.lift (NeuralNDCGLoss_init env []))
              (fun l => IO.ret (@None activation, RankingLoss l))
       else if task_is task_name "detection"
            then IO.ret (Some Sigmoid, SorensenDiceLoss)
            else IO.raise ValueError)
      = IO.ret (act, lf)).
    { destruct Htask as [<-|[<-|[]]].
      - change (task_is "ranking" "ranking") with true. cbv iota.
        unfold NeuralNDCGLoss_init.
        destruct (neuralNDCG env) as [f|]; [|now elim (Hloss eq_refl)].
        rewrite bind_lift_ok. eauto.
      - change (task_is "detection" "ranking") with false.
        change (task_is "detection" "detection") with true. cbv iota.
        eauto. }
    destruct Hsel as (act & lf & ->).
    rewrite bind_ret. cbv beta iota zeta.
    rewrite Hsplit, bind_call_ok.
    destruct (enumerate_loop_rows env Hfit Hpred X Y task_name
                (TrainValData (astype_float32 X) (astype_float32 Y)
                   (option_map astype_float32 mask))
                (TestData (astype_float32 X)) lf act epochs batch lr
                hidden Hbatch splits Hrange 0 None)
      as (tr & t & new & Hrun & Htags & Hperm & Hfold).
    destruct (enumerate_loop_trace env Hfit Hpred X Y task_name
                (TrainValData (astype_float32 X) (astype_float32 Y)
                   (option_map astype_float32 mask))
                (TestData (astype_float32 X)) lf act epochs batch lr
                hidden Hbatch splits Hrange 0 None) as [t' Htrace].
    cbv zeta in Hrun, Htrace. rewrite Hrun in Htrace.
    injection Htrace as Htr _. subst tr.
    rewrite Hrun. cbn [IO.trace IO.outcome fst snd].
    cbn [table_rows tags map app] in Htags.
    exists act, lf, t. split; [reflexivity|]. split.
    - replace (map cv_index (table_rows t))
        with (map fst (tags (table_rows t)))
        by (unfold tags; rewrite map_map; reflexivity).
      rewrite Htags. now rewrite Hperm.
    - intros r Hin.
      assert (Hp : In (cv_index r, cv_fold r) new).
      { rewrite <- Htags. unfold tags.
        apply (in_map (fun r => (cv_index r, cv_fold r))), Hin. }
      destruct (Hfold _ Hp) as (k & tri & tei & Hk & Hf & Hi).
      cbn in Hf, Hi. subst k. eauto. }
  destruct Hrun as (act & lf & t & Hrun & Hperm & Hfold).
  assert (Ht : full_table (shape1 Y) t).
  { apply (cross_val_loop_full env X Y task_name classes mask epochs batch lr
             folds hidden t Hfull).
    now rewrite Hrun. }
  destruct t as [[w rs]|].
  - destruct Ht as [-> Hrows]. cbn [table_rows] in Hperm, Hfold.
    eexists. exists rs.
    split; [|split; [|split; [|split; [exact Hrun|auto]]]]; reflexivity.
  - cbn [table_rows map] in Hperm. apply Permutation_length in Hperm.
    rewrite length_seq in Hperm. cbn in Hperm. lia.
Qed.

Lemma flat_map_map_blocks {A B C : Type} (g : A -> B) (h : B -> list C)
    (l : list A) :
  flat_map (fun x => h (g x)) l = flat_map h (map g l).
Proof.
  induction l as [|x l IH]; cbn; [reflexivity|]. now rewrite IH.
Qed.

(** X16.  A cross-validation run with adduct features, from the table
    to the long table.  Assume torch is imported, the task is "ranking"
    (with allRank) or "detection", the table reshapes to frames with at
    least one entity, every entity has its feature rows, k-means returns
    labels, the split returns folds whose held-out sets are not empty and
    partition the entities, every fit succeeds, and prediction works
    batch by batch as the loader makes them and returns one value per
    output column for every row of a batch.  Every entity is then
    predicted, as the test loader of a fold does not drop its last batch,
    and the run calls k-means, splits once and, fold after fold, builds a
    network with 32 hidden features, one input per column of [X] and one
    output per column of [Y], fits it for 20 epochs and predicts; and it
    returns a long table with one row per entity and (matrix, polarity)
    column, entity by entity in the order of [Y]: keyed by molecule,
    adduct, matrix and polarity, with the cell of the target as
    [observed_value], with "NN" as [model_type], and with a [fold] that is
    the same on the rows of an entity and names the fold whose held-out
    set contains the entity. *)
Theorem cross_validation_run_returns_long_table (env : runtime)
    (df : list observation) (features adducts : feature_table)
    (task_name : string) (csv : option string) (folds : nat)
    (checkpoint : option string) (names : option (list string))
    (fr : training_frames) (X : ndarray cell) (Y : frame)
    (mask : option (ndarray cell)) (labels : list nat)
    (splits : list (list nat * list nat)) :
  torch_imported env = true ->
  fits_every_model env ->
  predicts_in_batches env ->
  predicts_full_rows env ->
  In task_name ["ranking"; "detection"] ->
  (task_name = "ranking" -> neuralNDCG env <> None) ->
  reshape_to_training_format true task_name df = Ok fr ->
  index (tf_Y fr) <> [] ->
  feature_array true features adducts (index (tf_Y fr)) = Ok X ->
  kmeans_labels env (tf_Y fr) = Ok labels ->
  select_target task_name fr = Ok (Y, mask) ->
  skf_split env folds (List.length (index Y)) labels = Ok splits ->
  Forall (fun s => snd s <> []) splits ->
  Permutation (List.concat (map snd splits))
    (seq 0 (List.length (index Y))) ->
  exists model table fold_of,
    num_feat model = 32 /\
    nb_in_feat model = shape1 X /\
    nb_out_feat model = List.length (columns Y) /\
    train_pytorch_model_on_intensities env df features adducts task_name
      false csv folds checkpoint true names
    = (EvKMeans :: EvSplit folds
       :: flat_map (fun _ => [EvModel model; EvFit 20; EvPredict]) splits,
       Ok (LongTable table)) /\
    map lr_levels table
    = flat_map (fun r => map (fun c => r ++ [fst c; snd c]) (columns Y))
        (index Y) /\
    map observed_value table = List.concat (values Y) /\
    map lr_fold table
    = flat_map (fun k => repeat k (List.length (columns Y))) fold_of /\
    List.length fold_of = List.length (index Y) /\
    (forall i k, nth_error fold_of i = Some k ->
       exists train_index test_index,
         nth_error splits k = Some (train_index, test_index) /\
         In i test_index) /\
    Forall (fun x => model_type x = "NN"%string) table /\
    List.length table = List.length (index Y) * List.length (columns Y).
Proof.
  intros Ht Hfit Hpred Hfull Htask Hloss Hfr Hne HX Hk Hsel Hsplit Hsne
    Hpart.
  destruct (cv_target_shape true task_name df fr Y mask Hfr Hsel Htask)
    as [Hkeys (f & HY & Hf)].
  assert (Hidx : NoDup (index (tf_Y fr))).
  { pose proof (reshape_closed_form true task_name df
                  (reshape_ok_no_dup true task_name df fr Hfr)) as Hc.
    cbv zeta in Hc. rewrite Hfr in Hc. injection Hc as ->.
    cbn [tf_Y index tabulate].
    destruct (task_is task_name "ranking");
      [apply NoDup_filter|]; apply row_axis_NoDup. }
  set (idx := index (tf_Y fr)) in *.
  set (cols := sort_unique col_key_compare (map column_key df)) in *.
  assert (Hcols : NoDup cols) by apply col_axis_NoDup.
  assert (H2 : Forall (fun r => List.length r = 2) idx).
  { apply Forall_forall. intros r Hr.
    destruct (Hkeys r Hr) as (o & _ & <-). reflexivity. }
  pose proof (feature_array_rows true features adducts idx X HX) as Hrows.
  rewrite (orchestrator_cross_validation_call env df features adducts
             task_name csv folds checkpoint true names fr X labels Y mask
             Ht Hfr HX Hk Hsel).
  cbv zeta. subst Y. cbn [index columns values tabulate] in *.
  change (mk_frame idx cols (map (fun r => map (f r) cols) idx))
    with (tabulate idx cols f).
  destruct (cross_val_loop_table env X (to_numpy (tabulate idx cols f))
              task_name labels mask 20 8 (1 # 100)%Q folds 32 splits
              Hfit Hpred Hfull ltac:(lia) Htask Hloss)
    as (model & rs & Hm1 & Hm2 & Hm3 & Hrun & Hperm & Hrs & Hfold).
  { now rewrite Hrows. }
  { exact Hsne. }
  { now rewrite Hrows. }
  { rewrite Hrows. destruct idx; [contradiction | cbn; lia]. }
  cbn [to_numpy shape1 columns tabulate] in Hrun, Hrs, Hm3.
  rewrite Hrows in Hperm.
  assert (Hlen : List.length rs = List.length idx).
  { apply Permutation_length in Hperm.
    now rewrite length_map, length_seq in Hperm. }
  pose proof (reshape_results_two_level idx cols f rs H2 Hidx Hcols Hf Hlen
                Hrs) as Hres.
  assert (Hsrt_len : List.length (sort_index rs) = List.length idx).
  { now rewrite (Permutation_length (sort_index_perm rs)). }
  assert (Hsrt_full : Forall (full_row (List.length cols)) (sort_index rs)).
  { apply Forall_forall. intros r Hr. rewrite Forall_forall in Hrs.
    apply Hrs. now apply (Permutation_in _ (sort_index_perm rs)). }
  destruct (long_table_lengths idx cols f (sort_index rs) Hsrt_len Hsrt_full)
    as (HK & HVY & HVP & HF).
  destruct (long_table_columns _ _ _ _ HVY HVP HF)
    as (Hlev & Hobs & _ & Hfo & Hnn & Htl).
  rewrite HK in Htl.
  match type of Hres with
  | _ = Ok ?t => set (table := t) in *
  end.
  exists model, table, (map cv_fold (sort_index rs)).
  split; [exact Hm1|]. split; [exact Hm2|]. split; [exact Hm3|].
  split.
  { rewrite Hrun. cbn [IO.bind IO.trace IO.outcome fst snd].
    rewrite Hres. cbn. now rewrite app_nil_r. }
  split; [exact Hlev|].
  split; [rewrite Hobs; apply flat_map_concat_map|].
  split.
  { rewrite Hfo.
    exact (flat_map_map_blocks cv_fold
             (fun k => repeat k (List.length cols)) (sort_index rs)). }
  split.
  { rewrite length_map, (Permutation_length (sort_index_perm rs)).
    exact Hlen. }
  split; [|split; [exact Hnn | exact Htl]].
  intros i k Hi.
  rewrite nth_error_map in Hi.
  destruct (nth_error (sort_index rs) i) as [p|] eqn:Ep; [|discriminate].
  cbn in Hi. injection Hi as <-.
  assert (Hin : In p rs).
  { apply (Permutation_in _ (sort_index_perm rs)).
    exact (nth_error_In _ _ Ep). }
  destruct (Hfold p Hin) as (tri & tei & Hs & Hp).
  exists tri, tei. split; [exact Hs|].
  pose proof (sort_index_indices rs (List.length idx) Hperm) as Hseq.
  apply (map_nth_error cv_index) in Ep. rewrite Hseq in Ep.
  assert (Hlt : i < List.length idx).
  { rewrite <- (length_seq (List.length idx) 0). apply nth_error_Some.
    congruence. }
  rewrite (nth_error_nth' _ 0) in Ep by (rewrite length_seq; exact Hlt).
  rewrite seq_nth in Ep by exact Hlt. injection Ep as Ep. cbn in Ep.
  now rewrite Ep.
Qed.

(** X16 on the small table: three entities, two columns, two folds. *)
Lemma cross_validation_run_returns_long_table_witness :
  exists model table,
    train_pytorch_model_on_intensities (toy_runtime false) small_table
      small_features small_adducts "detection" false None 2 None true
      (Some ["is_H"; "is_Na"])
    = ([EvKMeans; EvSplit 2; EvModel model; EvFit 20; EvPredict;
        EvModel model; EvFit 20; EvPredict],
       Ok (LongTable table)) /\
    List.length table = 6 /\
    map lr_fold table = [0; 0; 1; 1; 0; 0].
Proof.
  destruct (reshape_to_training_format true "detection" small_table)
    as [fr|] eqn:Hfr; [|discriminate Hfr].
  vm_compute in Hfr. injection Hfr as Efr.
  assert (Hfr : reshape_to_training_format true "detection" small_table
                = Ok fr) by (now rewrite <- Efr).
  assert (Hin : In "detection" ["ranking"; "detection"]) by (cbn; tauto).
  destruct (feature_array true small_features small_adducts
              (index (tf_Y fr))) as [X|] eqn:HX.
  2:{ rewrite <- Efr in HX. vm_compute in HX. discriminate HX. }
  destruct (cross_validation_run_returns_long_table (toy_runtime false)
              small_table small_features small_adducts "detection" None 2
              None (Some ["is_H"; "is_Na"]) fr X
              (tf_Y_detected fr) (Some (to_numpy (tf_Y_is_na fr)))
              [0; 0; 0]
              [([1], [0; 2]); ([0; 2], [1])]
              eq_refl (toy_runtime_fits false) (toy_runtime_predicts false)
              (toy_runtime_full_rows false) Hin)
    as (model & table & fold_of & _ & _ & _ & Hrun & _ & _ & Hfo & Hfl
        & Hfold & _ & Hlen).
  - intros H. discriminate H.
  - exact Hfr.
  - rewrite <- Efr. discriminate.
  - exact HX.
  - rewrite <- Efr. reflexivity.
  - reflexivity.
  - rewrite <- Efr. reflexivity.
  - repeat constructor; discriminate.
  - rewrite <- Efr. cbn. apply perm_skip, perm_swap.
  - exists model, table. split; [exact Hrun|].
    rewrite <- Efr in Hlen, Hfo, Hfl. cbn in Hlen, Hfo, Hfl.
    split; [exact Hlen|].
    destruct fold_of as [|k0 [|k1 [|k2 [|k3 fold_of]]]];
      try discriminate Hfl.
    destruct (Hfold 0 k0 eq_refl) as (a0 & b0 & H0 & I0).
    destruct (Hfold 1 k1 eq_refl) as (a1 & b1 & H1 & I1).
    destruct (Hfold 2 k2 eq_refl) as (a2 & b2 & H2 & I2).
    assert (E0 : k0 = 0).
    { destruct k0 as [|[|k]]; [reflexivity | |].
      - cbn in H0. injection H0 as <- <-. cbn in I0. intuition discriminate.
      - cbn in H0. destruct k; discriminate H0. }
    assert (E1 : k1 = 1).
    { destruct k1 as [|[|k]]; [|reflexivity|].
      - cbn in H1. injection H1 as <- <-. cbn in I1. intuition discriminate.
      - cbn in H1. destruct k; discriminate H1. }
    assert (E2 : k2 = 0).
    { destruct k2 as [|[|k]]; [reflexivity | |].
      - cbn in H2. injection H2 as <- <-. cbn in I2. intuition discriminate.
      - cbn in H2. destruct k; discriminate H2. }
    subst. exact Hfo.
Defined.
